(** * The HTTP/2 upstream bridge of shrpx (shrpx_http2_upstream.cc)

    A shallow embedding of the callbacks that [Http2Upstream] registers
    with the HTTP/2 codec and with the origin connection, and the
    properties of them that the specification states.

    The bridge is single threaded: every callback runs to completion on
    the session's state.  A callback is embedded as a computation over

    - the stream table [downstream_queue_] and the [Downstream] objects
      it points to (a store of objects addressed by pointers, since the
      callbacks reach a [Downstream] through the table, through the
      origin connection and through the codec's data source alike);
    - the SETTINGS timer handle [settings_timerev_];
    - the list of calls made to the collaborators (codec, origin
      connection, event loop), in the order they are made.

    What the collaborators answer (return values of the codec's submit
    functions, of the origin connection, of libevent) is not decided by
    this file's code; a callback reads these answers from an [Env].

    Logging ([LOG_ENABLED], [ULOG], [DCLOG], the frame-debug hooks and
    [dump_nv]) does not touch the session and is left out. *)

From Stdlib Require Import ZArith String Ascii List DecimalString.
From stdpp Require Import base decidable option list gmap strings.

Local Open Scope Z_scope.
Local Open Scope string_scope.

(** ** Constants of the codec's public header

    The numeric values are those of nghttp2.h, which is not among the
    sources under verification; error codes are the HTTP/2 wire codes. *)

Abbreviation nghttp2_error_code := Z (only parsing).

Definition NGHTTP2_NO_ERROR : nghttp2_error_code := 0.
Definition NGHTTP2_PROTOCOL_ERROR : nghttp2_error_code := 1.
Definition NGHTTP2_INTERNAL_ERROR : nghttp2_error_code := 2.
Definition NGHTTP2_SETTINGS_TIMEOUT : nghttp2_error_code := 4.
Definition NGHTTP2_REFUSED_STREAM : nghttp2_error_code := 7.

Definition NGHTTP2_FLAG_NONE : Z := 0.
Definition NGHTTP2_FLAG_END_STREAM : Z := 1.
Definition NGHTTP2_FLAG_ACK : Z := 1.

Definition NGHTTP2_ERR_DEFERRED : Z := -508.
Definition NGHTTP2_ERR_TEMPORAL_CALLBACK_FAILURE : Z := -521.
Definition NGHTTP2_ERR_FATAL : Z := -900.
Definition NGHTTP2_ERR_CALLBACK_FAILURE : Z := -902.

Definition OUTBUF_MAX_THRES : Z := 64 * 1024.

(** [size_t] arithmetic (64-bit). *)
Definition size_t_add (a b : Z) : Z := (a + b) mod 2 ^ 64.

Inductive frame_type :=
| NGHTTP2_DATA | NGHTTP2_HEADERS | NGHTTP2_PRIORITY | NGHTTP2_RST_STREAM
| NGHTTP2_SETTINGS | NGHTTP2_PUSH_PROMISE | NGHTTP2_PING | NGHTTP2_GOAWAY
| NGHTTP2_WINDOW_UPDATE.

Inductive headers_category :=
| NGHTTP2_HCAT_REQUEST | NGHTTP2_HCAT_RESPONSE
| NGHTTP2_HCAT_PUSH_RESPONSE | NGHTTP2_HCAT_HEADERS.

#[global] Instance frame_type_eq_dec : EqDecision frame_type.
Proof. solve_decision. Defined.
#[global] Instance headers_category_eq_dec : EqDecision headers_category.
Proof. solve_decision. Defined.

(** The fields of [nghttp2_frame] that the callbacks read. *)
Record nghttp2_frame := {
  hd_type : frame_type;
  hd_flags : Z;
  hd_stream_id : Z;
  headers_cat : headers_category;
  headers_pri : Z;
  priority_pri : Z;
  push_promise_promised_stream_id : Z
}.

(** ** Streams *)

(** [Headers] is a vector of name/value pairs. *)
Abbreviation Headers := (list (string * string)) (only parsing).

(** An [evbuffer] is a queue of bytes. *)
Abbreviation evbuffer := (list ascii) (only parsing).

(** Pointers to [Downstream] objects and handles of origin connections. *)
Abbreviation ptr := positive (only parsing).
Abbreviation dconn_t := positive (only parsing).

(** Modelled from the spec: the enumeration of class [Downstream] is
    declared outside these sources.  These are the states of the request
    side and of the response side that the bridge and the spec name. *)
Inductive dstate :=
| INITIAL | HEADER_COMPLETE | MSG_COMPLETE | STREAM_CLOSED | CONNECT_FAIL
| MSG_RESET.

#[global] Instance dstate_eq_dec : EqDecision dstate.
Proof. solve_decision. Defined.

(** Modelled from the spec: class [Downstream] is declared outside these
    sources.  These are the members that the bridge reads and writes
    through the accessors of the class; the spec's data model lists them
    as the attributes of a Stream. *)
Record Downstream := mkDownstream {
  stream_id : Z;
  priority : Z;
  request_state : dstate;
  response_state : dstate;
  request_headers : Headers;
  request_headers_sum : Z;
  request_method : string;
  request_http2_scheme : string;
  request_http2_authority : string;
  request_path : string;
  upgrade_request : bool;
  upgraded : bool;
  response_connection_close : bool;
  response_rst_stream_error_code : nghttp2_error_code;
  response_body_buf : option evbuffer;
  downstream_connection : option dconn_t
}.

Definition with_request_state (s : dstate) (d : Downstream) : Downstream :=
  mkDownstream (stream_id d) (priority d) s (response_state d)
    (request_headers d) (request_headers_sum d) (request_method d)
    (request_http2_scheme d) (request_http2_authority d) (request_path d)
    (upgrade_request d) (upgraded d) (response_connection_close d)
    (response_rst_stream_error_code d) (response_body_buf d)
    (downstream_connection d).

Definition with_response_state (s : dstate) (d : Downstream) : Downstream :=
  mkDownstream (stream_id d) (priority d) (request_state d) s
    (request_headers d) (request_headers_sum d) (request_method d)
    (request_http2_scheme d) (request_http2_authority d) (request_path d)
    (upgrade_request d) (upgraded d) (response_connection_close d)
    (response_rst_stream_error_code d) (response_body_buf d)
    (downstream_connection d).

Definition with_request_headers (h : Headers) (sum : Z) (d : Downstream)
  : Downstream :=
  mkDownstream (stream_id d) (priority d) (request_state d) (response_state d)
    h sum (request_method d)
    (request_http2_scheme d) (request_http2_authority d) (request_path d)
    (upgrade_request d) (upgraded d) (response_connection_close d)
    (response_rst_stream_error_code d) (response_body_buf d)
    (downstream_connection d).

Definition with_request_line (method scheme authority path : string)
    (d : Downstream) : Downstream :=
  mkDownstream (stream_id d) (priority d) (request_state d) (response_state d)
    (request_headers d) (request_headers_sum d) method scheme authority path
    (upgrade_request d) (upgraded d) (response_connection_close d)
    (response_rst_stream_error_code d) (response_body_buf d)
    (downstream_connection d).

Definition with_upgrade_request (b : bool) (d : Downstream) : Downstream :=
  mkDownstream (stream_id d) (priority d) (request_state d) (response_state d)
    (request_headers d) (request_headers_sum d) (request_method d)
    (request_http2_scheme d) (request_http2_authority d) (request_path d)
    b (upgraded d) (response_connection_close d)
    (response_rst_stream_error_code d) (response_body_buf d)
    (downstream_connection d).

Definition with_response_body_buf (b : option evbuffer) (d : Downstream)
  : Downstream :=
  mkDownstream (stream_id d) (priority d) (request_state d) (response_state d)
    (request_headers d) (request_headers_sum d) (request_method d)
    (request_http2_scheme d) (request_http2_authority d) (request_path d)
    (upgrade_request d) (upgraded d) (response_connection_close d)
    (response_rst_stream_error_code d) b
    (downstream_connection d).

Definition with_downstream_connection (c : option dconn_t) (d : Downstream)
  : Downstream :=
  mkDownstream (stream_id d) (priority d) (request_state d) (response_state d)
    (request_headers d) (request_headers_sum d) (request_method d)
    (request_http2_scheme d) (request_http2_authority d) (request_path d)
    (upgrade_request d) (upgraded d) (response_connection_close d)
    (response_rst_stream_error_code d) (response_body_buf d) c.

(** Modelled from the spec: the constructor of [Downstream] is declared
    outside these sources.  [new Downstream(upstream, stream_id,
    priority)] gives a Stream in its initial states, without headers,
    response buffer or origin connection. *)
Definition new_Downstream (stream_id priority : Z) : Downstream :=
  mkDownstream stream_id priority INITIAL INITIAL [] 0 "" "" "" ""
    false false false NGHTTP2_NO_ERROR None None.

(** ** The session's state and the calls it makes *)

(** A timer event of libevent: [ev_pending] holds the timeout
    (seconds, microseconds) once [evtimer_add] has armed it. *)
Record event := { ev_pending : option (Z * Z) }.

(** Calls to the collaborators, as observed from outside the bridge. *)
Inductive call :=
| SubmitRstStream (stream_id : Z) (error_code : nghttp2_error_code)
| SubmitResponse (stream_id : Z) (nva : Headers)
| Send
| AttachDownstream (dconn : dconn_t) (downstream : ptr)
| DetachDownstream (dconn : dconn_t) (downstream : ptr)
| PushRequestHeaders (downstream : ptr)
| DownstreamOnRead (downstream : ptr)
| DownstreamResumeRead (downstream : ptr)
| EndUploadData (downstream : ptr)
| ChangePriority (downstream : ptr) (pri : Z)
| DeleteDownstream (downstream : ptr) (obj : Downstream)
| DeleteDconn (dconn : dconn_t)
| DeleteClientHandler
| EventFree (ev : event)
| UpstreamResponse (status : Z) (downstream : ptr).

Record World := mkWorld {
  downstream_queue_ : gmap Z ptr;       (* stream table: stream-id to object *)
  settings_timerev_ : option event;     (* nullptr is [None] *)
  objs : gmap ptr Downstream;           (* the live Downstream objects *)
  trace : list call                     (* calls made so far, oldest first *)
}.

(** The configuration read through [get_config()]. *)
Record Config := {
  http2_proxy : bool;
  accesslog : bool;
  server_name : string
}.

(** What the collaborators answer during one callback.  Every callback
    below makes each of these calls at most once. *)
Record Env := {
  config : Config;
  submit_rst_stream_rv : Z;        (* nghttp2_submit_rst_stream *)
  submit_response_rv : Z;          (* nghttp2_submit_response *)
  handler_dconn : dconn_t;         (* ClientHandler::get_downstream_connection *)
  attach_downstream_rv : Z;        (* DownstreamConnection::attach_downstream *)
  push_request_headers_rv : Z;     (* Downstream::push_request_headers *)
  on_read_result : Downstream -> Z * Downstream;  (* Downstream::on_read *)
  resume_read_rv : Z;              (* Downstream::resume_read *)
  send_rv : Z;                     (* Http2Upstream::send *)
  change_priority_rv : Z;          (* Downstream::change_priority *)
  outbuf_length : Z;               (* ClientHandler::get_outbuf_length *)
  evbuffer_add_fails : bool;       (* evbuffer_add returning -1, not 0 *)
  evbuffer_remove_fails : bool;    (* evbuffer_remove returning -1 *)
  evtimer_new_fails : bool;        (* evtimer_new returning nullptr *)
  evtimer_add_fails : bool         (* evtimer_add returning -1, not 0 *)
}.

(** ** The monad of callbacks *)

Inductive outcome (A : Type) :=
| Ret (a : A) (w : World)    (* the callback returned [a] *)
| Died (w : World)           (* DIE(): the process was aborted *)
| Fault.                     (* a pointer to no live object was followed *)
Arguments Ret {A} a w.
Arguments Died {A} w.
Arguments Fault {A}.

Definition M (A : Type) : Type := Env -> World -> outcome A.

#[global] Instance M_ret : MRet M := fun A a _ w => Ret a w.
#[global] Instance M_bind : MBind M := fun A B f m env w =>
  match m env w with
  | Ret a w' => f a env w'
  | Died w' => Died w'
  | Fault => Fault
  end.

Definition DIE {A} : M A := fun _ w => Died w.
Definition ask {A} (f : Env -> A) : M A := fun env w => Ret (f env) w.
Definition get_config {A} (f : Config -> A) : M A := ask (fun e => f (config e)).

Definition gets {A} (f : World -> A) : M A := fun _ w => Ret (f w) w.
Definition modify (f : World -> World) : M unit := fun _ w => Ret tt (f w).

Definition log_call (c : call) (w : World) : World :=
  mkWorld (downstream_queue_ w) (settings_timerev_ w) (objs w)
    (trace w ++ [c])%list.
Definition called (c : call) : M unit := modify (log_call c).

(** Reading and writing a member of the object behind a pointer. *)
Definition load {A} (f : Downstream -> A) (p : ptr) : M A := fun _ w =>
  match objs w !! p with
  | Some d => Ret (f d) w
  | None => Fault
  end.

Definition put_obj (p : ptr) (d : Downstream) (w : World) : World :=
  mkWorld (downstream_queue_ w) (settings_timerev_ w) (<[p := d]> (objs w))
    (trace w).

Definition store (f : Downstream -> Downstream) (p : ptr) : M unit := fun _ w =>
  match objs w !! p with
  | Some d => Ret tt (put_obj p (f d) w)
  | None => Fault
  end.

(** ** Helpers declared outside these sources

    The callbacks use pure helpers of namespaces [http2], [http] and
    [util] and two members of class [Downstream] whose code is not part
    of the sources under verification.  The bridge is embedded, and its
    properties proved, for every implementation of them. *)
Class Helpers := {
  (* http2:: *)
  check_nv : string -> string -> bool;
  check_http2_headers : Headers -> bool;
  get_unique_header : Headers -> string -> option (string * string);
  get_header : Headers -> string -> option (string * string);
  value_lws : string * string -> bool;
  non_empty_value : option (string * string) -> bool;
  value_to_str : option (string * string) -> string;
  split_add_header : Headers -> string -> string -> Headers;
  (* Downstream:: *)
  MAX_HEADERS_SUM : Z;
  normalize_headers : Headers -> Headers;
  is_upgrade_request : Downstream -> bool;
  (* http::, util:: *)
  create_error_html : Z -> string;
  utos : Z -> string
}.

Section Bridge.
Context `{Helpers}.

(** *** Accessors of [Downstream] *)

Definition get_stream_id := load stream_id.
Definition get_request_state := load request_state.
Definition get_response_state := load response_state.
Definition get_request_headers := load request_headers.
Definition get_request_headers_sum := load request_headers_sum.
Definition get_upgraded := load upgraded.
Definition get_response_connection_close := load response_connection_close.
Definition get_response_rst_stream_error_code :=
  load response_rst_stream_error_code.
Definition get_response_body_buf := load response_body_buf.
Definition get_downstream_connection := load downstream_connection.

Definition set_request_state (p : ptr) (s : dstate) : M unit :=
  store (with_request_state s) p.
Definition set_response_state (p : ptr) (s : dstate) : M unit :=
  store (with_response_state s) p.
Definition set_downstream_connection (p : ptr) (c : option dconn_t) : M unit :=
  store (with_downstream_connection c) p.
Definition set_request_line (p : ptr) (method scheme authority path : string)
  : M unit :=
  store (with_request_line method scheme authority path) p.

(** Modelled from the spec: [Downstream::init_response_body_buf] is
    declared outside these sources.  The spec has the response body
    buffer initialized when the Stream is created: a Stream without a
    buffer gets an empty one.  What the helper does to a buffer that
    already holds bytes the spec does not say; here the Stream gets an
    empty buffer then too, and what is said below of the bytes of an
    error page is said for Streams that hold no buffered bytes, where
    the two readings agree. *)
Definition init_response_body_buf (p : ptr) : M unit :=
  store (with_response_body_buf (Some [])) p.

(** Modelled from the spec: [Downstream::split_add_request_header] is
    declared outside these sources.  The running raw-header size grows
    by the lengths of the name and of the value, and the pair is added
    to the request-header list by [http2::split_add_header]. *)
Definition split_add_request_header (p : ptr) (name value : string) : M unit :=
  store (fun d =>
    with_request_headers
      (split_add_header (request_headers d) name value)
      (request_headers_sum d
       + Z.of_nat (String.length name) + Z.of_nat (String.length value)) d) p.

(** Modelled from the spec: [Downstream::normalize_request_headers] is
    declared outside these sources.  It rewrites the request-header list
    in place. *)
Definition normalize_request_headers (p : ptr) : M unit :=
  store (fun d =>
    with_request_headers (normalize_headers (request_headers d))
      (request_headers_sum d) d) p.

(** Modelled from the spec: [Downstream::check_upgrade_request] is
    declared outside these sources.  It records whether the request asks
    for a tunnel or a protocol upgrade. *)
Definition check_upgrade_request (p : ptr) : M unit :=
  store (fun d => with_upgrade_request (is_upgrade_request d) d) p.

(** *** The stream table *)

Definition with_queue (f : gmap Z ptr -> gmap Z ptr) (w : World) : World :=
  mkWorld (f (downstream_queue_ w)) (settings_timerev_ w) (objs w) (trace w).

(** Modelled from the spec: [DownstreamQueue] is declared outside these
    sources.  The spec has a mapping from stream-id to Stream with
    lookup, insertion and removal; [add] files a Stream under its
    stream-id. *)
Definition add_downstream (p : ptr) : M unit :=
  sid ← get_stream_id p;
  modify (with_queue <[sid := p]>).

(** Modelled from the spec: [DownstreamQueue::remove], declared outside
    these sources, removes the entry of the Stream's stream-id. *)
Definition remove_downstream (p : ptr) : M unit :=
  sid ← get_stream_id p;
  modify (with_queue (delete sid)).

(** Modelled from the spec: [DownstreamQueue::find], declared outside
    these sources, looks a stream-id up; nullptr is [None]. *)
Definition find_downstream (stream_id : Z) : M (option ptr) :=
  gets (fun w => downstream_queue_ w !! stream_id).

(** [new Downstream(...)]: a pointer that is not in use. *)
Definition new_downstream (stream_id priority : Z) : M ptr := fun _ w =>
  let p := fresh (dom (objs w)) in
  Ret p (put_obj p (new_Downstream stream_id priority) w).

(** [delete downstream]; the call records the object as it is
    destroyed. *)
Definition delete_downstream (p : ptr) : M unit := fun _ w =>
  match objs w !! p with
  | Some d =>
      Ret tt (mkWorld (downstream_queue_ w) (settings_timerev_ w)
                (delete p (objs w))
                (trace w ++ [DeleteDownstream p d])%list)
  | None => Fault
  end.

(** *** Collaborators: codec, origin connection, libevent *)

(** Modelled from the spec: the codec is outside these sources.
    [nghttp2_submit_rst_stream] queues RST_STREAM for the stream and
    answers with a status. *)
Definition nghttp2_submit_rst_stream (stream_id : Z)
    (error_code : nghttp2_error_code) : M Z :=
  called (SubmitRstStream stream_id error_code);; ask submit_rst_stream_rv.

(** Modelled from the spec: the codec is outside these sources.
    [nghttp2_submit_response] queues the response headers for the stream
    and answers with a status. *)
Definition nghttp2_submit_response (stream_id : Z) (nva : Headers) : M Z :=
  called (SubmitResponse stream_id nva);; ask submit_response_rv.

(** Modelled from the spec: [DownstreamConnection::attach_downstream] is
    declared outside these sources.  On success the Stream holds the
    origin connection. *)
Definition attach_downstream (dconn : dconn_t) (p : ptr) : M Z :=
  called (AttachDownstream dconn p);;
  rv ← ask attach_downstream_rv;
  (if decide (rv = 0) then set_downstream_connection p (Some dconn)
   else mret tt);;
  mret rv.

(** Modelled from the spec: [DownstreamConnection::detach_downstream] is
    declared outside these sources.  The Stream lets go of the origin
    connection, which may then be pooled. *)
Definition detach_downstream (dconn : dconn_t) (p : ptr) : M unit :=
  called (DetachDownstream dconn p);;
  set_downstream_connection p None.

(** Modelled from the spec: [Downstream::push_request_headers] is
    declared outside these sources.  It writes the request headers to
    the origin and answers with a status. *)
Definition push_request_headers (p : ptr) : M Z :=
  called (PushRequestHeaders p);; ask push_request_headers_rv.

(** Modelled from the spec: [Downstream::on_read] is declared outside
    these sources.  The origin's parser consumes what was read, updates
    the Stream and answers with a status. *)
Definition downstream_on_read (p : ptr) : M Z :=
  called (DownstreamOnRead p);;
  f ← ask on_read_result;
  d ← load id p;
  store (fun _ => (f d).2) p;;
  mret (f d).1.

(** Modelled from the spec: [Downstream::resume_read] is declared
    outside these sources.  It reopens reading from the origin and
    answers with a status. *)
Definition downstream_resume_read (p : ptr) : M Z :=
  called (DownstreamResumeRead p);; ask resume_read_rv.

(** Modelled from the spec: [Downstream::end_upload_data] is declared
    outside these sources.  It signals the end of the upload to the
    origin. *)
Definition end_upload_data (p : ptr) : M unit := called (EndUploadData p).

(** Modelled from the spec: [Downstream::change_priority] is declared
    outside these sources.  It forwards the new priority and answers
    with a status. *)
Definition change_priority (p : ptr) (pri : Z) : M Z :=
  called (ChangePriority p pri);; ask change_priority_rv.

(** [evbuffer_add(body, data, len)] on the Stream's response buffer. *)
Definition evbuffer_add (p : ptr) (data : string) : M Z :=
  fails ← ask evbuffer_add_fails;
  if fails : bool then mret (-1)
  else
    store (fun d =>
      with_response_body_buf
        ((fun b => (b ++ list_ascii_of_string data)%list) <$> response_body_buf d)
        d) p;;
    mret 0.

(** [evbuffer_remove(body, buf, length)]: moves up to [length] bytes
    from the front of the Stream's response buffer into [buf]; gives
    the number of bytes moved. *)
Definition evbuffer_remove (p : ptr) (body : evbuffer) (length : Z)
  : M (Z * list ascii) :=
  fails ← ask evbuffer_remove_fails;
  if fails : bool then mret (-1, [])
  else
    let n := Z.to_nat length in
    store (with_response_body_buf (Some (drop n body))) p;;
    mret (Z.of_nat (List.length (take n body)), take n body).

Definition evbuffer_get_length (body : evbuffer) : Z :=
  Z.of_nat (List.length body).

(** *** Http2Upstream *)

(** [send()] pumps the codec's output into the client's buffer: it asks
    the codec for bytes until the codec has none or the buffer is full,
    and the codec, while it serializes, calls back into this file.  What
    [send()] does is therefore the codec's to decide; as far as the
    properties below go, a run of [send()] is one observable step whose
    status is the environment's. *)
Definition send : M Z := called Send;; ask send_rv.

Definition rst_stream (downstream : ptr) (error_code : nghttp2_error_code)
  : M Z :=
  sid ← get_stream_id downstream;
  rv ← nghttp2_submit_rst_stream sid error_code;
  if decide (rv < NGHTTP2_ERR_FATAL) then DIE else mret 0.

Definition infer_upstream_rst_stream_error_code
    (downstream_error_code : nghttp2_error_code) : nghttp2_error_code :=
  if decide (downstream_error_code ≠ NGHTTP2_REFUSED_STREAM)
  then NGHTTP2_INTERNAL_ERROR
  else downstream_error_code.

Definition on_stream_close_callback (stream_id : Z)
    (error_code : nghttp2_error_code) : M Z :=
  downstream ← find_downstream stream_id;
  match downstream with
  | Some downstream =>
      rs ← get_request_state downstream;
      if decide (rs = CONNECT_FAIL) then
        remove_downstream downstream;;
        delete_downstream downstream;;
        mret 0
      else
        set_request_state downstream STREAM_CLOSED;;
        rsp ← get_response_state downstream;
        if decide (rsp = MSG_COMPLETE) then
          up ← get_upgraded downstream;
          cc ← get_response_connection_close downstream;
          (if negb up && negb cc then
             dconn ← get_downstream_connection downstream;
             match dconn with
             | Some dconn => detach_downstream dconn downstream
             | None => mret tt
             end
           else mret tt);;
          remove_downstream downstream;;
          delete_downstream downstream;;
          mret 0
        else
          remove_downstream downstream;;
          delete_downstream downstream;;
          mret 0
  | None => mret 0
  end.

Definition get_settings_timerev : M (option event) := gets settings_timerev_.
Definition set_settings_timerev (ev : option event) : M unit :=
  modify (fun w => mkWorld (downstream_queue_ w) ev (objs w) (trace w)).

(** [evtimer_new] gives an event that is not pending, or nullptr. *)
Definition evtimer_new : M (option event) :=
  fails ← ask evtimer_new_fails;
  mret (if fails : bool then None else Some {| ev_pending := None |}).

(** [evtimer_add(settings_timerev_, &tv)] makes the event pending. *)
Definition evtimer_add (tv : Z * Z) : M Z :=
  fails ← ask evtimer_add_fails;
  if fails : bool then mret (-1)
  else set_settings_timerev (Some {| ev_pending := Some tv |});; mret 0.

Definition start_settings_timer : M Z :=
  ev ← get_settings_timerev;
  if bool_decide (is_Some ev) then mret 0
  else
    ev ← evtimer_new;
    set_settings_timerev ev;;
    match ev with
    | None => mret (-1)
    | Some _ =>
        let settings_timeout := (10, 0) in
        rv ← evtimer_add settings_timeout;
        if decide (rv = -1) then mret (-1) else mret 0
    end.

Definition stop_settings_timer : M unit :=
  ev ← get_settings_timerev;
  match ev with
  | None => mret tt
  | Some ev => called (EventFree ev);; set_settings_timerev None
  end.

Definition on_header_callback (frame : nghttp2_frame) (name value : string)
  : M Z :=
  if decide (hd_type frame ≠ NGHTTP2_HEADERS
             ∨ headers_cat frame ≠ NGHTTP2_HCAT_REQUEST) then mret 0
  else
    downstream ← find_downstream (hd_stream_id frame);
    match downstream with
    | None => mret 0
    | Some downstream =>
        sum ← get_request_headers_sum downstream;
        if decide (sum > MAX_HEADERS_SUM) then
          mret NGHTTP2_ERR_TEMPORAL_CALLBACK_FAILURE
        else if negb (check_nv name value) then mret 0
        else
          split_add_request_header downstream name value;;
          mret 0
    end.

Definition on_begin_headers_callback (frame : nghttp2_frame) : M Z :=
  if decide (headers_cat frame ≠ NGHTTP2_HCAT_REQUEST) then mret 0
  else
    downstream ← new_downstream (hd_stream_id frame) (headers_pri frame);
    add_downstream downstream;;
    init_response_body_buf downstream;;
    mret 0.

Definition on_request_headers (frame : nghttp2_frame) : M Z :=
  downstream ← find_downstream (hd_stream_id frame);
  match downstream with
  | None => mret 0
  | Some downstream =>
      normalize_request_headers downstream;;
      nva ← get_request_headers downstream;
      if negb (check_http2_headers nva) then
        rst_stream downstream NGHTTP2_PROTOCOL_ERROR;;
        mret 0
      else
        let host := get_unique_header nva "host" in
        let authority := get_unique_header nva ":authority" in
        let path := get_unique_header nva ":path" in
        let method := get_unique_header nva ":method" in
        let scheme := get_unique_header nva ":scheme" in
        let is_connect :=
          match method with
          | Some nv => bool_decide ("CONNECT" = nv.2)
          | None => false
          end in
        let having_host := non_empty_value host in
        let having_authority := non_empty_value authority in
        proxy ← get_config http2_proxy;
        if (if is_connect
            then bool_decide (is_Some scheme) || bool_decide (is_Some path)
                 || negb having_authority
            else negb (non_empty_value method)
                 || negb (non_empty_value scheme)
                 || (proxy && negb having_authority)
                 || (negb proxy && negb having_authority && negb having_host)
                 || negb (non_empty_value path))
        then
          rst_stream downstream NGHTTP2_PROTOCOL_ERROR;;
          mret 0
        else if negb is_connect
                && bool_decide
                     (Z.land (hd_flags frame) NGHTTP2_FLAG_END_STREAM = 0)
                && match get_header nva "content-length" with
                   | None => true
                   | Some content_length => value_lws content_length
                   end
        then
          rst_stream downstream NGHTTP2_PROTOCOL_ERROR;;
          mret 0
        else
          set_request_line downstream (value_to_str method)
            (value_to_str scheme) (value_to_str authority)
            (value_to_str path);;
          check_upgrade_request downstream;;
          dconn ← ask handler_dconn;
          rv ← attach_downstream dconn downstream;
          if decide (rv ≠ 0) then
            rst_stream downstream NGHTTP2_INTERNAL_ERROR;;
            set_request_state downstream CONNECT_FAIL;;
            mret 0
          else
            rv ← push_request_headers downstream;
            if decide (rv ≠ 0) then
              rst_stream downstream NGHTTP2_INTERNAL_ERROR;;
              mret 0
            else
              set_request_state downstream HEADER_COMPLETE;;
              (if decide (Z.land (hd_flags frame) NGHTTP2_FLAG_END_STREAM ≠ 0)
               then set_request_state downstream MSG_COMPLETE
               else mret tt);;
              mret 0
  end.

Definition on_frame_recv_callback (frame : nghttp2_frame) : M Z :=
  match hd_type frame with
  | NGHTTP2_DATA =>
      downstream ← find_downstream (hd_stream_id frame);
      match downstream with
      | None => mret 0
      | Some downstream =>
          (if decide (Z.land (hd_flags frame) NGHTTP2_FLAG_END_STREAM ≠ 0)
           then
             end_upload_data downstream;;
             set_request_state downstream MSG_COMPLETE
           else mret tt);;
          mret 0
      end
  | NGHTTP2_HEADERS => on_request_headers frame
  | NGHTTP2_PRIORITY =>
      downstream ← find_downstream (hd_stream_id frame);
      match downstream with
      | None => mret 0
      | Some downstream =>
          rv ← change_priority downstream (priority_pri frame);
          if decide (rv ≠ 0) then mret NGHTTP2_ERR_CALLBACK_FAILURE
          else mret 0
      end
  | NGHTTP2_SETTINGS =>
      if decide (Z.land (hd_flags frame) NGHTTP2_FLAG_ACK = 0) then mret 0
      else stop_settings_timer;; mret 0
  | NGHTTP2_PUSH_PROMISE =>
      rv ← nghttp2_submit_rst_stream (push_promise_promised_stream_id frame)
             NGHTTP2_REFUSED_STREAM;
      if decide (rv ≠ 0) then mret NGHTTP2_ERR_CALLBACK_FAILURE else mret 0
  | _ => mret 0
  end.

Definition on_frame_send_callback (frame : nghttp2_frame) : M Z :=
  if decide (hd_type frame = NGHTTP2_SETTINGS
             ∧ Z.land (hd_flags frame) NGHTTP2_FLAG_ACK = 0) then
    rv ← start_settings_timer;
    if decide (rv ≠ 0) then mret NGHTTP2_ERR_CALLBACK_FAILURE else mret 0
  else mret 0.

(** The codec's data source for a response body.  [eof] is the value of
    [*eof] on entry; the result is the return value, [*eof] on return
    and the bytes written to [buf]. *)
Definition downstream_data_read_callback (stream_id : Z) (length : Z)
    (eof : Z) (downstream : ptr) : M (Z * Z * list ascii) :=
  body ← get_response_body_buf downstream;
  match body with
  | None => DIE (* assert(body) *)
  | Some body =>
      '(nread, data) ← evbuffer_remove downstream body length;
      if decide (nread = -1) then
        mret (NGHTTP2_ERR_CALLBACK_FAILURE, eof, data)
      else
        rsp ← get_response_state downstream;
        eof ← (if decide (nread = 0 ∧ rsp = MSG_COMPLETE) then
                 up ← get_upgraded downstream;
                 if negb up then mret 1
                 else
                   code ← get_response_rst_stream_error_code downstream;
                   rst_stream downstream
                     (infer_upstream_rst_stream_error_code code);;
                   mret eof
               else mret eof);
        let finish : M (Z * Z * list ascii) :=
          if decide (nread = 0 ∧ eof ≠ 1)
          then mret (NGHTTP2_ERR_DEFERRED, eof, data)
          else mret (nread, eof, data) in
        out ← ask outbuf_length;
        body ← get_response_body_buf downstream;
        if decide (eof ≠ 1
                   ∧ size_t_add out (evbuffer_get_length (default [] body))
                     < OUTBUF_MAX_THRES) then
          rv ← downstream_resume_read downstream;
          if decide (rv ≠ 0) then
            mret (NGHTTP2_ERR_CALLBACK_FAILURE, eof, data)
          else finish
        else finish
  end.

Definition error_reply (downstream : ptr) (status_code : Z) : M Z :=
  let html := create_error_html status_code in
  init_response_body_buf downstream;;
  rv ← evbuffer_add downstream html;
  if decide (rv = -1) then mret (-1)
  else
    set_response_state downstream MSG_COMPLETE;;
    let content_length := utos (Z.of_nat (String.length html)) in
    let status_code_str := utos status_code in
    server ← get_config server_name;
    let nva := [ (":status", status_code_str);
                 ("content-type", "text/html; charset=UTF-8");
                 ("server", server);
                 ("content-length", content_length) ] in
    sid ← get_stream_id downstream;
    rv ← nghttp2_submit_response sid nva;
    if decide (rv < NGHTTP2_ERR_FATAL) then DIE
    else
      log ← get_config accesslog;
      (if log : bool then called (UpstreamResponse status_code downstream)
       else mret tt);;
      mret 0.

(** The read callback of the origin connection [dconn], whose Stream
    ([dconn->get_downstream()]) is [downstream]. *)
Definition downstream_readcb (dconn : dconn_t) (downstream : ptr) : M unit :=
  let finish : M unit :=
    rv ← send;
    if decide (rv ≠ 0) then called DeleteClientHandler else mret tt in
  let close_dconn : M unit :=
    set_downstream_connection downstream None;;
    called (DeleteDconn dconn) in
  rs ← get_request_state downstream;
  if decide (rs = STREAM_CLOSED) then
    remove_downstream downstream;;
    delete_downstream downstream
  else
    rsp ← get_response_state downstream;
    if decide (rsp = MSG_RESET) then
      code ← get_response_rst_stream_error_code downstream;
      rst_stream downstream (infer_upstream_rst_stream_error_code code);;
      close_dconn;;
      finish
    else
      rv ← downstream_on_read downstream;
      if decide (rv ≠ 0) then
        let failed : M unit :=
          set_response_state downstream MSG_COMPLETE;;
          close_dconn;;
          finish in
        rsp ← get_response_state downstream;
        if decide (rsp = HEADER_COMPLETE) then
          rst_stream downstream NGHTTP2_INTERNAL_ERROR;;
          failed
        else if decide (rsp ≠ MSG_COMPLETE) then
          rv ← error_reply downstream 502;
          if decide (rv ≠ 0) then called DeleteClientHandler
          else failed
        else failed
      else finish.

End Bridge.

(** ** An implementation of the helpers

    The helpers of namespaces [http2], [http] and [util] and the
    constant [Downstream::MAX_HEADERS_SUM] are declared outside these
    sources.  This implementation follows the specification's
    description of them; it is the one the concrete runs below are
    evaluated with. *)
Module SpecHelpers.

Definition name_is (name : string) (nv : string * string) : bool :=
  String.eqb nv.1 name.

Definition is_upper (c : ascii) : bool :=
  (65 <=? nat_of_ascii c)%nat && (nat_of_ascii c <=? 90)%nat.

Definition is_lws (c : ascii) : bool :=
  Ascii.eqb c " " || Ascii.eqb c "009".

Definition forbidden_in_name (c : ascii) : bool :=
  is_upper c || Ascii.eqb c "000" || Ascii.eqb c "010" || Ascii.eqb c "013".
Definition forbidden_in_value (c : ascii) : bool :=
  Ascii.eqb c "010" || Ascii.eqb c "013".

(** Modelled from the spec: [http2::check_nv] checks the HTTP/2 header
    name rules.  Names are lower case and not empty; line breaks and NUL
    are forbidden in names, line breaks in values. *)
Definition check_nv (name value : string) : bool :=
  negb (String.eqb name "")
  && forallb (fun c => negb (forbidden_in_name c)) (list_ascii_of_string name)
  && forallb (fun c => negb (forbidden_in_value c))
       (list_ascii_of_string value).

Definition is_pseudo (nv : string * string) : bool :=
  match nv.1 with
  | String ":" _ => true
  | _ => false
  end.

Fixpoint no_dup_names (nva : Headers) : bool :=
  match nva with
  | [] => true
  | nv :: rest => negb (existsb (name_is nv.1) rest) && no_dup_names rest
  end.

(** Modelled from the spec: [http2::check_http2_headers] checks the
    header set for conformance.  No pseudo-header occurs twice, and no
    connection-specific header occurs. *)
Definition check_http2_headers (nva : Headers) : bool :=
  no_dup_names (filter (fun nv => is_pseudo nv = true) nva)
  && negb (existsb (name_is "connection") nva).

(** Modelled from the spec: [http2::get_unique_header] gives the unique
    occurrence of [name]: the pair, when there is exactly one. *)
Definition get_unique_header (nva : Headers) (name : string)
  : option (string * string) :=
  match filter (fun nv => name_is name nv = true) nva with
  | [nv] => Some nv
  | _ => None
  end.

(** Modelled from the spec: [http2::get_header] gives an occurrence of
    [name], the last one, or nullptr. *)
Definition get_header (nva : Headers) (name : string)
  : option (string * string) :=
  last (filter (fun nv => name_is name nv = true) nva).

(** Modelled from the spec: [http2::value_lws] tells whether the value
    is linear whitespace only. *)
Definition value_lws (nv : string * string) : bool :=
  forallb is_lws (list_ascii_of_string nv.2).

(** Modelled from the spec: [http2::non_empty_value] tells whether the
    header is present and its value not empty, a value of linear
    whitespace being empty. *)
Definition non_empty_value (nv : option (string * string)) : bool :=
  match nv with
  | Some nv => negb (value_lws nv)
  | None => false
  end.

(** Modelled from the spec: [http2::value_to_str] gives the value of a
    header, the empty string for nullptr. *)
Definition value_to_str (nv : option (string * string)) : string :=
  match nv with
  | Some nv => nv.2
  | None => ""
  end.

(** The pieces of a value between NUL bytes. *)
Fixpoint split_nul (cur : string) (value : list ascii) : list string :=
  match value with
  | [] => [cur]
  | c :: rest =>
      if Ascii.eqb c "000" then cur :: split_nul "" rest
      else split_nul (cur ++ String c "") rest
  end.

(** Modelled from the spec: [http2::split_add_header] appends the pair
    to the list, splitting the value on NUL. *)
Definition split_add_header (nva : Headers) (name value : string) : Headers :=
  if String.eqb value "" then (nva ++ [(name, "")])%list
  else
    (nva ++ map (fun v => (name, v))
              (filter (fun v => v ≠ "")
                 (split_nul "" (list_ascii_of_string value))))%list.

(** Modelled from the spec: [Downstream::MAX_HEADERS_SUM], 64 KiB. *)
Definition MAX_HEADERS_SUM : Z := 65536.

Fixpoint insert_sorted (nv : string * string) (nva : Headers) : Headers :=
  match nva with
  | [] => [nv]
  | nv' :: rest =>
      if String.ltb nv.1 nv'.1 then nv :: nv' :: rest
      else nv' :: insert_sorted nv rest
  end.

(** Modelled from the spec: the normalized request-header list is
    ordered by name, equal names in their order of arrival. *)
Definition normalize_headers (nva : Headers) : Headers :=
  fold_left (fun acc nv => insert_sorted nv acc) nva [].

(** Modelled from the spec: a request asks for a tunnel when its method
    is CONNECT, for a protocol upgrade when it has an upgrade header. *)
Definition is_upgrade_request (d : Downstream) : bool :=
  String.eqb (request_method d) "CONNECT"
  || existsb (name_is "upgrade") (request_headers d).

(** Modelled from the spec: [util::utos] writes an unsigned number in
    decimal. *)
Definition utos (n : Z) : string :=
  NilZero.string_of_uint (N.to_uint (Z.to_N n)).

(** Modelled from the spec: [http::create_error_html] fills an HTML
    template with the status code. *)
Definition create_error_html (status_code : Z) : string :=
  "<html><head><title>" ++ utos status_code
  ++ "</title></head><body><h1>" ++ utos status_code
  ++ "</h1></body></html>".

#[global] Instance spec_helpers : Helpers :=
  Build_Helpers check_nv check_http2_headers get_unique_header get_header
    value_lws non_empty_value value_to_str split_add_header MAX_HEADERS_SUM
    normalize_headers is_upgrade_request create_error_html utos.

End SpecHelpers.

(** ** Concrete worlds and environments *)

Definition default_env : Env := {|
  config := {| http2_proxy := false; accesslog := false;
               server_name := "shrpx" |};
  submit_rst_stream_rv := 0;
  submit_response_rv := 0;
  handler_dconn := 1%positive;
  attach_downstream_rv := 0;
  push_request_headers_rv := 0;
  on_read_result := fun d => (0, d);
  resume_read_rv := 0;
  send_rv := 0;
  change_priority_rv := 0;
  outbuf_length := 0;
  evbuffer_add_fails := false;
  evbuffer_remove_fails := false;
  evtimer_new_fails := false;
  evtimer_add_fails := false
|}.

Definition empty_world : World := mkWorld ∅ None ∅ [].

Definition headers_frame (stream_id flags : Z) : nghttp2_frame := {|
  hd_type := NGHTTP2_HEADERS; hd_flags := flags; hd_stream_id := stream_id;
  headers_cat := NGHTTP2_HCAT_REQUEST; headers_pri := 0; priority_pri := 0;
  push_promise_promised_stream_id := 0
|}.

(** A world with one Stream, filed under its stream-id. *)
Definition one_stream (d : Downstream) : World :=
  mkWorld {[ stream_id d := 1%positive ]} None {[ 1%positive := d ]} [].

(** The world a run ends in. *)
Definition world_of {A} (o : outcome A) : World :=
  match o with
  | Ret _ w => w
  | Died w => w
  | Fault => empty_world
  end.

(** ** Statements about the stream-close callback *)

(** An origin connection is detached from the Stream [p] among [cs]. *)
Definition detaches (p : ptr) (cs : list call) : Prop :=
  exists dconn, DetachDownstream dconn p ∈ cs.

(** The response was read to its end over a connection that can be
    kept alive. *)
Definition poolable (d : Downstream) : Prop :=
  response_state d = MSG_COMPLETE /\ upgraded d = false
  /\ response_connection_close d = false.

(** The stream-close callback on a stream-id of the table, with the
    origin connection detached exactly when the Stream is [poolable]. *)
Definition stream_close_as_specified (env : Env) (w : World) (sid : Z)
  : Prop :=
  forall p d,
    downstream_queue_ w !! sid = Some p -> objs w !! p = Some d ->
    stream_id d = sid ->
    exists w' cs d',
      on_stream_close_callback sid NGHTTP2_NO_ERROR env w = Ret 0 w'
      /\ trace w' = (trace w ++ cs ++ [DeleteDownstream p d'])%list
      /\ downstream_queue_ w' !! sid = None /\ objs w' !! p = None
      /\ (request_state d = CONNECT_FAIL -> cs = [] /\ d' = d)
      /\ (request_state d <> CONNECT_FAIL ->
          request_state d' = STREAM_CLOSED
          /\ (detaches p cs <-> poolable d)).

(** The callbacks that a GET request on stream [sid] sets off. *)
Definition get_request (sid : Z) : M Z :=
  let frame := headers_frame sid NGHTTP2_FLAG_END_STREAM in
  on_begin_headers_callback frame;;
  on_header_callback frame ":method" "GET";;
  on_header_callback frame ":scheme" "https";;
  on_header_callback frame ":path" "/x";;
  on_header_callback frame ":authority" "a.example";;
  on_frame_recv_callback frame.

(** The origin answers with bytes that its parser rejects. *)
Definition parse_failure_env : Env := {|
  config := config default_env;
  submit_rst_stream_rv := 0;
  submit_response_rv := 0;
  handler_dconn := 1%positive;
  attach_downstream_rv := 0;
  push_request_headers_rv := 0;
  on_read_result := fun d => (-1, d);
  resume_read_rv := 0;
  send_rv := 0;
  change_priority_rv := 0;
  outbuf_length := 0;
  evbuffer_add_fails := false;
  evbuffer_remove_fails := false;
  evtimer_new_fails := false;
  evtimer_add_fails := false
|}.

(** A request on stream 1 whose origin fails before any response
    header: the client gets the 502 page and the origin connection is
    deleted. *)
Definition after_bad_gateway : World :=
  world_of ((get_request 1;; downstream_readcb 1%positive 1%positive)
              parse_failure_env empty_world).

(** A Stream whose response was read to its end over the origin
    connection 1, which it still holds. *)
Definition served : Downstream :=
  with_downstream_connection (Some 1%positive)
    (with_response_state MSG_COMPLETE
       (with_request_state MSG_COMPLETE (new_Downstream 1 0))).

(** ** Statements about the headers-complete handler *)

(** The world [w] after the object behind [p] became [d'] and the calls
    [cs] were made; nothing else differs. *)
Definition updated (p : ptr) (d' : Downstream) (cs : list call) (w : World)
  : World :=
  mkWorld (downstream_queue_ w) (settings_timerev_ w) (<[p := d']> (objs w))
    (trace w ++ cs)%list.

Section RequestStatements.
Context `{Helpers}.

(** The Stream once its request headers are normalized. *)
Definition normalized (d : Downstream) : Downstream :=
  with_request_headers (normalize_headers (request_headers d))
    (request_headers_sum d) d.

(** The request's method is CONNECT. *)
Definition is_connect (nva : Headers) : bool :=
  match get_unique_header nva ":method" with
  | Some nv => bool_decide ("CONNECT" = nv.2)
  | None => false
  end.

(** The three checks of the handler, in its order. *)
Definition connect_rejected (nva : Headers) : bool :=
  bool_decide (is_Some (get_unique_header nva ":scheme"))
  || bool_decide (is_Some (get_unique_header nva ":path"))
  || negb (non_empty_value (get_unique_header nva ":authority")).

Definition plain_rejected (proxy : bool) (nva : Headers) : bool :=
  let having_host := non_empty_value (get_unique_header nva "host") in
  let having_authority :=
    non_empty_value (get_unique_header nva ":authority") in
  negb (non_empty_value (get_unique_header nva ":method"))
  || negb (non_empty_value (get_unique_header nva ":scheme"))
  || (proxy && negb having_authority)
  || (negb proxy && negb having_authority && negb having_host)
  || negb (non_empty_value (get_unique_header nva ":path")).

Definition content_length_rejected (flags : Z) (nva : Headers) : bool :=
  negb (is_connect nva)
  && bool_decide (Z.land flags NGHTTP2_FLAG_END_STREAM = 0)
  && match get_header nva "content-length" with
     | None => true
     | Some content_length => value_lws content_length
     end.

(** Request validation passes. *)
Definition request_accepted (proxy : bool) (flags : Z) (nva : Headers)
  : bool :=
  check_http2_headers nva
  && negb (if is_connect nva then connect_rejected nva
           else plain_rejected proxy nva)
  && negb (content_length_rejected flags nva).

(** The Stream as it is handed to the origin: request line cached and
    upgrade request noted. *)
Definition prepared (d : Downstream) : Downstream :=
  let nva := normalize_headers (request_headers d) in
  let d1 :=
    with_request_line
      (value_to_str (get_unique_header nva ":method"))
      (value_to_str (get_unique_header nva ":scheme"))
      (value_to_str (get_unique_header nva ":authority"))
      (value_to_str (get_unique_header nva ":path"))
      (normalized d) in
  with_upgrade_request (is_upgrade_request d1) d1.

End RequestStatements.

(** ** Concrete requests *)

Definition headers_sum (nva : Headers) : Z :=
  fold_right
    (fun nv acc =>
       Z.of_nat (String.length nv.1) + Z.of_nat (String.length nv.2) + acc)
    0 nva.

(** The Stream [sid] after the header callbacks delivered [nva]. *)
Definition pending (sid : Z) (nva : Headers) : Downstream :=
  with_request_headers nva (headers_sum nva)
    (with_response_body_buf (Some []) (new_Downstream sid 0)).

Definition get_headers : Headers :=
  [ (":method", "GET"); (":scheme", "https"); (":path", "/x");
    (":authority", "a.example") ].

(** CONNECT with a [:scheme]. *)
Definition connect_scheme_headers : Headers :=
  [ (":method", "CONNECT"); (":scheme", "https");
    (":authority", "a.example:443") ].

Definition connect_headers : Headers :=
  [ (":method", "CONNECT"); (":authority", "a.example:443") ].

(** POST without content-length. *)
Definition post_headers : Headers :=
  [ (":method", "POST"); (":scheme", "https"); (":path", "/upload");
    (":authority", "a.example") ].

(** ** Statements about the header callback *)

Definition raw_size (name value : string) : Z :=
  Z.of_nat (String.length name) + Z.of_nat (String.length value).

Section HeaderStatements.
Context `{Helpers}.

(** Every Stream's running raw-header size is at most MAX_HEADERS_SUM. *)
Definition headers_sum_bounded (w : World) : Prop :=
  map_Forall (fun _ d => request_headers_sum d <= MAX_HEADERS_SUM) (objs w).

(** The bound on the running raw-header size as an invariant of the
    header callback. *)
Definition header_callback_as_specified (env : Env) (w : World)
    (frame : nghttp2_frame) (name value : string) : Prop :=
  headers_sum_bounded w ->
  headers_sum_bounded (world_of (on_header_callback frame name value env w)).

(** The codec delivering the pairs [hs] of one HEADERS frame, whatever
    the callback answers. *)
Fixpoint header_callbacks (frame : nghttp2_frame) (hs : Headers) : M unit :=
  match hs with
  | [] => mret tt
  | (name, value) :: hs =>
      on_header_callback frame name value;;
      header_callbacks frame hs
  end.

(** The Stream after the pair was appended. *)
Definition with_header (name value : string) (d : Downstream) : Downstream :=
  with_request_headers (split_add_header (request_headers d) name value)
    (request_headers_sum d + raw_size name value) d.

End HeaderStatements.

(** A header of 2049 raw bytes, and the Stream 1 after [n] of them. *)
Fixpoint string_repeat (n : nat) (c : ascii) : string :=
  match n with
  | O => ""
  | S n => String c (string_repeat n c)
  end.

Definition pad_name : string := "x-pad".
Definition pad_value : string := string_repeat 2044 "a".

Definition padded (n : nat) : Downstream :=
  with_request_headers (repeat (pad_name, pad_value) n)
    (Z.of_nat n * 2049)
    (with_response_body_buf (Some []) (new_Downstream 1 0)).

(** ** Statements about the origin read callback *)

(** The calls [cs] end with the run of [send()], followed only by the
    teardown of the client handler when [send()] failed. *)
Definition finishes_by_send (env : Env) (cs : list call) : Prop :=
  exists before,
    cs = (before ++ Send :: if decide (send_rv env <> 0)
                            then [DeleteClientHandler] else [])%list.

(** Every invocation of the read callback runs [send()]. *)
Definition readcb_as_specified `{Helpers} (env : Env) (w : World)
    (dconn : dconn_t) (p : ptr) : Prop :=
  exists w' cs,
    downstream_readcb dconn p env w = Ret tt w'
    /\ trace w' = (trace w ++ cs)%list
    /\ Send ∈ cs.

(** A Stream that the client closed while the origin connection 1 was
    still attached to it. *)
Definition closed_by_client : Downstream :=
  with_downstream_connection (Some 1%positive)
    (with_request_state STREAM_CLOSED (pending 1 get_headers)).

(** A Stream whose request was handed to the origin connection 1. *)
Definition relayed : Downstream :=
  with_downstream_connection (Some 1%positive)
    (with_request_state MSG_COMPLETE (pending 1 get_headers)).

(** ** Statements about the response data source *)

(** One call of the data source on a Stream with the response buffer
    [body], [*eof] being 0 on entry: end-of-stream (or, for a tunnel,
    RST_STREAM) when the read drains the buffer of a complete response,
    DEFERRED when the buffer is empty and the response is not
    complete. *)
Definition data_read_as_specified (env : Env) (w : World)
    (length : Z) (p : ptr) : Prop :=
  forall d body,
    objs w !! p = Some d -> response_body_buf d = Some body ->
    exists rv eof data w' cs,
      downstream_data_read_callback (stream_id d) length 0 p env w
      = Ret (rv, eof, data) w'
      /\ trace w' = (trace w ++ cs)%list
      /\ (drop (Z.to_nat length) body = []
          -> response_state d = MSG_COMPLETE ->
          if upgraded d
          then eof <> 1
               /\ SubmitRstStream (stream_id d)
                    (infer_upstream_rst_stream_error_code
                       (response_rst_stream_error_code d)) ∈ cs
          else eof = 1)
      /\ (body = [] -> response_state d <> MSG_COMPLETE ->
          rv = NGHTTP2_ERR_DEFERRED).

(** The last three bytes of a complete response are waiting. *)
Definition last_bytes : Downstream :=
  with_response_body_buf (Some (list_ascii_of_string "end"))
    (with_response_state MSG_COMPLETE relayed).

(** Response headers were forwarded, the body has not arrived. *)
Definition awaiting_body : Downstream :=
  with_response_state HEADER_COMPLETE relayed.

(** The origin connection cannot be told to resume reading. *)
Definition resume_failure_env : Env := {|
  config := config default_env;
  submit_rst_stream_rv := 0;
  submit_response_rv := 0;
  handler_dconn := 1%positive;
  attach_downstream_rv := 0;
  push_request_headers_rv := 0;
  on_read_result := fun d => (0, d);
  resume_read_rv := -1;
  send_rv := 0;
  change_priority_rv := 0;
  outbuf_length := 0;
  evbuffer_add_fails := false;
  evbuffer_remove_fails := false;
  evtimer_new_fails := false;
  evtimer_add_fails := false
|}.

(** The response of a Stream is complete and its buffer is empty. *)
Definition drained : Downstream := with_response_state MSG_COMPLETE relayed.

(** ** Statements about the SETTINGS timer *)

Definition settings_frame (flags : Z) : nghttp2_frame := {|
  hd_type := NGHTTP2_SETTINGS; hd_flags := flags; hd_stream_id := 0;
  headers_cat := NGHTTP2_HCAT_HEADERS; headers_pri := 0; priority_pri := 0;
  push_promise_promised_stream_id := 0
|}.

(** The timer armed by [start_settings_timer]: pending for 10 s. *)
Definition armed_timer : event := {| ev_pending := Some (10, 0) |}.

Definition with_timer (ev : option event) (w : World) : World :=
  mkWorld (downstream_queue_ w) ev (objs w) (trace w).

(** The codec sending frames one after the other, each send with its
    own answers of the event loop.  A frame-send callback that fails is
    fatal to the session: nothing is sent after it. *)
Fixpoint frame_sends (frame : nghttp2_frame) (envs : list Env)
    (w : World) : outcome (list Z) :=
  match envs with
  | [] => Ret [] w
  | env :: envs =>
      match on_frame_send_callback frame env w with
      | Ret rv w' =>
          if decide (rv = 0) then
            match frame_sends frame envs w' with
            | Ret rvs w'' => Ret (rv :: rvs) w''
            | Died w'' => Died w''
            | Fault => Fault
            end
          else Ret [rv] w'
      | Died w' => Died w'
      | Fault => Fault
      end
  end.

(** The event loop refuses to arm a timer. *)
Definition no_timer_env : Env := {|
  config := config default_env;
  submit_rst_stream_rv := 0;
  submit_response_rv := 0;
  handler_dconn := 1%positive;
  attach_downstream_rv := 0;
  push_request_headers_rv := 0;
  on_read_result := fun d => (0, d);
  resume_read_rv := 0;
  send_rv := 0;
  change_priority_rv := 0;
  outbuf_length := 0;
  evbuffer_add_fails := false;
  evbuffer_remove_fails := false;
  evtimer_new_fails := false;
  evtimer_add_fails := true
|}.

(** ** Statements about the error reply *)

Section ErrorReplyStatements.
Context `{Helpers}.

(** The header list submitted with the error page [html]. *)
Definition error_reply_headers (env : Env) (status_code : Z) (html : string)
  : Headers :=
  [ (":status", utos status_code);
    ("content-type", "text/html; charset=UTF-8");
    ("server", server_name (config env));
    ("content-length", utos (Z.of_nat (String.length html))) ].

(** The Stream holding the error page, response complete. *)
Definition with_error_page (html : string) (d : Downstream) : Downstream :=
  with_response_state MSG_COMPLETE
    (with_response_body_buf (Some (list_ascii_of_string html)) d).

End ErrorReplyStatements.

(** * The rest of the bridge

    The callbacks and methods of shrpx_http2_upstream.cc that the
    statements above do not need. *)

Definition on_frame_not_send_callback (frame : nghttp2_frame)
    (lib_error_code : Z) : M Z :=
  if decide (hd_type frame = NGHTTP2_HEADERS
             /\ headers_cat frame = NGHTTP2_HCAT_RESPONSE) then
    downstream ← find_downstream (hd_stream_id frame);
    match downstream with
    | Some downstream =>
        rst_stream downstream NGHTTP2_INTERNAL_ERROR;;
        mret 0
    | None => mret 0
    end
  else mret 0.

(** A frame of the given type on a stream. *)
Definition frame_of (type : frame_type) (stream_id flags : Z)
  : nghttp2_frame := {|
  hd_type := type; hd_flags := flags; hd_stream_id := stream_id;
  headers_cat := NGHTTP2_HCAT_REQUEST; headers_pri := 0; priority_pri := 0;
  push_promise_promised_stream_id := 0
|}.

(** The Stream that the begin-headers callback makes for [frame]. *)
Definition begun (frame : nghttp2_frame) : Downstream :=
  with_response_body_buf (Some [])
    (new_Downstream (hd_stream_id frame) (headers_pri frame)).

(** The calls that end a callback with [send()]: the run of [send()]
    and, when it fails, the teardown of the client handler. *)
Definition send_and_teardown (env : Env) : list call :=
  Send :: if decide (send_rv env <> 0) then [DeleteClientHandler] else [].

(** The origin cancelled the stream with [code]. *)
Definition cancelled (code : nghttp2_error_code) : Downstream :=
  mkDownstream 1 0 MSG_COMPLETE MSG_RESET get_headers (headers_sum get_headers)
    "GET" "https" "a.example" "/x" false false false code (Some [])
    (Some 1%positive).

(** ** The session driver and the origin's events

    The remaining methods reach three more things of the session: the
    client's input and output buffers, the flow-control flag, and more
    entry points of the codec and of the origin connection.  They are
    embedded over a [Session], which holds the [World] of the callbacks
    above together with the buffers and the flag, and a list of
    [action]s: the calls of the callbacks above ([Bridge]) and the
    further calls, in the order they are made. *)

Definition BEV_EVENT_EOF : Z := 16.
Definition BEV_EVENT_ERROR : Z := 32.
Definition BEV_EVENT_TIMEOUT : Z := 64.
Definition BEV_EVENT_CONNECTED : Z := 128.

Inductive IOCtrlReason := SHRPX_NO_BUFFER | SHRPX_MSG_BLOCK.

Inductive action :=
| Bridge (c : call)
| TerminateSession (error_code : nghttp2_error_code)
| PushUploadDataChunk (downstream : ptr) (data : string)
| SessionMemRecv (data : list ascii)
| SessionMemSend
| SubmitWindowUpdate (stream_id increment : Z)
| SessionResumeData (stream_id : Z)
| DownstreamPauseRead (downstream : ptr) (reason : IOCtrlReason)
| SetTcpNoDelay (dconn : dconn_t)
| SessionDel.

Record Session := mkSession {
  world : World;
  input : list ascii;           (* the client's input buffer *)
  output : list ascii;          (* the client's output buffer *)
  flow_control_ : bool;
  actions : list action         (* calls made so far, oldest first *)
}.

(** Modelled from the spec: the codec is outside these sources.  What
    [nghttp2_session_mem_send] answers: an error (a negative length) or
    the next bytes to send, none when it has nothing. *)
Inductive mem_send_answer :=
| MemSendError
| MemSendData (data : list ascii).

(** What the collaborators answer during one callback, beyond [Env]. *)
Record Answers := {
  base_env : Env;
  terminate_session_rv : Z;        (* nghttp2_session_terminate_session *)
  push_upload_data_chunk_rv : Z;   (* Downstream::push_upload_data_chunk *)
  mem_recv_rv : Z;                 (* nghttp2_session_mem_recv *)
  mem_send : list mem_send_answer; (* nghttp2_session_mem_send, call by call *)
  want_read : Z;                   (* nghttp2_session_want_read *)
  want_write : Z;                  (* nghttp2_session_want_write *)
  output_add_fails : bool;         (* evbuffer_add to the output, -1 *)
  submit_window_update_rv : Z;     (* nghttp2_submit_window_update *)
  window_increment : Z -> Z;       (* http2::determine_window_update_transmission *)
  origin_output_length : Z         (* evbuffer_get_length of the origin's output *)
}.

Inductive result (A : Type) :=
| Done (a : A) (s : Session)   (* the method returned [a] *)
| Aborted (s : Session)        (* DIE() *)
| Faulted.                     (* a pointer to no live object was followed *)
Arguments Done {A} a s.
Arguments Aborted {A} s.
Arguments Faulted {A}.

Definition SessionM (A : Type) : Type := Answers -> Session -> result A.

#[global] Instance S_ret : MRet SessionM := fun A a _ s => Done a s.
#[global] Instance S_bind : MBind SessionM := fun A B f m ans s =>
  match m ans s with
  | Done a s' => f a ans s'
  | Aborted s' => Aborted s'
  | Faulted => Faulted
  end.

Definition answer {A} (f : Answers -> A) : SessionM A :=
  fun ans s => Done (f ans) s.
Definition inspect {A} (f : Session -> A) : SessionM A :=
  fun _ s => Done (f s) s.
Definition update (f : Session -> Session) : SessionM unit :=
  fun _ s => Done tt (f s).

Definition abort {A} : SessionM A := fun _ s => Aborted s.   (* DIE() *)

Definition log_action (a : action) (s : Session) : Session :=
  mkSession (world s) (input s) (output s) (flow_control_ s)
    (actions s ++ [a])%list.
Definition acted (a : action) : SessionM unit := update (log_action a).

(** The session after a callback of the first part took its world from
    [world s] to [w']: the calls it made are appended to the actions. *)
Definition sync (w' : World) (s : Session) : Session :=
  mkSession w' (input s) (output s) (flow_control_ s)
    (actions s
     ++ (Bridge <$> drop (List.length (trace (world s))) (trace w')))%list.

(** A computation of the first part, run on the session's world. *)
Definition lift {A} (m : M A) : SessionM A := fun ans s =>
  match m (base_env ans) (world s) with
  | Ret a w' => Done a (sync w' s)
  | Died w' => Aborted (sync w' s)
  | Fault => Faulted
  end.

(** *** Further collaborators *)

(** Modelled from the spec: the codec is outside these sources.
    [nghttp2_session_terminate_session] queues GOAWAY with the code and
    answers with a status. *)
Definition nghttp2_session_terminate_session
    (error_code : nghttp2_error_code) : SessionM Z :=
  acted (TerminateSession error_code);; answer terminate_session_rv.

(** Modelled from the spec: the codec is outside these sources.
    [nghttp2_submit_window_update] queues WINDOW_UPDATE for the stream
    (0: the connection) and answers with a status. *)
Definition nghttp2_submit_window_update (stream_id increment : Z)
  : SessionM Z :=
  acted (SubmitWindowUpdate stream_id increment);;
  answer submit_window_update_rv.

(** Modelled from the spec: the codec is outside these sources.
    [nghttp2_session_resume_data] tells the codec to ask the stream's
    data source again. *)
Definition nghttp2_session_resume_data (stream_id : Z) : SessionM unit :=
  acted (SessionResumeData stream_id).

(** Modelled from the spec: [http2::determine_window_update_transmission]
    is declared outside these sources.  It gives the window increment
    to send for the stream (0: the connection), or -1 for none. *)
Definition determine_window_update_transmission (stream_id : Z)
  : SessionM Z :=
  answer (fun ans => window_increment ans stream_id).

(** Modelled from the spec: [Downstream::push_upload_data_chunk] is
    declared outside these sources.  It forwards the bytes to the origin
    and answers with a status. *)
Definition push_upload_data_chunk (p : ptr) (data : string)
  : SessionM Z :=
  acted (PushUploadDataChunk p data);; answer push_upload_data_chunk_rv.

(** Modelled from the spec: [Downstream::pause_read] is declared outside
    these sources.  It stops reading from the origin. *)
Definition downstream_pause_read (p : ptr) (reason : IOCtrlReason)
  : SessionM unit :=
  acted (DownstreamPauseRead p reason).

(** Modelled from the spec: [ClientHandler::get_outbuf_length] is
    declared outside these sources.  It is the length of the client's
    output buffer. *)
Definition get_outbuf_length : SessionM Z :=
  inspect (fun s => Z.of_nat (List.length (output s))).

Definition with_output (out : list ascii) (s : Session) : Session :=
  mkSession (world s) (input s) out (flow_control_ s) (actions s).
Definition with_input (inp : list ascii) (s : Session) : Session :=
  mkSession (world s) inp (output s) (flow_control_ s) (actions s).

(** [evbuffer_add(output, data, datalen)]. *)
Definition evbuffer_add_output (data : list ascii) : SessionM Z :=
  fails ← answer output_add_fails;
  if fails : bool then mret (-1)
  else update (fun s => with_output (output s ++ data)%list s);; mret 0.

(** [evbuffer_drain(input, n)]. *)
Definition evbuffer_drain_input (n : Z) : SessionM unit :=
  update (fun s => with_input (drop (Z.to_nat n) (input s)) s).

(** Modelled from the spec: the codec is outside these sources.
    [nghttp2_session_mem_recv(session_, mem, inputlen)] is given the
    whole input and answers with the number of bytes it took, or an
    error. *)
Definition nghttp2_session_mem_recv : SessionM Z :=
  inp ← inspect input;
  acted (SessionMemRecv inp);;
  answer mem_recv_rv.

(** *** Http2Upstream, continued *)

(** The loop of [send()]; [None] when the loop is left by [break], the
    value returned when it is left by [return].  The codec's answers are
    taken one per call of [nghttp2_session_mem_send]; when they run out
    it has nothing to send.  While it serializes, the codec calls back
    into this file (frame sent, data source, stream closed), and a
    Stream may be gone afterwards: those callbacks are steps of their
    own, embedded above, and are not replayed inside the loop.  What is
    proved of [send()] below is therefore about the buffers, the calls
    of the codec and the verdict, not about the Streams after it. *)
Fixpoint send_loop (answers : list mem_send_answer)
  : SessionM (option Z) :=
  outlen ← get_outbuf_length;
  if decide (outlen > OUTBUF_MAX_THRES) then mret None
  else
    acted SessionMemSend;;
    match answers with
    | [] => mret None
    | MemSendError :: _ => mret (Some (-1))
    | MemSendData data :: answers =>
        if decide (data = []) then mret None
        else
          rv ← evbuffer_add_output data;
          if decide (rv = -1) then mret (Some (-1))
          else send_loop answers
    end.

Module Driver.

Definition send : SessionM Z :=
  answers ← answer mem_send;
  left_by ← send_loop answers;
  match left_by with
  | Some rv => mret rv
  | None =>
      wr ← answer want_read;
      ww ← answer want_write;
      outlen ← get_outbuf_length;
      if decide (wr = 0 /\ ww = 0 /\ outlen = 0) then mret (-1) else mret 0
  end.

Definition on_read : SessionM Z :=
  rv ← nghttp2_session_mem_recv;
  if decide (rv < 0) then mret (-1)
  else
    evbuffer_drain_input rv;;
    send.

Definition on_write : SessionM Z := send.

Definition terminate_session (error_code : nghttp2_error_code)
  : SessionM Z :=
  rv ← nghttp2_session_terminate_session error_code;
  if decide (rv <> 0) then mret (-1) else mret 0.

Definition settings_timeout_cb : SessionM unit :=
  rv ← terminate_session NGHTTP2_SETTINGS_TIMEOUT;
  if decide (rv <> 0) then lift (called DeleteClientHandler)
  else
    rv ← send;
    if decide (rv <> 0) then lift (called DeleteClientHandler) else mret tt.

Definition on_data_chunk_recv_callback (flags stream_id : Z) (data : string)
  : SessionM Z :=
  downstream ← lift (find_downstream stream_id);
  match downstream with
  | Some downstream =>
      rv ← push_upload_data_chunk downstream data;
      if decide (rv <> 0) then
        lift (rst_stream downstream NGHTTP2_INTERNAL_ERROR);;
        mret 0
      else mret 0
  | None => mret 0
  end.


Definition get_flow_control : SessionM bool := inspect flow_control_.



Definition on_downstream_body (downstream : ptr) (data : string)
  : SessionM Z :=
  rv ← lift (evbuffer_add downstream data);
  if decide (rv <> 0) then mret (-1)
  else
    sid ← lift (get_stream_id downstream);
    nghttp2_session_resume_data sid;;
    out ← get_outbuf_length;
    body ← lift (get_response_body_buf downstream);
    let outbuflen := size_t_add out (evbuffer_get_length (default [] body)) in
    (if decide (outbuflen > OUTBUF_MAX_THRES)
     then downstream_pause_read downstream SHRPX_NO_BUFFER
     else mret tt);;
    mret 0.

Definition on_downstream_body_complete (downstream : ptr) : SessionM Z :=
  sid ← lift (get_stream_id downstream);
  nghttp2_session_resume_data sid;;
  mret 0.

(** [~Http2Upstream()]. *)
Definition destroy : SessionM unit :=
  acted SessionDel;;
  ev ← lift get_settings_timerev;
  match ev with
  | Some ev => lift (called (EventFree ev))
  | None => mret tt
  end.

(** Modelled from the spec: [Downstream::get_upstream] is declared
    outside these sources.  It reads from the Stream the session it
    belongs to, which is this one. *)
Definition get_upstream (p : ptr) : SessionM unit :=
  lift (load (fun _ => tt) p).

Section Events.
Context `{Helpers}.

(** The event callback of the origin connection [dconn], whose Stream
    ([dconn->get_downstream()]) is [downstream]. *)
Definition downstream_eventcb (dconn : dconn_t) (events : Z)
    (downstream : ptr) : SessionM unit :=
  let finish : SessionM unit :=
    rv ← send;
    if decide (rv <> 0) then lift (called DeleteClientHandler) else mret tt in
  let close_dconn : SessionM unit :=
    lift (set_downstream_connection downstream None);;
    lift (called (DeleteDconn dconn)) in
  get_upstream downstream;;
  if decide (Z.land events BEV_EVENT_CONNECTED <> 0) then
    acted (SetTcpNoDelay dconn)
  else if decide (Z.land events BEV_EVENT_EOF <> 0) then
    rs ← lift (get_request_state downstream);
    if decide (rs = STREAM_CLOSED) then
      lift (remove_downstream downstream);;
      lift (delete_downstream downstream)
    else
      close_dconn;;
      rsp ← lift (get_response_state downstream);
      if decide (rsp = HEADER_COMPLETE) then
        lift (set_response_state downstream MSG_COMPLETE);;
        on_downstream_body_complete downstream;;
        finish
      else if decide (rsp <> MSG_COMPLETE) then
        rv ← lift (error_reply downstream 502);
        if decide (rv <> 0) then lift (called DeleteClientHandler)
        else
          lift (set_response_state downstream MSG_COMPLETE);;
          finish
      else finish
  else if decide (Z.land events (Z.lor BEV_EVENT_ERROR BEV_EVENT_TIMEOUT) <> 0)
  then
    rs ← lift (get_request_state downstream);
    if decide (rs = STREAM_CLOSED) then
      lift (remove_downstream downstream);;
      lift (delete_downstream downstream)
    else
      close_dconn;;
      rsp ← lift (get_response_state downstream);
      if decide (rsp = MSG_COMPLETE) then
        up ← lift (get_upgraded downstream);
        (if up : bool then
           lift (rst_stream downstream NGHTTP2_INTERNAL_ERROR);; mret tt
         else mret tt);;
        finish
      else
        rsp ← lift (get_response_state downstream);
        if decide (rsp = HEADER_COMPLETE) then
          lift (rst_stream downstream NGHTTP2_INTERNAL_ERROR);;
          lift (set_response_state downstream MSG_COMPLETE);;
          finish
        else
          let status :=
            if decide (Z.land events BEV_EVENT_TIMEOUT <> 0) then 504
            else 502 in
          rv ← lift (error_reply downstream status);
          if decide (rv <> 0) then lift (called DeleteClientHandler)
          else
            lift (set_response_state downstream MSG_COMPLETE);;
            finish
  else mret tt.

End Events.

End Driver.

(** ** Statements about the session driver *)

(** The session after [send()] moved [out] into the output buffer with
    [n] calls of [nghttp2_session_mem_send]. *)
Definition pumped (s : Session) (out : list ascii) (n : nat) : Session :=
  mkSession (world s) (input s) (output s ++ out)%list (flow_control_ s)
    (actions s ++ repeat SessionMemSend n)%list.

(** The session with the world [w] and the further actions [new]. *)
Definition on_world (w : World) (new : list action) (s : Session) : Session :=
  mkSession w (input s) (output s) (flow_control_ s) (actions s ++ new)%list.

(** How the callbacks of the origin connection end: [send()], and the
    client handler deleted when it fails. *)
Definition send_or_teardown : SessionM unit :=
  rv ← Driver.send;
  if decide (rv <> 0) then lift (called DeleteClientHandler) else mret tt.


(** Answers of a codec that has nothing to send but wants to read. *)
Definition quiet : Answers := {|
  base_env := default_env;
  terminate_session_rv := 0;
  push_upload_data_chunk_rv := 0;
  mem_recv_rv := 0;
  mem_send := [];
  want_read := 1;
  want_write := 0;
  output_add_fails := false;
  submit_window_update_rv := 0;
  window_increment := fun _ => -1;
  origin_output_length := 0
|}.

Definition with_mem_send (script : list mem_send_answer) (ans : Answers)
  : Answers := {|
  base_env := base_env ans;
  terminate_session_rv := terminate_session_rv ans;
  push_upload_data_chunk_rv := push_upload_data_chunk_rv ans;
  mem_recv_rv := mem_recv_rv ans;
  mem_send := script;
  want_read := want_read ans;
  want_write := want_write ans;
  output_add_fails := output_add_fails ans;
  submit_window_update_rv := submit_window_update_rv ans;
  window_increment := window_increment ans;
  origin_output_length := origin_output_length ans
|}.

(** A session that has exchanged nothing yet, on the world [w]. *)
Definition session_of (w : World) : Session := mkSession w [] [] false [].

(** Answers of an origin that does not take upload data. *)
Definition refusing_upload : Answers := {|
  base_env := default_env;
  terminate_session_rv := 0;
  push_upload_data_chunk_rv := -1;
  mem_recv_rv := 0;
  mem_send := [];
  want_read := 1;
  want_write := 0;
  output_add_fails := false;
  submit_window_update_rv := 0;
  window_increment := fun _ => -1;
  origin_output_length := 0
|}.

(** The session after the client handler was deleted. *)
Definition torn_down (s : Session) : Session :=
  on_world (log_call DeleteClientHandler (world s))
    [Bridge DeleteClientHandler] s.

(** ** Statements about the origin's events *)

(** The events the origin's callback acts on, as it tests them: a
    connection made; else the end of the origin's stream; else an error
    or a timeout. *)
Definition eof_event (events : Z) : Prop :=
  Z.land events BEV_EVENT_CONNECTED = 0 /\ Z.land events BEV_EVENT_EOF <> 0.

Definition failure_event (events : Z) : Prop :=
  Z.land events BEV_EVENT_CONNECTED = 0
  /\ Z.land events BEV_EVENT_EOF = 0
  /\ Z.land events (Z.lor BEV_EVENT_ERROR BEV_EVENT_TIMEOUT) <> 0.

(** The session after the callback deleted the origin connection
    [dconn] of the Stream at [p], left it as [d'] and made the calls
    [cs]. *)
Definition origin_lost (dconn : dconn_t) (p : ptr) (d' : Downstream)
    (cs : list call) (s : Session) : Session :=
  on_world (updated p d' (DeleteDconn dconn :: cs) (world s))
    (Bridge <$> DeleteDconn dconn :: cs) s.

(** The session after a Stream whose client stream is closed was removed
    and destroyed. *)
Definition stream_dropped (p : ptr) (d : Downstream) (s : Session)
  : Session :=
  on_world
    (mkWorld (delete (stream_id d) (downstream_queue_ (world s)))
       (settings_timerev_ (world s)) (delete p (objs (world s)))
       (trace (world s) ++ [DeleteDownstream p d])%list)
    [Bridge (DeleteDownstream p d)] s.

(** * Properties *)

(** ** Running a callback symbolically *)

Ltac unfold_monad :=
  cbv [mbind M_bind mret M_ret DIE ask get_config gets modify called
       load store id].

Ltac unfold_accessors :=
  cbv [get_stream_id get_request_state get_response_state
       get_request_headers get_request_headers_sum get_upgraded
       get_response_connection_close get_response_rst_stream_error_code
       get_response_body_buf get_downstream_connection
       set_request_state set_response_state set_downstream_connection
       set_request_line init_response_body_buf split_add_request_header
       normalize_request_headers check_upgrade_request
       add_downstream remove_downstream find_downstream delete_downstream
       get_settings_timerev set_settings_timerev].

Ltac unfold_collaborators :=
  cbv [nghttp2_submit_rst_stream nghttp2_submit_response attach_downstream
       detach_downstream push_request_headers downstream_on_read
       downstream_resume_read end_upload_data change_priority
       evbuffer_add evbuffer_remove evtimer_new evtimer_add send rst_stream].

Ltac unfold_all := unfold_collaborators; unfold_accessors; unfold_monad.

(** Resolve the lookups of the object store met along the way. *)
Ltac lookups :=
  repeat first
    [ progress cbn [objs downstream_queue_ settings_timerev_ trace
                    put_obj log_call with_queue fst snd
                    stream_id priority request_state response_state
                    request_headers request_headers_sum request_method
                    request_http2_scheme request_http2_authority
                    request_path upgrade_request upgraded
                    response_connection_close response_rst_stream_error_code
                    response_body_buf downstream_connection
                    with_request_state with_response_state
                    with_request_headers with_request_line
                    with_upgrade_request with_response_body_buf
                    with_downstream_connection]
    | progress cbn [negb andb orb]
    | rewrite lookup_insert_eq
    | match goal with
      | H : objs _ !! _ = Some _ |- _ => rewrite H
      | H : downstream_queue_ _ !! _ = Some _ |- _ => rewrite H
      | H : upgraded _ = _ |- _ => rewrite H
      | H : response_connection_close _ = _ |- _ => rewrite H
      | H : downstream_connection _ = _ |- _ => rewrite H
      | H : response_body_buf _ = _ |- _ => rewrite H
      | H : stream_id _ = _ |- _ => rewrite H
      | |- context [decide ?P] =>
          first [ rewrite (decide_True (P := P)) by (assumption || lia || tauto)
                | rewrite (decide_False (P := P))
                    by (assumption || lia || tauto) ]
      end ].

(** Bring the world a run ended in to the form of [updated]. *)
Ltac normalize_world :=
  unfold updated, put_obj, log_call, with_queue;
  cbn [objs downstream_queue_ settings_timerev_ trace];
  rewrite ?insert_insert_eq, <- ?app_assoc.

(** Split a list of calls that ends with [send()]. *)
Ltac ends_with_send :=
  unfold finishes_by_send;
  match goal with
  | |- context [decide ?P] =>
      first [ rewrite (decide_True (P := P)) by assumption
            | rewrite (decide_False (P := P)) by assumption ]
  end;
  match goal with
  | |- exists before, ?l = (before ++ [Send])%list =>
      exists (removelast l); reflexivity
  | |- exists before, ?l = (before ++ [Send; DeleteClientHandler])%list =>
      exists (removelast (removelast l)); reflexivity
  end.

(** A branch of the read callback that reaches [send()]. *)
Ltac branch_reaches_send :=
  lookups;
  eexists _, _; split; [reflexivity |];
  normalize_world; cbn [app];
  split; [reflexivity |];
  split; [intros; contradiction |];
  split;
  [ intros _ (? & ? & ? & ? & ?); exfalso; (contradiction || congruence)
  | intros _ _; ends_with_send ].

Ltac branch_with_send env :=
  destruct (decide (send_rv env <> 0)); branch_reaches_send.

(** ** C3: the reset code sent to the client *)

(** C3.  For every origin error code, [infer_upstream_rst_stream_error_code]
    gives REFUSED_STREAM if and only if the code is REFUSED_STREAM, and
    gives INTERNAL_ERROR for every other code. *)
Theorem infer_upstream_rst_stream_error_code_spec (code : Z) :
  (infer_upstream_rst_stream_error_code code = NGHTTP2_REFUSED_STREAM
   <-> code = NGHTTP2_REFUSED_STREAM)
  /\ (code <> NGHTTP2_REFUSED_STREAM ->
      infer_upstream_rst_stream_error_code code = NGHTTP2_INTERNAL_ERROR).
Proof.
  unfold infer_upstream_rst_stream_error_code.
  destruct (decide (code <> NGHTTP2_REFUSED_STREAM)) as [Hne | Heq].
  - split; [split | reflexivity]; intros Habs; [discriminate | contradiction].
  - apply dec_stable in Heq. split; [tauto | intros Hne; contradiction].
Qed.

Lemma infer_upstream_rst_stream_error_code_spec_witness :
  NGHTTP2_PROTOCOL_ERROR <> NGHTTP2_REFUSED_STREAM
  /\ infer_upstream_rst_stream_error_code NGHTTP2_PROTOCOL_ERROR
     = NGHTTP2_INTERNAL_ERROR.
Proof.
  split; [discriminate |].
  apply (infer_upstream_rst_stream_error_code_spec NGHTTP2_PROTOCOL_ERROR).
  discriminate.
Defined.

(** ** C2: the stream-close callback *)

Lemma delete_put_obj (p : ptr) (d : Downstream) (m : gmap ptr Downstream) :
  delete p (<[p := d]> m) = delete p m.
Proof. apply delete_insert_eq. Qed.

(** C2, as stated, fails after a 502 reply: the Stream is poolable by
    its states (response complete, not upgraded, no connection-close),
    but its origin connection was deleted when the parser failed, and
    the stream-close callback detaches nothing. *)
Lemma stream_close_as_specified_fails :
  ~ stream_close_as_specified default_env after_bad_gateway 1.
Proof.
  intros Hspec.
  destruct (objs after_bad_gateway !! 1%positive) as [d |] eqn:Hobj;
    [| vm_compute in Hobj; discriminate].
  destruct (Hspec 1%positive d) as (w' & cs & d' & Hrun & Htr & _ & _ & _ & Hlive).
  - reflexivity.
  - exact Hobj.
  - vm_compute in Hobj. injection Hobj as <-. reflexivity.
  - vm_compute in Hobj. injection Hobj as <-.
    vm_compute in Hrun. injection Hrun as <-.
    cbn [trace] in Htr.
    assert (Hcs : cs = []).
    { apply (f_equal (@List.length call)) in Htr.
      rewrite !length_app in Htr.
      change (List.length (trace after_bad_gateway)) with 6%nat in Htr.
      destruct cs; [reflexivity | cbn in Htr; lia]. }
    subst cs.
    destruct Hlive as [_ [_ Hdetach]]; [discriminate |].
    destruct Hdetach as [dconn Hin]; [repeat split |].
    inversion Hin.
Qed.

(** C2, amended.  For every stream-close event whose stream-id has a
    Stream in the table (filed under its own stream-id): if request_state is CONNECT_FAIL the Stream is
    removed from the table and destroyed at once, as it is; otherwise
    request_state is set to STREAM_CLOSED, and the origin connection is
    detached exactly when response_state is MSG_COMPLETE, the stream is
    not upgraded, the origin did not require connection-close and the
    Stream still holds an origin connection; in every branch the Stream
    is removed from the table and destroyed before the callback
    returns 0, and nothing else in the table changes. *)
Theorem on_stream_close_callback_spec
    (env : Env) (w : World) (sid code : Z) (p : ptr) (d : Downstream) :
  downstream_queue_ w !! sid = Some p ->
  objs w !! p = Some d ->
  stream_id d = sid ->
  exists cs d',
    on_stream_close_callback sid code env w
    = Ret 0 (mkWorld (delete sid (downstream_queue_ w)) (settings_timerev_ w)
               (delete p (objs w))
               (trace w ++ cs ++ [DeleteDownstream p d'])%list)
    /\ (request_state d = CONNECT_FAIL -> cs = [] /\ d' = d)
    /\ (request_state d <> CONNECT_FAIL ->
        request_state d' = STREAM_CLOSED
        /\ (detaches p cs
            <-> poolable d /\ is_Some (downstream_connection d))
        /\ (forall dconn, DetachDownstream dconn p ∈ cs ->
            downstream_connection d = Some dconn)).
Proof.
  intros Hq Ho Hsid.
  unfold on_stream_close_callback. unfold_all. lookups.
  destruct (decide (request_state d = CONNECT_FAIL)) as [Hcf | Hcf].
  { exists [], d. lookups. repeat split; tauto. }
  lookups.
  assert (Hno : forall dconn, DetachDownstream dconn p ∉ @nil call)
    by (intros c Hin; inversion Hin).
  destruct (decide (response_state d = MSG_COMPLETE)) as [Hmc | Hmc].
  2:{ lookups. exists [], (with_request_state STREAM_CLOSED d).
      rewrite delete_put_obj.
      split; [reflexivity |]. split; [tauto |]. intros _.
      split; [reflexivity |]. split.
      - split; [intros [c Hin]; destruct (Hno c Hin) |].
        intros [[Hr _] _]. contradiction.
      - intros c Hin. destruct (Hno c Hin). }
  destruct (upgraded d) eqn:Hup, (response_connection_close d) eqn:Hcc;
    lookups.
  4:{ destruct (downstream_connection d) as [dconn |] eqn:Hdc; lookups.
      - exists [DetachDownstream dconn p],
          (with_downstream_connection None
             (with_request_state STREAM_CLOSED d)).
        rewrite insert_insert_eq, delete_put_obj, <- app_assoc.
        split; [reflexivity |]. split; [tauto |]. intros _.
        split; [reflexivity |]. split.
        + split; [intros _ | intros _; exists dconn; apply list_elem_of_here].
          split; [repeat split; assumption | eexists; reflexivity].
        + intros c Hin. apply list_elem_of_singleton in Hin. congruence.
      - exists [], (with_request_state STREAM_CLOSED d).
        rewrite delete_put_obj.
        split; [reflexivity |]. split; [tauto |]. intros _.
        split; [reflexivity |]. split.
        + split; [intros [c Hin]; destruct (Hno c Hin) |].
          intros [_ [c Hc]]. discriminate.
        + intros c Hin. destruct (Hno c Hin). }
  all: exists [], (with_request_state STREAM_CLOSED d);
    rewrite delete_put_obj;
    (split; [reflexivity |]); (split; [tauto |]); intros _;
    (split; [reflexivity |]); split;
    [ split; [intros [c Hin]; destruct (Hno c Hin)
             | intros [(_ & Hu & Hc) _]; congruence]
    | intros c Hin; destruct (Hno c Hin) ].
Qed.

Lemma on_stream_close_callback_spec_witness :
  (downstream_queue_ (one_stream served) !! 1 = Some 1%positive
   /\ objs (one_stream served) !! 1%positive = Some served
   /\ stream_id served = 1)
  /\ exists cs d',
      on_stream_close_callback 1 NGHTTP2_NO_ERROR default_env
        (one_stream served)
      = Ret 0 (mkWorld (delete 1 (downstream_queue_ (one_stream served)))
                 (settings_timerev_ (one_stream served))
                 (delete 1%positive (objs (one_stream served)))
                 (trace (one_stream served) ++ cs
                  ++ [DeleteDownstream 1%positive d'])%list)
      /\ (request_state served = CONNECT_FAIL -> cs = [] /\ d' = served)
      /\ (request_state served <> CONNECT_FAIL ->
          request_state d' = STREAM_CLOSED
          /\ (detaches 1%positive cs
              <-> poolable served /\ is_Some (downstream_connection served))
          /\ (forall dconn, DetachDownstream dconn 1%positive ∈ cs ->
              downstream_connection served = Some dconn)).
Proof.
  split; [repeat split |].
  apply (on_stream_close_callback_spec default_env (one_stream served)
           1 NGHTTP2_NO_ERROR 1%positive served); reflexivity.
Defined.

(** ** The headers-complete handler *)

Section RequestHeaders.
Context `{Helpers}.

Variables (env : Env) (w : World) (frame : nghttp2_frame).
Variables (p : ptr) (d : Downstream).
Hypothesis Hfound : downstream_queue_ w !! hd_stream_id frame = Some p.
Hypothesis Hobj : objs w !! p = Some d.
Hypothesis Hcodec : NGHTTP2_ERR_FATAL <= submit_rst_stream_rv env.

Let nva := normalize_headers (request_headers d).
Let proxy := http2_proxy (config env).

(** A request that fails validation is answered by
    RST_STREAM(PROTOCOL_ERROR); but for the normalized header list the
    Stream stays as it was. *)
Lemma on_request_headers_rejected :
  request_accepted proxy (hd_flags frame) nva = false ->
  on_request_headers frame env w
  = Ret 0 (updated p (normalized d)
             [SubmitRstStream (stream_id d) NGHTTP2_PROTOCOL_ERROR] w).
Proof.
  unfold request_accepted, content_length_rejected, connect_rejected,
    plain_rejected, is_connect, proxy, nva.
  intros Hrej.
  unfold on_request_headers. unfold_all. lookups.
  destruct (check_http2_headers _); lookups.
  2:{ reflexivity. }
  cbn [andb] in Hrej.
  match goal with
  | |- context [if (if ?c then ?a else ?b) then _ else _] =>
      destruct (if c then a else b) eqn:Hpseudo
  end; lookups.
  { reflexivity. }
  cbn [negb andb] in Hrej. apply negb_false_iff in Hrej.
  rewrite Hrej. lookups. reflexivity.
Qed.

(** A request that passes validation is handed to the origin. *)
Lemma on_request_headers_accepted :
  request_accepted proxy (hd_flags frame) nva = true ->
  let dconn := handler_dconn env in
  let attached := with_downstream_connection (Some dconn) (prepared d) in
  on_request_headers frame env w
  = Ret 0
      (if decide (attach_downstream_rv env <> 0) then
         updated p (with_request_state CONNECT_FAIL (prepared d))
           [AttachDownstream dconn p;
            SubmitRstStream (stream_id d) NGHTTP2_INTERNAL_ERROR] w
       else if decide (push_request_headers_rv env <> 0) then
         updated p attached
           [AttachDownstream dconn p; PushRequestHeaders p;
            SubmitRstStream (stream_id d) NGHTTP2_INTERNAL_ERROR] w
       else
         updated p
           (with_request_state
              (if decide (Z.land (hd_flags frame) NGHTTP2_FLAG_END_STREAM <> 0)
               then MSG_COMPLETE else HEADER_COMPLETE) attached)
           [AttachDownstream dconn p; PushRequestHeaders p] w).
Proof.
  unfold request_accepted, content_length_rejected, connect_rejected,
    plain_rejected, is_connect, proxy, nva.
  intros Hacc. cbv zeta.
  apply andb_true_iff in Hacc as [Hacc Hlen].
  apply andb_true_iff in Hacc as [Hconf Hpseudo].
  apply negb_true_iff in Hlen, Hpseudo.
  unfold on_request_headers. unfold_all. lookups.
  rewrite Hconf. lookups. rewrite Hpseudo, Hlen.
  unfold prepared, normalized.
  destruct (decide (attach_downstream_rv env <> 0)) as [Hatt | Hatt]; lookups.
  { normalize_world. reflexivity. }
  destruct (decide (push_request_headers_rv env <> 0)) as [Hpush | Hpush];
    lookups.
  { normalize_world. reflexivity. }
  destruct (decide (Z.land (hd_flags frame) NGHTTP2_FLAG_END_STREAM <> 0));
    lookups; normalize_world; reflexivity.
Qed.

End RequestHeaders.

(** ** C1: handing an accepted request to the origin *)

(** C1.  On the headers-complete event (a HEADERS frame received) for a
    request that passed validation, provided the codec reports no fatal
    error: if attaching the origin connection fails, the stream is reset
    with INTERNAL_ERROR and request_state becomes CONNECT_FAIL; if
    attaching succeeds but pushing the request headers fails, the stream
    is reset with INTERNAL_ERROR and request_state is left as it was; if
    both succeed, nothing is reset and request_state becomes MSG_COMPLETE
    when the frame carried END_STREAM and HEADER_COMPLETE otherwise. *)
Theorem headers_complete_relay `{Helpers}
    (env : Env) (w : World) (frame : nghttp2_frame) (p : ptr)
    (d : Downstream) :
  hd_type frame = NGHTTP2_HEADERS ->
  downstream_queue_ w !! hd_stream_id frame = Some p ->
  objs w !! p = Some d ->
  request_accepted (http2_proxy (config env)) (hd_flags frame)
    (normalize_headers (request_headers d)) = true ->
  NGHTTP2_ERR_FATAL <= submit_rst_stream_rv env ->
  let dconn := handler_dconn env in
  let reset := SubmitRstStream (stream_id d) NGHTTP2_INTERNAL_ERROR in
  exists d' cs,
    on_frame_recv_callback frame env w = Ret 0 (updated p d' cs w)
    /\ (attach_downstream_rv env <> 0 ->
        cs = [AttachDownstream dconn p; reset]
        /\ request_state d' = CONNECT_FAIL)
    /\ (attach_downstream_rv env = 0 -> push_request_headers_rv env <> 0 ->
        cs = [AttachDownstream dconn p; PushRequestHeaders p; reset]
        /\ request_state d' = request_state d)
    /\ (attach_downstream_rv env = 0 -> push_request_headers_rv env = 0 ->
        cs = [AttachDownstream dconn p; PushRequestHeaders p]
        /\ request_state d'
           = if decide (Z.land (hd_flags frame) NGHTTP2_FLAG_END_STREAM <> 0)
             then MSG_COMPLETE else HEADER_COMPLETE).
Proof.
  intros Hty Hfound Hobj Hacc Hcodec dconn reset.
  unfold on_frame_recv_callback. rewrite Hty.
  rewrite (on_request_headers_accepted env w frame p d Hfound Hobj Hcodec Hacc).
  fold dconn. fold reset.
  destruct (decide (attach_downstream_rv env <> 0)) as [Hatt | Hatt].
  { eexists _, _. split; [reflexivity |]. repeat split; tauto. }
  destruct (decide (push_request_headers_rv env <> 0)) as [Hpush | Hpush].
  { eexists _, _. split; [reflexivity |]. repeat split; tauto. }
  eexists _, _. split; [reflexivity |]. repeat split; tauto.
Qed.

Lemma headers_complete_relay_witness :
  let w := one_stream (pending 1 get_headers) in
  let frame := headers_frame 1 NGHTTP2_FLAG_END_STREAM in
  exists d' cs,
    on_frame_recv_callback frame default_env w
    = Ret 0 (updated 1%positive d' cs w)
    /\ cs = [AttachDownstream 1%positive 1%positive;
             PushRequestHeaders 1%positive]
    /\ request_state d' = MSG_COMPLETE.
Proof.
  intros w frame.
  destruct (headers_complete_relay default_env w frame 1%positive
              (pending 1 get_headers))
    as (d' & cs & Hrun & _ & _ & Hok);
    [reflexivity | reflexivity | reflexivity | reflexivity
    | vm_compute; discriminate |].
  exists d', cs. split; [exact Hrun |]. apply Hok; reflexivity.
Defined.

(** ** C5: validation of CONNECT requests *)

Lemma is_connect_method `{Helpers} (nva : Headers) :
  is_connect nva = true
  <-> exists nv, get_unique_header nva ":method" = Some nv /\ nv.2 = "CONNECT".
Proof.
  unfold is_connect. destruct (get_unique_header nva ":method") as [nv |].
  - rewrite bool_decide_eq_true. split.
    + intros Heq. exists nv. split; [reflexivity | symmetry; exact Heq].
    + intros (nv' & Hnv & Heq). injection Hnv as ->. symmetry. exact Heq.
  - split; [discriminate | intros (nv & Hnv & _); discriminate].
Qed.

Lemma connect_rejected_iff `{Helpers} (nva : Headers) :
  connect_rejected nva = true
  <-> is_Some (get_unique_header nva ":scheme")
      \/ is_Some (get_unique_header nva ":path")
      \/ non_empty_value (get_unique_header nva ":authority") = false.
Proof.
  unfold connect_rejected.
  rewrite !orb_true_iff, !bool_decide_eq_true, negb_true_iff. tauto.
Qed.

(** C5.  For every request whose :method pseudo-header equals CONNECT,
    provided the codec reports no fatal error: if a :scheme pseudo-header
    is present, or a :path pseudo-header is present, or the :authority
    pseudo-header is absent or empty, the stream is reset with
    PROTOCOL_ERROR and the handler returns with the Stream's request
    state (and all of the Stream but its normalized header list) as it
    was; otherwise the validation of a CONNECT request passes: a request
    whose headers conform is handed to the origin connection, no
    PROTOCOL_ERROR is sent. *)
Theorem connect_request_validation `{Helpers}
    (env : Env) (w : World) (frame : nghttp2_frame) (p : ptr)
    (d : Downstream) :
  downstream_queue_ w !! hd_stream_id frame = Some p ->
  objs w !! p = Some d ->
  NGHTTP2_ERR_FATAL <= submit_rst_stream_rv env ->
  let nva := normalize_headers (request_headers d) in
  let scheme := get_unique_header nva ":scheme" in
  let path := get_unique_header nva ":path" in
  let authority := get_unique_header nva ":authority" in
  (exists nv, get_unique_header nva ":method" = Some nv /\ nv.2 = "CONNECT") ->
  (is_Some scheme \/ is_Some path \/ non_empty_value authority = false ->
   on_request_headers frame env w
   = Ret 0 (updated p (normalized d)
              [SubmitRstStream (stream_id d) NGHTTP2_PROTOCOL_ERROR] w)
   /\ request_state (normalized d) = request_state d)
  /\ (scheme = None -> path = None -> non_empty_value authority = true ->
      check_http2_headers nva = true ->
      exists d' cs,
        on_request_headers frame env w
        = Ret 0 (updated p d' (AttachDownstream (handler_dconn env) p :: cs) w)
        /\ SubmitRstStream (stream_id d) NGHTTP2_PROTOCOL_ERROR ∉ cs).
Proof.
  intros Hfound Hobj Hcodec nva scheme path authority Hconnect.
  apply is_connect_method in Hconnect. fold nva in Hconnect.
  split.
  - intros Hbad. split; [| reflexivity].
    apply (on_request_headers_rejected env w frame p d Hfound Hobj Hcodec).
    fold nva. unfold request_accepted. rewrite Hconnect.
    apply connect_rejected_iff in Hbad. fold nva in Hbad. rewrite Hbad.
    apply andb_false_iff. left. apply andb_false_r.
  - intros Hscheme Hpath Hauth Hconf.
    assert (Hok : connect_rejected nva = false).
    { destruct (connect_rejected nva) eqn:Hrej; [| reflexivity].
      apply connect_rejected_iff in Hrej.
      fold scheme path authority in Hrej. rewrite Hscheme, Hpath, Hauth in Hrej.
      destruct Hrej as [[? Habs] | [[? Habs] | Habs]]; discriminate. }
    assert (Hacc : request_accepted (http2_proxy (config env))
                     (hd_flags frame) nva = true).
    { unfold request_accepted, content_length_rejected.
      rewrite Hconf, Hconnect, Hok. reflexivity. }
    rewrite (on_request_headers_accepted env w frame p d Hfound Hobj Hcodec
               Hacc).
    assert (Hneq : NGHTTP2_PROTOCOL_ERROR <> NGHTTP2_INTERNAL_ERROR)
      by discriminate.
    destruct (decide (attach_downstream_rv env <> 0));
      [| destruct (decide (push_request_headers_rv env <> 0))];
      eexists _, _; (split; [reflexivity |]);
      repeat (rewrite not_elem_of_cons; split; [congruence |]);
      apply not_elem_of_nil.
Qed.

Lemma connect_request_validation_witness :
  let w := one_stream (pending 1 connect_scheme_headers) in
  let frame := headers_frame 1 NGHTTP2_FLAG_NONE in
  on_request_headers frame default_env w
  = Ret 0 (updated 1%positive (normalized (pending 1 connect_scheme_headers))
             [SubmitRstStream 1 NGHTTP2_PROTOCOL_ERROR] w).
Proof.
  intros w frame.
  refine (proj1 (proj1 (connect_request_validation default_env w frame
                          1%positive (pending 1 connect_scheme_headers)
                          _ _ _ _) _)).
  - reflexivity.
  - reflexivity.
  - vm_compute. discriminate.
  - exists (":method", "CONNECT"). split; reflexivity.
  - left. exists (":scheme", "https"). reflexivity.
Defined.

(** ** C6: a request body needs a content-length *)

(** C6.  For every non-CONNECT request whose HEADERS frame did not carry
    END_STREAM, provided the codec reports no fatal error: if the
    content-length header is absent, or its value is linear whitespace
    only, the stream is reset with PROTOCOL_ERROR and the handler
    returns with the Stream's request state (and all of the Stream but
    its normalized header list) as it was. *)
Theorem request_body_needs_content_length `{Helpers}
    (env : Env) (w : World) (frame : nghttp2_frame) (p : ptr)
    (d : Downstream) :
  downstream_queue_ w !! hd_stream_id frame = Some p ->
  objs w !! p = Some d ->
  NGHTTP2_ERR_FATAL <= submit_rst_stream_rv env ->
  let nva := normalize_headers (request_headers d) in
  is_connect nva = false ->
  Z.land (hd_flags frame) NGHTTP2_FLAG_END_STREAM = 0 ->
  (get_header nva "content-length" = None
   \/ exists content_length,
        get_header nva "content-length" = Some content_length
        /\ value_lws content_length = true) ->
  on_request_headers frame env w
  = Ret 0 (updated p (normalized d)
             [SubmitRstStream (stream_id d) NGHTTP2_PROTOCOL_ERROR] w)
  /\ request_state (normalized d) = request_state d.
Proof.
  intros Hfound Hobj Hcodec nva Hplain Hflags Hlen.
  split; [| reflexivity].
  apply (on_request_headers_rejected env w frame p d Hfound Hobj Hcodec).
  fold nva. unfold request_accepted, content_length_rejected.
  rewrite Hplain, (bool_decide_eq_true_2 _ Hflags).
  assert (Hcl : match get_header nva "content-length" with
                | Some content_length => value_lws content_length
                | None => true
                end = true).
  { destruct Hlen as [-> | (cl & -> & Hlws)]; [reflexivity | exact Hlws]. }
  rewrite Hcl. cbn [negb andb]. apply andb_false_r.
Qed.

Lemma request_body_needs_content_length_witness :
  let w := one_stream (pending 1 post_headers) in
  let frame := headers_frame 1 NGHTTP2_FLAG_NONE in
  on_request_headers frame default_env w
  = Ret 0 (updated 1%positive (normalized (pending 1 post_headers))
             [SubmitRstStream 1 NGHTTP2_PROTOCOL_ERROR] w).
Proof.
  intros w frame.
  refine (proj1 (request_body_needs_content_length default_env w frame
                   1%positive (pending 1 post_headers) _ _ _ _ _ _)).
  - reflexivity.
  - reflexivity.
  - vm_compute. discriminate.
  - reflexivity.
  - reflexivity.
  - left. reflexivity.
Defined.

(** ** C7: the limit on the size of the request headers *)

(** The Stream of [padded 31] is what the callbacks make of a HEADERS
    frame that carries 31 such headers. *)
Lemma padded_31_reached :
  (on_begin_headers_callback (headers_frame 1 0);;
   header_callbacks (headers_frame 1 0) (repeat (pad_name, pad_value) 31))
    default_env empty_world
  = Ret tt (one_stream (padded 31)).
Proof. vm_compute. reflexivity. Qed.

(** C7, as stated, fails: the size is compared with MAX_HEADERS_SUM
    before the pair is appended.  With 31 headers of 2049 bytes the
    running size is 63519, within the limit of 65536; the callback
    appends the 32nd and the running size is 65568. *)
Lemma header_callback_as_specified_fails :
  ~ header_callback_as_specified default_env (one_stream (padded 31))
      (headers_frame 1 0) pad_name pad_value.
Proof.
  intros Hspec.
  assert (Hbefore : headers_sum_bounded (one_stream (padded 31))).
  { apply map_Forall_singleton. vm_compute. discriminate. }
  specialize (Hspec Hbefore).
  assert (Hafter : objs (world_of (on_header_callback (headers_frame 1 0)
                                     pad_name pad_value default_env
                                     (one_stream (padded 31))))
                   !! 1%positive = Some (padded 32))
    by (vm_compute; reflexivity).
  apply (map_Forall_lookup_1 _ _ _ _ Hspec) in Hafter.
  vm_compute in Hafter. apply Hafter. reflexivity.
Qed.

Section HeaderCallback.
Context `{Helpers}.

Variables (env : Env) (frame : nghttp2_frame) (p : ptr).
Hypothesis Hheaders : hd_type frame = NGHTTP2_HEADERS.
Hypothesis Hrequest : headers_cat frame = NGHTTP2_HCAT_REQUEST.

(** One call of the header callback for a Stream of the table. *)
Lemma on_header_callback_step (w : World) (d : Downstream)
    (name value : string) :
  downstream_queue_ w !! hd_stream_id frame = Some p ->
  objs w !! p = Some d ->
  on_header_callback frame name value env w
  = if decide (request_headers_sum d > MAX_HEADERS_SUM) then
      Ret NGHTTP2_ERR_TEMPORAL_CALLBACK_FAILURE w
    else if check_nv name value then
      Ret 0 (put_obj p (with_header name value d) w)
    else Ret 0 w.
Proof.
  intros Hfound Hobj.
  unfold on_header_callback.
  rewrite decide_False by (rewrite Hheaders, Hrequest; tauto).
  unfold_all. lookups.
  destruct (decide (request_headers_sum d > MAX_HEADERS_SUM)); [reflexivity |].
  destruct (check_nv name value); lookups; [| reflexivity].
  unfold with_header, raw_size. rewrite Z.add_assoc. reflexivity.
Qed.

(** Any number of calls: the running size stays within MAX_HEADERS_SUM
    plus the size of the largest pair. *)
Lemma header_callbacks_bound (B : Z) (hs : Headers) :
  Forall (fun nv => raw_size nv.1 nv.2 <= B) hs ->
  forall (w : World) (d : Downstream),
    downstream_queue_ w !! hd_stream_id frame = Some p ->
    objs w !! p = Some d ->
    request_headers_sum d <= MAX_HEADERS_SUM + B ->
    exists w' d',
      header_callbacks frame hs env w = Ret tt w'
      /\ downstream_queue_ w' = downstream_queue_ w
      /\ objs w' !! p = Some d'
      /\ request_headers_sum d' <= MAX_HEADERS_SUM + B.
Proof.
  induction 1 as [| [name value] hs Hsize _ IH]; intros w d Hfound Hobj Hsum.
  - exists w, d. repeat split; assumption.
  - cbn [header_callbacks]. unfold mbind, M_bind.
    rewrite (on_header_callback_step w d name value Hfound Hobj).
    cbn [fst snd] in Hsize.
    destruct (decide (request_headers_sum d > MAX_HEADERS_SUM));
      [| destruct (check_nv name value)].
    + apply (IH w d); assumption.
    + destruct (IH (put_obj p (with_header name value d) w)
                  (with_header name value d))
        as (w' & d' & Hrun & Hq & Hobj' & Hsum').
      * exact Hfound.
      * apply lookup_insert_eq.
      * cbn [with_header with_request_headers request_headers_sum]. lia.
      * exists w', d'. repeat split; assumption.
    + apply (IH w d); assumption.
Qed.

End HeaderCallback.

(** C7, amended.  The header callback, for a request-category HEADERS
    frame and a Stream of the table, signals a temporal callback
    failure when the Stream's running raw-header size exceeds
    MAX_HEADERS_SUM, and leaves the Stream as it is; otherwise it appends
    the pair if [check_nv] validates it, and the running size grows by
    the raw size of the pair, and it ignores the pair if not.  The
    running size is compared before the pair is appended: it can exceed
    MAX_HEADERS_SUM by the size of the last pair appended, and at all
    times it is at most MAX_HEADERS_SUM + B when no pair delivered is
    larger than B bytes. *)
Theorem on_header_callback_spec `{Helpers}
    (env : Env) (w : World) (frame : nghttp2_frame) (p : ptr)
    (d : Downstream) :
  hd_type frame = NGHTTP2_HEADERS ->
  headers_cat frame = NGHTTP2_HCAT_REQUEST ->
  downstream_queue_ w !! hd_stream_id frame = Some p ->
  objs w !! p = Some d ->
  (forall name value,
     (request_headers_sum d > MAX_HEADERS_SUM ->
      on_header_callback frame name value env w
      = Ret NGHTTP2_ERR_TEMPORAL_CALLBACK_FAILURE w)
     /\ (request_headers_sum d <= MAX_HEADERS_SUM ->
         check_nv name value = true ->
         on_header_callback frame name value env w
         = Ret 0 (put_obj p (with_header name value d) w)
         /\ request_headers_sum (with_header name value d)
            = request_headers_sum d + raw_size name value
         /\ request_headers_sum (with_header name value d)
            <= MAX_HEADERS_SUM + raw_size name value)
     /\ (request_headers_sum d <= MAX_HEADERS_SUM ->
         check_nv name value = false ->
         on_header_callback frame name value env w = Ret 0 w))
  /\ (forall B hs,
        Forall (fun nv => raw_size nv.1 nv.2 <= B) hs ->
        request_headers_sum d <= MAX_HEADERS_SUM + B ->
        exists w' d',
          header_callbacks frame hs env w = Ret tt w'
          /\ objs w' !! p = Some d'
          /\ request_headers_sum d' <= MAX_HEADERS_SUM + B).
Proof.
  intros Hheaders Hrequest Hfound Hobj. split.
  - intros name value.
    rewrite (on_header_callback_step env frame p Hheaders Hrequest w d
               name value Hfound Hobj).
    split; [| split].
    + intros Hover. rewrite decide_True by exact Hover. reflexivity.
    + intros Hin Hok. rewrite decide_False by lia. rewrite Hok.
      split; [reflexivity |].
      cbn [with_header with_request_headers request_headers_sum].
      split; [reflexivity | lia].
    + intros Hin Hbad. rewrite decide_False by lia. rewrite Hbad. reflexivity.
  - intros B hs Hsizes Hsum.
    destruct (header_callbacks_bound env frame p Hheaders Hrequest B hs Hsizes
                w d Hfound Hobj Hsum) as (w' & d' & Hrun & _ & Hobj' & Hsum').
    exists w', d'. repeat split; assumption.
Qed.

Lemma on_header_callback_spec_witness :
  on_header_callback (headers_frame 1 0) pad_name pad_value default_env
    (one_stream (padded 32))
  = Ret NGHTTP2_ERR_TEMPORAL_CALLBACK_FAILURE (one_stream (padded 32)).
Proof.
  refine (proj1 (proj1 (on_header_callback_spec default_env
                          (one_stream (padded 32)) (headers_frame 1 0)
                          1%positive (padded 32) _ _ _ _)
                   pad_name pad_value) _);
    [reflexivity | reflexivity | reflexivity | reflexivity
    | vm_compute; reflexivity].
Defined.

(** ** The error reply, step by step *)

Lemma length_list_ascii_of_string (s : string) :
  List.length (list_ascii_of_string s) = String.length s.
Proof. induction s as [| c s IH]; [reflexivity | cbn; rewrite IH; reflexivity]. Qed.

(** What [error_reply] does, by the answers of libevent and of the
    codec. *)
Lemma error_reply_run `{Helpers}
    (env : Env) (w : World) (p : ptr) (d : Downstream) (status_code : Z) :
  objs w !! p = Some d ->
  let html := create_error_html status_code in
  let submit :=
    SubmitResponse (stream_id d) (error_reply_headers env status_code html) in
  error_reply p status_code env w
  = if evbuffer_add_fails env then
      Ret (-1) (put_obj p (with_response_body_buf (Some []) d) w)
    else if decide (submit_response_rv env < NGHTTP2_ERR_FATAL) then
      Died (updated p (with_error_page html d) [submit] w)
    else
      Ret 0 (updated p (with_error_page html d)
               (submit :: if accesslog (config env)
                          then [UpstreamResponse status_code p] else []) w).
Proof.
  intros Hobj html submit. subst submit html.
  unfold error_reply, error_reply_headers, with_error_page. unfold_all.
  lookups.
  destruct (evbuffer_add_fails env); lookups; [reflexivity |].
  destruct (decide (submit_response_rv env < NGHTTP2_ERR_FATAL)); lookups.
  { normalize_world. reflexivity. }
  destruct (accesslog (config env)); lookups; normalize_world;
    rewrite ?app_nil_r; reflexivity.
Qed.

(** ** C8: the origin read callback and [send()] *)

(** C8, as stated, fails in its first branch: when the client stream is
    already closed the callback removes and destroys the Stream and
    returns; [send()] is not run. *)
Lemma readcb_as_specified_fails :
  ~ readcb_as_specified default_env (one_stream closed_by_client)
      1%positive 1%positive.
Proof.
  intros (w' & cs & Hrun & Htrace & Hsend).
  vm_compute in Hrun. injection Hrun as <-.
  cbn [trace one_stream app] in Htrace. subst cs.
  apply list_elem_of_singleton in Hsend. discriminate.
Qed.

(** C8, amended.  An invocation of the origin read callback finishes by
    running [send()] (and, when [send()] fails, by tearing down the
    client handler) when the origin reported cancellation (response_state
    == MSG_RESET), when the origin parser succeeds, and when it fails,
    except in two cases that return without [send()]: when the client
    stream is already closed (request_state == STREAM_CLOSED) the Stream
    is removed and destroyed and nothing else is done, and when the
    parser fails before any response header and the 502 reply cannot be
    queued, the client handler is torn down at once.  (Provided the
    codec reports no fatal error.) *)
Theorem downstream_readcb_spec `{Helpers}
    (env : Env) (w : World) (dconn : dconn_t) (p : ptr) (d : Downstream) :
  objs w !! p = Some d ->
  NGHTTP2_ERR_FATAL <= submit_rst_stream_rv env ->
  NGHTTP2_ERR_FATAL <= submit_response_rv env ->
  let parsed := on_read_result env d in
  let reply_fails :=
    response_state d <> MSG_RESET /\ parsed.1 <> 0
    /\ response_state parsed.2 <> HEADER_COMPLETE
    /\ response_state parsed.2 <> MSG_COMPLETE
    /\ evbuffer_add_fails env = true in
  exists w' cs,
    downstream_readcb dconn p env w = Ret tt w'
    /\ trace w' = (trace w ++ cs)%list
    /\ (request_state d = STREAM_CLOSED ->
        w' = mkWorld (delete (stream_id d) (downstream_queue_ w))
               (settings_timerev_ w) (delete p (objs w))
               (trace w ++ [DeleteDownstream p d])%list)
    /\ (request_state d <> STREAM_CLOSED -> reply_fails ->
        cs = [DownstreamOnRead p; DeleteClientHandler])
    /\ (request_state d <> STREAM_CLOSED -> ~ reply_fails ->
        finishes_by_send env cs).
Proof.
  intros Hobj Hrst Hresp parsed reply_fails.
  unfold downstream_readcb. unfold_all. lookups.
  destruct (decide (request_state d = STREAM_CLOSED)) as [Hclosed | Hopen].
  { lookups. eexists _, _. split; [reflexivity |]. cbn [trace objs].
    split; [reflexivity |]. split; [| split; intros; contradiction].
    intros _. reflexivity. }
  destruct (decide (response_state d = MSG_RESET)) as [Hreset | Hlive].
  { branch_with_send env. }
  lookups.
  subst reply_fails parsed.
  destruct (on_read_result env d) as [rv d1] eqn:Hparse. cbn [fst snd].
  destruct (decide (rv <> 0)) as [Hfail | Hok]; lookups.
  2:{ branch_with_send env. }
  destruct (decide (response_state d1 = HEADER_COMPLETE)) as [Hhc | Hhc];
    lookups.
  { branch_with_send env. }
  destruct (decide (response_state d1 <> MSG_COMPLETE)) as [Hmc | Hmc];
    lookups.
  2:{ branch_with_send env. }
  erewrite (error_reply_run env _ p d1 502) by apply lookup_insert_eq.
  destruct (evbuffer_add_fails env) eqn:Hadd; lookups.
  { eexists _, _. split; [reflexivity |].
    normalize_world. cbn [app].
    split; [reflexivity |]. split; [intros; contradiction |].
    split; [reflexivity |].
    intros _ Hnot. destruct Hnot. repeat split; assumption. }
  unfold updated.
  destruct (accesslog (config env)); branch_with_send env.
Qed.

Lemma downstream_readcb_spec_witness :
  exists w' cs,
    downstream_readcb 1%positive 1%positive default_env (one_stream relayed)
    = Ret tt w'
    /\ trace w' = (trace (one_stream relayed) ++ cs)%list
    /\ finishes_by_send default_env cs.
Proof.
  destruct (downstream_readcb_spec default_env (one_stream relayed)
              1%positive 1%positive relayed)
    as (w' & cs & Hrun & Htrace & _ & _ & Hsend);
    [reflexivity | vm_compute; discriminate | vm_compute; discriminate |].
  exists w', cs. split; [exact Hrun |]. split; [exact Htrace |].
  apply Hsend; [discriminate |].
  intros (_ & Hrv & _). apply Hrv. reflexivity.
Defined.

(** ** C4: the response data source *)

(** C4, as stated, fails twice.  A read that drains the last bytes of a
    complete response returns them without end-of-stream: the flag is
    set by the next call, which finds the buffer empty.  And a call that
    finds the buffer empty before the response is complete returns
    CALLBACK_FAILURE, not DEFERRED, when the origin connection cannot
    resume reading. *)
Lemma data_read_as_specified_fails :
  ~ data_read_as_specified default_env (one_stream last_bytes) 16 1%positive
  /\ ~ data_read_as_specified resume_failure_env (one_stream awaiting_body)
         16 1%positive.
Proof.
  split; intros Hspec.
  - destruct (Hspec last_bytes (list_ascii_of_string "end"))
      as (rv & eof & data & w' & cs & Hrun & _ & Heof & _);
      [reflexivity | reflexivity |].
    vm_compute in Hrun. injection Hrun as _ <- _ _.
    specialize (Heof eq_refl eq_refl). discriminate.
  - destruct (Hspec awaiting_body [])
      as (rv & eof & data & w' & cs & Hrun & _ & _ & Hrv);
      [reflexivity | reflexivity |].
    vm_compute in Hrun. injection Hrun as <- _ _ _.
    assert (Hdeferred : NGHTTP2_ERR_CALLBACK_FAILURE = NGHTTP2_ERR_DEFERRED)
      by (apply Hrv; [reflexivity | discriminate]).
    discriminate Hdeferred.
Qed.

(** C4, amended.  In the per-stream response data-source callback,
    called with end-of-stream not yet set, provided the buffer read
    itself does not fail and the codec reports no fatal error: whenever
    the read returns no bytes (the response buffer is already empty) and
    response_state == MSG_COMPLETE, a non-upgraded stream has the
    end-of-stream flag set and the callback returns 0, while an upgraded
    (tunneled) stream never has end-of-stream set and instead a
    RST_STREAM is submitted with the code from
    infer_upstream_rst_stream_error_code; whenever the read returns no
    bytes and end-of-stream is not set (the response is not complete, or
    the stream is upgraded), the callback returns DEFERRED, unless it
    asks the origin connection to resume reading and that fails, in
    which case it returns CALLBACK_FAILURE; a read that returns bytes
    leaves end-of-stream as it is and submits no RST_STREAM, also when
    it drains the buffer. *)
Theorem downstream_data_read_callback_spec
    (env : Env) (w : World) (sid length eof : Z) (p : ptr)
    (d : Downstream) (body : list ascii) :
  objs w !! p = Some d ->
  response_body_buf d = Some body ->
  evbuffer_remove_fails env = false ->
  NGHTTP2_ERR_FATAL <= submit_rst_stream_rv env ->
  eof <> 1 ->
  let data := take (Z.to_nat length) body in
  let reset :=
    SubmitRstStream (stream_id d)
      (infer_upstream_rst_stream_error_code
         (response_rst_stream_error_code d)) in
  exists rv eof' w' cs,
    downstream_data_read_callback sid length eof p env w
    = Ret (rv, eof', data) w'
    /\ trace w' = (trace w ++ cs)%list
    /\ (data = [] -> response_state d = MSG_COMPLETE -> upgraded d = false ->
        eof' = 1 /\ rv = 0 /\ cs = [])
    /\ (data = [] -> response_state d = MSG_COMPLETE -> upgraded d = true ->
        eof' = eof /\ reset ∈ cs)
    /\ (data = [] -> response_state d <> MSG_COMPLETE \/ upgraded d = true ->
        let asked :=
          size_t_add (outbuf_length env)
            (evbuffer_get_length (drop (Z.to_nat length) body))
          < OUTBUF_MAX_THRES in
        (DownstreamResumeRead p ∈ cs <-> asked)
        /\ (asked /\ resume_read_rv env <> 0 ->
            rv = NGHTTP2_ERR_CALLBACK_FAILURE)
        /\ (~ (asked /\ resume_read_rv env <> 0) ->
            rv = NGHTTP2_ERR_DEFERRED))
    /\ (data <> [] ->
        eof' = eof /\ forall code, SubmitRstStream (stream_id d) code ∉ cs).
Proof.
  intros Hobj Hbody Hremove Hcodec Heof data reset.
  unfold downstream_data_read_callback. unfold_all. lookups.
  rewrite Hremove. lookups. fold data.
  assert (Hnread : Z.of_nat (List.length data) <> -1) by lia.
  rewrite ?(decide_False (P := Z.of_nat (List.length data) = -1))
    by exact Hnread.
  set (asked := size_t_add (outbuf_length env)
                  (evbuffer_get_length (drop (Z.to_nat length) body))
                < OUTBUF_MAX_THRES).
  (* the verdict of a call that read nothing and did not end the stream *)
  assert (Hasked : forall cs : list call,
            asked -> DownstreamResumeRead p ∈ cs ->
            (DownstreamResumeRead p ∈ cs <-> asked))
    by (intros cs Hyes Hin; split; intros _; assumption).
  assert (Hquiet : forall cs : list call,
            ~ asked -> DownstreamResumeRead p ∉ cs ->
            (DownstreamResumeRead p ∈ cs <-> asked))
    by (intros cs Hno Hout; split; intros Habs; contradiction).
  assert (Hno_resume : forall code,
            DownstreamResumeRead p ∉ [SubmitRstStream (stream_id d) code]).
  { intros code Hin. apply list_elem_of_singleton in Hin. discriminate. }
  destruct data as [| c data'] eqn:Hdata.
  - (* nothing was read *)
    cbn [List.length Z.of_nat].
    destruct (decide (response_state d = MSG_COMPLETE)) as [Hmc | Hmc].
    + rewrite ?(decide_True (P := 0 = 0 /\ response_state d = MSG_COMPLETE))
        by tauto.
      destruct (upgraded d) eqn:Hup; lookups.
      * (* tunnel: RST_STREAM, then parked *)
        rewrite ?(decide_True (P := 0 = 0 /\ eof <> 1)) by tauto.
        destruct (decide (eof <> 1 /\ _)) as [Hres | Hres]; lookups.
        -- assert (Hyes : asked) by exact (proj2 Hres).
           destruct (decide (resume_read_rv env <> 0)) as [Hrr | Hrr];
             lookups; eexists _, _, _, _;
             (split; [reflexivity |]); normalize_world; cbn [app];
             (split; [reflexivity |]);
             (split; [intros _ _ Habs; discriminate |]);
             (split; [intros _ _ _; split;
                        [reflexivity | apply list_elem_of_here] |]);
             (split; [| intros Habs; contradiction]); intros _ _;
             (split; [apply Hasked;
                      [exact Hyes
                      | apply list_elem_of_further, list_elem_of_here] |]).
           ++ split; [reflexivity |]. intros Hnot. exfalso. tauto.
           ++ split; [| reflexivity]. intros (_ & Hfails). contradiction.
        -- assert (Hno : ~ asked) by (intros Hyes; apply Hres; tauto).
           eexists _, _, _, _.
           split; [reflexivity |]. normalize_world.
           split; [reflexivity |].
           split; [intros _ _ Habs; discriminate |].
           split; [intros _ _ _; split;
                     [reflexivity | apply list_elem_of_here] |].
           split; [| intros Habs; contradiction]. intros _ _.
           split; [apply Hquiet; [exact Hno | apply Hno_resume] |].
           split; [| reflexivity]. intros (Hyes & _). contradiction.
      * (* end of stream *)
        rewrite ?(decide_False (P := 1 <> 1 /\ _)) by tauto.
        rewrite ?(decide_False (P := 0 = 0 /\ 1 <> 1)) by tauto.
        eexists _, _, _, []. split; [reflexivity |]. normalize_world.
        split; [symmetry; apply app_nil_r |].
        split; [intros _ _ _; repeat split |].
        split; [intros _ _ Habs; discriminate |].
        split; [| intros Habs; contradiction].
        intros _ [Habs | Habs]; [contradiction | discriminate].
    + (* the response is not complete *)
      rewrite ?(decide_False (P := 0 = 0 /\ response_state d = MSG_COMPLETE))
        by tauto.
      lookups.
      rewrite ?(decide_True (P := 0 = 0 /\ eof <> 1)) by tauto.
      destruct (decide (eof <> 1 /\ _)) as [Hres | Hres]; lookups.
      * assert (Hyes : asked) by exact (proj2 Hres).
        destruct (decide (resume_read_rv env <> 0)) as [Hrr | Hrr];
          lookups; eexists _, _, _, _;
          (split; [reflexivity |]); normalize_world; cbn [app];
          (split; [reflexivity |]);
          (split; [intros _ Habs; contradiction |]);
          (split; [intros _ Habs; contradiction |]);
          (split; [| intros Habs; contradiction]); intros _ _;
          (split; [apply Hasked; [exact Hyes | apply list_elem_of_here] |]).
        -- split; [reflexivity |]. intros Hnot. exfalso. tauto.
        -- split; [| reflexivity]. intros (_ & Hfails). contradiction.
      * assert (Hno : ~ asked) by (intros Hyes; apply Hres; tauto).
        eexists _, _, _, []. split; [reflexivity |]. normalize_world.
        split; [symmetry; apply app_nil_r |].
        split; [intros _ Habs; contradiction |].
        split; [intros _ Habs; contradiction |].
        split; [| intros Habs; contradiction]. intros _ _.
        split; [apply Hquiet; [exact Hno | apply not_elem_of_nil] |].
        split; [| reflexivity]. intros (Hyes & _). contradiction.
  - (* bytes were read *)
    assert (Hpos : Z.of_nat (List.length (c :: data')) <> 0)
      by (cbn [List.length]; lia).
    set (nread := Z.of_nat (List.length (c :: data'))) in *.
    rewrite ?(decide_False (P := nread = 0 /\ response_state d = MSG_COMPLETE))
      by tauto.
    lookups.
    rewrite ?(decide_False (P := nread = 0 /\ eof <> 1)) by tauto.
    assert (Hnone : forall code, SubmitRstStream (stream_id d) code
                                 ∉ [DownstreamResumeRead p]).
    { intros code Hin. apply list_elem_of_singleton in Hin. discriminate. }
    destruct (decide (eof <> 1 /\ _)) as [Hres | Hres]; lookups.
    + destruct (decide (resume_read_rv env <> 0)) as [Hrr | Hrr];
        lookups; eexists _, _, _, _;
        (split; [reflexivity |]); normalize_world; cbn [app];
        (split; [reflexivity |]);
        (split; [intros Habs; discriminate |]);
        (split; [intros Habs; discriminate |]);
        (split; [intros Habs; discriminate |]);
        intros _; (split; [reflexivity | exact Hnone]).
    + eexists _, _, _, []. split; [reflexivity |]. normalize_world.
      split; [symmetry; apply app_nil_r |].
      split; [intros Habs; discriminate |].
      split; [intros Habs; discriminate |].
      split; [intros Habs; discriminate |].
      intros _. split; [reflexivity |]. intros code. apply not_elem_of_nil.
Qed.

Lemma downstream_data_read_callback_spec_witness :
  exists w',
    downstream_data_read_callback 1 16 0 1%positive default_env
      (one_stream drained)
    = Ret (0, 1, []) w'.
Proof.
  destruct (downstream_data_read_callback_spec default_env
              (one_stream drained) 1 16 0 1%positive drained [])
    as (rv & eof' & w' & cs & Hrun & _ & Hend & _);
    [reflexivity | reflexivity | reflexivity | vm_compute; discriminate
    | discriminate |].
  destruct Hend as (-> & -> & _); [reflexivity | reflexivity | reflexivity |].
  exists w'. exact Hrun.
Defined.

(** ** C9: the SETTINGS-ACK timer *)

Section SettingsTimer.

(** Starting the timer when the handle is set changes nothing. *)
Lemma start_settings_timer_again (env : Env) (w : World) (ev : event) :
  settings_timerev_ w = Some ev -> start_settings_timer env w = Ret 0 w.
Proof.
  intros Hset. unfold start_settings_timer. unfold_all. lookups.
  rewrite Hset. reflexivity.
Qed.

(** Starting the timer when the handle is not set. *)
Lemma start_settings_timer_first (env : Env) (w : World) :
  settings_timerev_ w = None ->
  start_settings_timer env w
  = if evtimer_new_fails env then Ret (-1) (with_timer None w)
    else if evtimer_add_fails env
         then Ret (-1) (with_timer (Some {| ev_pending := None |}) w)
         else Ret 0 (with_timer (Some armed_timer) w).
Proof.
  intros Hunset. unfold start_settings_timer. unfold_all. lookups.
  rewrite Hunset. cbn.
  destruct (evtimer_new_fails env); [reflexivity |].
  destruct (evtimer_add_fails env); reflexivity.
Qed.

Lemma on_frame_send_callback_settings (env : Env) (w : World)
    (frame : nghttp2_frame) :
  hd_type frame = NGHTTP2_SETTINGS ->
  Z.land (hd_flags frame) NGHTTP2_FLAG_ACK = 0 ->
  on_frame_send_callback frame env w
  = match start_settings_timer env w with
    | Ret rv w' =>
        Ret (if decide (rv <> 0) then NGHTTP2_ERR_CALLBACK_FAILURE else 0) w'
    | Died w' => Died w'
    | Fault => Fault
    end.
Proof.
  intros Htype Hflags. unfold on_frame_send_callback.
  rewrite decide_True by tauto. unfold_monad.
  destruct (start_settings_timer env w) as [rv w' | |]; try reflexivity.
  destruct (decide (rv <> 0)); reflexivity.
Qed.

(** Once the handle is set, further sends of SETTINGS succeed and
    change nothing. *)
Lemma frame_sends_again (frame : nghttp2_frame) (envs : list Env)
    (w : World) (ev : event) :
  hd_type frame = NGHTTP2_SETTINGS ->
  Z.land (hd_flags frame) NGHTTP2_FLAG_ACK = 0 ->
  settings_timerev_ w = Some ev ->
  frame_sends frame envs w = Ret (repeat 0 (List.length envs)) w.
Proof.
  intros Htype Hflags Hset. induction envs as [| env envs IH];
    [reflexivity |].
  cbn [frame_sends List.length repeat].
  rewrite (on_frame_send_callback_settings env w frame Htype Hflags).
  rewrite (start_settings_timer_again env w ev Hset).
  rewrite (decide_False (P := 0 <> 0)) by tauto.
  rewrite decide_True by reflexivity.
  rewrite IH. reflexivity.
Qed.

End SettingsTimer.

(** C9.  Starting the SETTINGS-ACK timer is idempotent.  For any
    sequence of sends of non-ACK SETTINGS frames with no timer handle
    set at the start: the first send arms a timer of 10 seconds and
    every later send leaves it unchanged and succeeds; should the event
    loop fail to create or arm the timer, the first send fails the
    callback and ends the sequence.  Any start call made while the
    handle is set leaves the timer unchanged and returns success.
    Receiving a SETTINGS frame with the ACK flag frees the timer and
    clears the handle. *)
Theorem settings_timer_idempotent `{Helpers}
    (frame : nghttp2_frame) (env : Env) (envs : list Env) (w : World) :
  hd_type frame = NGHTTP2_SETTINGS ->
  (Z.land (hd_flags frame) NGHTTP2_FLAG_ACK = 0 ->
   settings_timerev_ w = None ->
   (evtimer_new_fails env = false -> evtimer_add_fails env = false ->
    on_frame_send_callback frame env w = Ret 0 (with_timer (Some armed_timer) w)
    /\ ev_pending armed_timer = Some (10, 0)
    /\ frame_sends frame (env :: envs) w
       = Ret (repeat 0 (S (List.length envs)))
           (with_timer (Some armed_timer) w))
   /\ (evtimer_new_fails env = true \/ evtimer_add_fails env = true ->
       exists w',
         on_frame_send_callback frame env w
         = Ret NGHTTP2_ERR_CALLBACK_FAILURE w'
         /\ settings_timerev_ w' <> Some armed_timer
         /\ frame_sends frame (env :: envs) w
            = Ret [NGHTTP2_ERR_CALLBACK_FAILURE] w'))
  /\ (forall ev, settings_timerev_ w = Some ev ->
      start_settings_timer env w = Ret 0 w)
  /\ (Z.land (hd_flags frame) NGHTTP2_FLAG_ACK <> 0 ->
      forall ev, settings_timerev_ w = Some ev ->
      on_frame_recv_callback frame env w
      = Ret 0 (mkWorld (downstream_queue_ w) None (objs w)
                 (trace w ++ [EventFree ev])%list)).
Proof.
  intros Htype. split; [| split].
  - intros Hflags Hunset. split.
    + intros Hnew Hadd.
      assert (Hfirst : on_frame_send_callback frame env w
                       = Ret 0 (with_timer (Some armed_timer) w)).
      { rewrite (on_frame_send_callback_settings env w frame Htype Hflags).
        rewrite (start_settings_timer_first env w Hunset), Hnew, Hadd.
        reflexivity. }
      split; [exact Hfirst |]. split; [reflexivity |].
      cbn [frame_sends]. rewrite Hfirst.
      rewrite decide_True by reflexivity.
      rewrite (frame_sends_again frame envs
                 (with_timer (Some armed_timer) w) armed_timer Htype Hflags
                 eq_refl).
      reflexivity.
    + intros Hfails.
      assert (Hfirst : exists w',
                 on_frame_send_callback frame env w
                 = Ret NGHTTP2_ERR_CALLBACK_FAILURE w'
                 /\ settings_timerev_ w' <> Some armed_timer).
      { rewrite (on_frame_send_callback_settings env w frame Htype Hflags).
        rewrite (start_settings_timer_first env w Hunset).
        destruct (evtimer_new_fails env);
          [| destruct (evtimer_add_fails env)].
        - eexists. split; [reflexivity | discriminate].
        - eexists. split; [reflexivity | discriminate].
        - destruct Hfails; discriminate. }
      destruct Hfirst as (w' & Hfirst & Hunarmed).
      exists w'. split; [exact Hfirst |]. split; [exact Hunarmed |].
      cbn [frame_sends]. rewrite Hfirst. reflexivity.
  - intros ev Hset. exact (start_settings_timer_again env w ev Hset).
  - intros Hack ev Hset. unfold on_frame_recv_callback. rewrite Htype.
    rewrite decide_False by exact Hack.
    unfold stop_settings_timer. unfold_all. lookups. rewrite Hset.
    reflexivity.
Qed.

Lemma settings_timer_idempotent_witness :
  frame_sends (settings_frame NGHTTP2_FLAG_NONE)
    [default_env; no_timer_env; default_env] empty_world
  = Ret [0; 0; 0] (with_timer (Some armed_timer) empty_world).
Proof.
  refine (proj2 (proj2 (proj1 (proj1 (settings_timer_idempotent
                                        (settings_frame NGHTTP2_FLAG_NONE)
                                        default_env
                                        [no_timer_env; default_env]
                                        empty_world _)
                                 _ _) _ _)));
    reflexivity.
Defined.

(** * Further properties of the bridge *)

(** ** Streams that are not in the table *)

(** X1.  A callback for a stream-id that is not in the table changes
    nothing and returns 0: the header callback, the headers-complete
    handler, the frame-receive callback for DATA, HEADERS and PRIORITY
    frames, the frame-not-send callback and the stream-close callback.
    No callback makes a Stream but the begin-headers callback. *)
Theorem unknown_stream_ignored `{Helpers}
    (env : Env) (w : World) (frame : nghttp2_frame) (name value : string)
    (code : Z) :
  downstream_queue_ w !! hd_stream_id frame = None ->
  on_header_callback frame name value env w = Ret 0 w
  /\ on_request_headers frame env w = Ret 0 w
  /\ (hd_type frame = NGHTTP2_DATA \/ hd_type frame = NGHTTP2_HEADERS
      \/ hd_type frame = NGHTTP2_PRIORITY ->
      on_frame_recv_callback frame env w = Ret 0 w)
  /\ on_frame_not_send_callback frame code env w = Ret 0 w
  /\ on_stream_close_callback (hd_stream_id frame) code env w = Ret 0 w.
Proof.
  intros Hnone.
  assert (Hheaders : on_request_headers frame env w = Ret 0 w).
  { unfold on_request_headers. unfold_all. rewrite Hnone. reflexivity. }
  split; [| split; [exact Hheaders | split; [| split]]].
  - unfold on_header_callback.
    destruct (decide (_ \/ _)); [reflexivity |].
    unfold_all. rewrite Hnone. reflexivity.
  - intros [Hty | [Hty | Hty]]; unfold on_frame_recv_callback; rewrite Hty;
      [| exact Hheaders |]; unfold_all; rewrite Hnone; reflexivity.
  - unfold on_frame_not_send_callback.
    destruct (decide (_ /\ _)); [| reflexivity].
    unfold_all. rewrite Hnone. reflexivity.
  - unfold on_stream_close_callback. unfold_all. rewrite Hnone. reflexivity.
Qed.

Lemma unknown_stream_ignored_witness :
  on_frame_recv_callback (frame_of NGHTTP2_DATA 5 NGHTTP2_FLAG_END_STREAM)
    default_env (one_stream relayed)
  = Ret 0 (one_stream relayed).
Proof.
  refine (proj1 (proj2 (proj2 (unknown_stream_ignored default_env
                                 (one_stream relayed)
                                 (frame_of NGHTTP2_DATA 5
                                    NGHTTP2_FLAG_END_STREAM)
                                 "" "" 0 _))) _).
  - reflexivity.
  - left. reflexivity.
Defined.

(** ** The stream-close callback, once more *)

(** The table and the store after a stream-close event. *)
Lemma on_stream_close_callback_run
    (env : Env) (w : World) (sid code : Z) (p : ptr) (d : Downstream) :
  downstream_queue_ w !! sid = Some p ->
  objs w !! p = Some d ->
  stream_id d = sid ->
  exists calls,
    on_stream_close_callback sid code env w
    = Ret 0 (mkWorld (delete sid (downstream_queue_ w)) (settings_timerev_ w)
               (delete p (objs w)) calls).
Proof.
  intros Hq Ho Hsid.
  unfold on_stream_close_callback. unfold_all. lookups.
  destruct (decide (request_state d = CONNECT_FAIL)); lookups;
    [eexists; reflexivity |].
  destruct (decide (response_state d = MSG_COMPLETE)); lookups.
  2:{ rewrite delete_put_obj. eexists. reflexivity. }
  destruct (upgraded d) eqn:Hup, (response_connection_close d) eqn:Hcc;
    lookups; try (rewrite delete_put_obj; eexists; reflexivity).
  destruct (downstream_connection d) eqn:Hdc; lookups;
    rewrite ?insert_insert_eq, delete_put_obj; eexists; reflexivity.
Qed.

(** X2.  Closing a stream is idempotent: after the stream-close callback
    ran for a Stream of the table, a second stream-close event for the
    same stream-id, and any DATA, HEADERS or PRIORITY frame or header
    for it, returns 0 and changes nothing. *)
Theorem stream_close_idempotent `{Helpers}
    (env : Env) (w : World) (sid code : Z) (p : ptr) (d : Downstream) :
  downstream_queue_ w !! sid = Some p ->
  objs w !! p = Some d ->
  stream_id d = sid ->
  exists w',
    on_stream_close_callback sid code env w = Ret 0 w'
    /\ forall env' code' frame name value,
         hd_stream_id frame = sid ->
         on_stream_close_callback sid code' env' w' = Ret 0 w'
         /\ on_header_callback frame name value env' w' = Ret 0 w'
         /\ (hd_type frame = NGHTTP2_DATA \/ hd_type frame = NGHTTP2_HEADERS
             \/ hd_type frame = NGHTTP2_PRIORITY ->
             on_frame_recv_callback frame env' w' = Ret 0 w').
Proof.
  intros Hq Ho Hsid.
  destruct (on_stream_close_callback_run env w sid code p d Hq Ho Hsid)
    as [calls Hrun].
  eexists. split; [exact Hrun |].
  intros env' code' frame name value Hframe.
  set (w' := mkWorld _ _ _ _).
  assert (Hgone : downstream_queue_ w' !! hd_stream_id frame = None).
  { rewrite Hframe. apply lookup_delete_eq. }
  split; [| split].
  - unfold on_stream_close_callback. unfold_all.
    rewrite <- Hframe, Hgone. reflexivity.
  - unfold on_header_callback.
    destruct (decide (_ \/ _)); [reflexivity |].
    unfold_all. rewrite Hgone. reflexivity.
  - intros [Hty | [Hty | Hty]]; unfold on_frame_recv_callback; rewrite Hty;
      [| unfold on_request_headers |]; unfold_all; rewrite Hgone;
      reflexivity.
Qed.

Lemma stream_close_idempotent_witness :
  exists w',
    on_stream_close_callback 1 0 default_env (one_stream served) = Ret 0 w'
    /\ on_stream_close_callback 1 0 default_env w' = Ret 0 w'.
Proof.
  destruct (stream_close_idempotent default_env (one_stream served) 1 0
              1%positive served) as (w' & Hrun & Hagain);
    [reflexivity | reflexivity | reflexivity |].
  exists w'. split; [exact Hrun |].
  exact (proj1 (Hagain default_env 0 (headers_frame 1 0) "" "" eq_refl)).
Defined.

(** ** The begin-headers callback *)

Lemma on_begin_headers_callback_run (env : Env) (w : World)
    (frame : nghttp2_frame) :
  headers_cat frame = NGHTTP2_HCAT_REQUEST ->
  on_begin_headers_callback frame env w
  = Ret 0 (mkWorld (<[hd_stream_id frame := fresh (dom (objs w))]>
                      (downstream_queue_ w))
             (settings_timerev_ w)
             (<[fresh (dom (objs w)) := begun frame]> (objs w))
             (trace w)).
Proof.
  intros Hcat. unfold on_begin_headers_callback, new_downstream.
  rewrite decide_False by (rewrite Hcat; tauto).
  unfold_all. lookups. normalize_world. reflexivity.
Qed.

Lemma fresh_pointer_unused (w : World) :
  objs w !! fresh (dom (objs w)) = None.
Proof. apply not_elem_of_dom, is_fresh. Qed.

(** X3.  The begin-headers callback for a request-category frame makes
    exactly one Stream: afterwards the frame's stream-id is looked up to
    a pointer that was not in use, behind it a Stream in state INITIAL on
    both sides, with the frame's stream-id and priority, no headers and
    an empty response buffer; every other entry of the table and every
    other Stream is as before, and nothing is called.  For a frame of
    another category the callback changes nothing. *)
Theorem on_begin_headers_callback_spec (env : Env) (w : World)
    (frame : nghttp2_frame) :
  (headers_cat frame = NGHTTP2_HCAT_REQUEST ->
   exists w' p,
     on_begin_headers_callback frame env w = Ret 0 w'
     /\ objs w !! p = None
     /\ downstream_queue_ w' !! hd_stream_id frame = Some p
     /\ objs w' !! p = Some (begun frame)
     /\ (forall sid, sid <> hd_stream_id frame ->
         downstream_queue_ w' !! sid = downstream_queue_ w !! sid)
     /\ (forall q, q <> p -> objs w' !! q = objs w !! q)
     /\ trace w' = trace w
     /\ settings_timerev_ w' = settings_timerev_ w)
  /\ (headers_cat frame <> NGHTTP2_HCAT_REQUEST ->
      on_begin_headers_callback frame env w = Ret 0 w).
Proof.
  split.
  - intros Hcat. rewrite (on_begin_headers_callback_run env w frame Hcat).
    eexists _, (fresh (dom (objs w))). split; [reflexivity |].
    cbn [objs downstream_queue_ trace settings_timerev_].
    split; [apply fresh_pointer_unused |].
    split; [apply lookup_insert_eq |].
    split; [apply lookup_insert_eq |].
    split; [intros sid Hne; apply lookup_insert_ne; congruence |].
    split; [intros q Hne; apply lookup_insert_ne; congruence |].
    split; reflexivity.
  - intros Hcat. unfold on_begin_headers_callback.
    rewrite decide_True by exact Hcat. reflexivity.
Qed.

Lemma on_begin_headers_callback_spec_witness :
  exists w' p,
    on_begin_headers_callback (headers_frame 3 0) default_env
      (one_stream relayed) = Ret 0 w'
    /\ downstream_queue_ w' !! 3 = Some p
    /\ objs w' !! p = Some (begun (headers_frame 3 0))
    /\ objs w' !! 1%positive = Some relayed.
Proof.
  destruct (proj1 (on_begin_headers_callback_spec default_env
                     (one_stream relayed) (headers_frame 3 0)) eq_refl)
    as (w' & p & Hrun & Hfresh & Hq & Hobj & _ & Hothers & _).
  exists w', p. repeat split; try assumption.
  rewrite Hothers; [reflexivity |].
  intros Heq. subst p. discriminate Hfresh.
Defined.

(** X4.  Opening and closing a stream leaves no trace in the session's
    state: after the begin-headers callback for a stream-id that is not
    in the table and the stream-close callback for it, the table and the
    Streams are exactly as before; the one call made is the deletion of
    the new Stream, in request state STREAM_CLOSED. *)
Theorem begin_headers_then_close (env env' : Env) (w : World)
    (frame : nghttp2_frame) (code : Z) :
  headers_cat frame = NGHTTP2_HCAT_REQUEST ->
  downstream_queue_ w !! hd_stream_id frame = None ->
  exists w1 p,
    on_begin_headers_callback frame env w = Ret 0 w1
    /\ on_stream_close_callback (hd_stream_id frame) code env' w1
       = Ret 0 (mkWorld (downstream_queue_ w) (settings_timerev_ w) (objs w)
                  (trace w ++ [DeleteDownstream p
                                 (with_request_state STREAM_CLOSED
                                    (begun frame))])%list).
Proof.
  intros Hcat Hnew.
  rewrite (on_begin_headers_callback_run env w frame Hcat).
  eexists _, _. split; [reflexivity |].
  unfold on_stream_close_callback. unfold_all. lookups.
  cbn [begun new_Downstream request_state response_state
       with_response_body_buf stream_id].
  rewrite decide_False by discriminate. lookups.
  cbn [begun new_Downstream request_state response_state
       with_response_body_buf with_request_state stream_id].
  rewrite decide_False by discriminate. lookups.
  cbn [begun new_Downstream request_state response_state
       with_response_body_buf with_request_state stream_id].
  rewrite ?delete_put_obj, ?insert_insert_eq.
  rewrite ?(delete_insert_id _ _ _ Hnew).
  rewrite ?(delete_insert_id _ _ _ (fresh_pointer_unused w)).
  rewrite ?(delete_id _ _ (fresh_pointer_unused w)).
  reflexivity.
Qed.

Lemma begin_headers_then_close_witness :
  exists w1 p,
    on_begin_headers_callback (headers_frame 3 0) default_env
      (one_stream relayed) = Ret 0 w1
    /\ on_stream_close_callback 3 0 default_env w1
       = Ret 0 (mkWorld (downstream_queue_ (one_stream relayed)) None
                  (objs (one_stream relayed))
                  [DeleteDownstream p
                     (with_request_state STREAM_CLOSED
                        (begun (headers_frame 3 0)))]).
Proof.
  apply (begin_headers_then_close default_env default_env
           (one_stream relayed) (headers_frame 3 0) 0);
    reflexivity.
Defined.

(** ** The frame-receive callback, frame by frame *)

(** X5.  A PUSH_PROMISE frame is refused: the callback submits
    RST_STREAM(REFUSED_STREAM) for the promised stream-id and nothing
    else; it makes no Stream and touches none, whatever streams exist.
    It returns 0 when the codec took the RST_STREAM and
    NGHTTP2_ERR_CALLBACK_FAILURE when the codec answered with any error,
    fatal or not. *)
Theorem push_promise_refused `{Helpers}
    (env : Env) (w : World) (frame : nghttp2_frame) :
  hd_type frame = NGHTTP2_PUSH_PROMISE ->
  on_frame_recv_callback frame env w
  = Ret (if decide (submit_rst_stream_rv env = 0) then 0
         else NGHTTP2_ERR_CALLBACK_FAILURE)
      (mkWorld (downstream_queue_ w) (settings_timerev_ w) (objs w)
         (trace w ++ [SubmitRstStream (push_promise_promised_stream_id frame)
                        NGHTTP2_REFUSED_STREAM])%list).
Proof.
  intros Hty. unfold on_frame_recv_callback. rewrite Hty. unfold_all.
  destruct (decide (submit_rst_stream_rv env = 0)) as [Hz | Hnz].
  - rewrite decide_False by tauto. reflexivity.
  - rewrite decide_True by exact Hnz. reflexivity.
Qed.

Lemma push_promise_refused_witness :
  on_frame_recv_callback (frame_of NGHTTP2_PUSH_PROMISE 1 0) default_env
    (one_stream relayed)
  = Ret 0 (mkWorld (downstream_queue_ (one_stream relayed)) None
             (objs (one_stream relayed))
             [SubmitRstStream 0 NGHTTP2_REFUSED_STREAM]).
Proof.
  apply (push_promise_refused default_env (one_stream relayed)
           (frame_of NGHTTP2_PUSH_PROMISE 1 0)).
  reflexivity.
Defined.

(** The END_STREAM bit of a flags octet. *)
Lemma end_stream_bit (flags : Z) :
  Z.land flags NGHTTP2_FLAG_END_STREAM <> 0 <-> Z.testbit flags 0 = true.
Proof.
  unfold NGHTTP2_FLAG_END_STREAM.
  change 1 with (Z.ones 1). rewrite Z.land_ones by lia.
  change (2 ^ 1) with 2. rewrite <- Z.bit0_mod.
  destruct (Z.testbit flags 0); cbn; split; (discriminate || tauto).
Qed.

(** X6.  A DATA frame for a Stream of the table ends the upload exactly
    when the lowest bit of its flags (END_STREAM) is set, whatever the
    other flag bits: the origin is told that the upload ended and
    request_state becomes MSG_COMPLETE.  Without END_STREAM the frame
    changes nothing.  The callback returns 0 in both cases. *)
Theorem data_frame_ends_upload `{Helpers}
    (env : Env) (w : World) (frame : nghttp2_frame) (p : ptr)
    (d : Downstream) :
  hd_type frame = NGHTTP2_DATA ->
  downstream_queue_ w !! hd_stream_id frame = Some p ->
  objs w !! p = Some d ->
  on_frame_recv_callback frame env w
  = Ret 0 (if Z.testbit (hd_flags frame) 0
           then updated p (with_request_state MSG_COMPLETE d)
                  [EndUploadData p] w
           else w).
Proof.
  intros Hty Hfound Hobj.
  unfold on_frame_recv_callback. rewrite Hty. unfold_all. lookups.
  destruct (Z.testbit (hd_flags frame) 0) eqn:Hbit.
  - rewrite decide_True by (apply end_stream_bit; exact Hbit).
    lookups. reflexivity.
  - rewrite decide_False; [reflexivity |].
    rewrite end_stream_bit, Hbit. discriminate.
Qed.

Lemma data_frame_ends_upload_witness :
  on_frame_recv_callback (frame_of NGHTTP2_DATA 1 9) default_env
    (one_stream (with_request_state HEADER_COMPLETE relayed))
  = Ret 0 (updated 1%positive (with_request_state MSG_COMPLETE relayed)
             [EndUploadData 1%positive]
             (one_stream (with_request_state HEADER_COMPLETE relayed))).
Proof.
  apply (data_frame_ends_upload default_env
           (one_stream (with_request_state HEADER_COMPLETE relayed))
           (frame_of NGHTTP2_DATA 1 9) 1%positive
           (with_request_state HEADER_COMPLETE relayed));
    reflexivity.
Defined.

(** X7.  Frames that the bridge lets pass: a RST_STREAM, PING, GOAWAY or
    WINDOW_UPDATE frame, a SETTINGS frame without the ACK flag and a
    SETTINGS ACK when no timer is set change nothing and return 0; a
    PRIORITY frame for a Stream of the table forwards the priority and
    changes nothing else, and the callback fails exactly when that
    fails. *)
Theorem passive_frames `{Helpers}
    (env : Env) (w : World) (frame : nghttp2_frame) :
  (hd_type frame = NGHTTP2_RST_STREAM \/ hd_type frame = NGHTTP2_PING
   \/ hd_type frame = NGHTTP2_GOAWAY \/ hd_type frame = NGHTTP2_WINDOW_UPDATE
   \/ hd_type frame = NGHTTP2_SETTINGS
      /\ (Z.land (hd_flags frame) NGHTTP2_FLAG_ACK = 0
          \/ settings_timerev_ w = None) ->
   on_frame_recv_callback frame env w = Ret 0 w)
  /\ (forall p,
        hd_type frame = NGHTTP2_PRIORITY ->
        downstream_queue_ w !! hd_stream_id frame = Some p ->
        on_frame_recv_callback frame env w
        = Ret (if decide (change_priority_rv env = 0) then 0
               else NGHTTP2_ERR_CALLBACK_FAILURE)
            (log_call (ChangePriority p (priority_pri frame)) w)).
Proof.
  split.
  - intros [Hty | [Hty | [Hty | [Hty | [Hty Hack]]]]];
      unfold on_frame_recv_callback; rewrite Hty; try reflexivity.
    destruct (decide (Z.land (hd_flags frame) NGHTTP2_FLAG_ACK = 0));
      [reflexivity |].
    destruct Hack as [Hack | Hnone]; [contradiction |].
    unfold stop_settings_timer. unfold_all. rewrite Hnone. reflexivity.
  - intros p Hty Hfound.
    unfold on_frame_recv_callback. rewrite Hty. unfold_all. lookups.
    destruct (decide (change_priority_rv env = 0)) as [Hz | Hnz].
    + rewrite decide_False by tauto. reflexivity.
    + rewrite decide_True by exact Hnz. reflexivity.
Qed.

Lemma passive_frames_witness :
  on_frame_recv_callback (frame_of NGHTTP2_GOAWAY 0 0) default_env
    (one_stream relayed)
  = Ret 0 (one_stream relayed).
Proof.
  apply (proj1 (passive_frames default_env (one_stream relayed)
                  (frame_of NGHTTP2_GOAWAY 0 0))).
  right. right. left. reflexivity.
Defined.

(** ** The frame-not-send callback *)

(** X8.  When a frame could not be sent, the bridge resets the stream
    with INTERNAL_ERROR if and only if the frame is a response-category
    HEADERS frame of a Stream of the table; in every case it returns 0
    and leaves the table and the Streams as they are (provided the codec
    reports no fatal error). *)
Theorem on_frame_not_send_callback_spec
    (env : Env) (w : World) (frame : nghttp2_frame) (lib_error_code : Z)
    (p : ptr) (d : Downstream) :
  downstream_queue_ w !! hd_stream_id frame = Some p ->
  objs w !! p = Some d ->
  NGHTTP2_ERR_FATAL <= submit_rst_stream_rv env ->
  on_frame_not_send_callback frame lib_error_code env w
  = Ret 0
      (if decide (hd_type frame = NGHTTP2_HEADERS
                  /\ headers_cat frame = NGHTTP2_HCAT_RESPONSE)
       then log_call (SubmitRstStream (stream_id d) NGHTTP2_INTERNAL_ERROR) w
       else w).
Proof.
  intros Hfound Hobj Hcodec. unfold on_frame_not_send_callback.
  destruct (decide (_ /\ _)); [| reflexivity].
  unfold_all. lookups. reflexivity.
Qed.

Lemma on_frame_not_send_callback_spec_witness :
  on_frame_not_send_callback
    {| hd_type := NGHTTP2_HEADERS; hd_flags := 0; hd_stream_id := 1;
       headers_cat := NGHTTP2_HCAT_RESPONSE; headers_pri := 0;
       priority_pri := 0; push_promise_promised_stream_id := 0 |}
    (-501) default_env (one_stream relayed)
  = Ret 0 (log_call (SubmitRstStream 1 NGHTTP2_INTERNAL_ERROR)
             (one_stream relayed)).
Proof.
  apply (on_frame_not_send_callback_spec default_env (one_stream relayed)
           {| hd_type := NGHTTP2_HEADERS; hd_flags := 0; hd_stream_id := 1;
              headers_cat := NGHTTP2_HCAT_RESPONSE; headers_pri := 0;
              priority_pri := 0; push_promise_promised_stream_id := 0 |}
           (-501) 1%positive relayed);
    [reflexivity | reflexivity | vm_compute; discriminate].
Defined.

(** ** Validation of requests other than CONNECT *)

(** X9.  A request other than CONNECT whose header set conforms and
    whose body, if one follows, has a content-length is handed to the
    origin if and only if [:method], [:scheme] and [:path] are present
    and not empty and, when the bridge is an HTTP/2 proxy, [:authority]
    is too, or else one of [:authority] and [host] is.  Then the request
    line cached on the Stream is made of the pseudo-header values.
    Otherwise the stream is reset with PROTOCOL_ERROR and the Stream
    keeps its state.  (Provided the codec reports no fatal error.) *)
Theorem plain_request_validation `{Helpers}
    (env : Env) (w : World) (frame : nghttp2_frame) (p : ptr)
    (d : Downstream) :
  downstream_queue_ w !! hd_stream_id frame = Some p ->
  objs w !! p = Some d ->
  NGHTTP2_ERR_FATAL <= submit_rst_stream_rv env ->
  let nva := normalize_headers (request_headers d) in
  let given name := non_empty_value (get_unique_header nva name) = true in
  let complete :=
    given ":method" /\ given ":scheme" /\ given ":path"
    /\ (if http2_proxy (config env) then given ":authority"
        else given ":authority" \/ given "host") in
  is_connect nva = false ->
  check_http2_headers nva = true ->
  (Z.land (hd_flags frame) NGHTTP2_FLAG_END_STREAM <> 0
   \/ (exists content_length,
         get_header nva "content-length" = Some content_length
         /\ value_lws content_length = false)) ->
  (complete ->
   exists d' cs,
     on_request_headers frame env w
     = Ret 0 (updated p d' (AttachDownstream (handler_dconn env) p :: cs) w)
     /\ (SubmitRstStream (stream_id d) NGHTTP2_PROTOCOL_ERROR ∉ cs)
     /\ request_method d' = value_to_str (get_unique_header nva ":method")
     /\ request_http2_scheme d'
        = value_to_str (get_unique_header nva ":scheme")
     /\ request_http2_authority d'
        = value_to_str (get_unique_header nva ":authority")
     /\ request_path d' = value_to_str (get_unique_header nva ":path"))
  /\ (~ complete ->
      on_request_headers frame env w
      = Ret 0 (updated p (normalized d)
                 [SubmitRstStream (stream_id d) NGHTTP2_PROTOCOL_ERROR] w)).
Proof.
  intros Hfound Hobj Hcodec nva given complete Hplain Hconf Hbody.
  assert (Hlen : content_length_rejected (hd_flags frame) nva = false).
  { unfold content_length_rejected. rewrite Hplain. cbn [negb andb].
    destruct Hbody as [Hend | (cl & -> & Hlws)].
    - rewrite bool_decide_eq_false_2 by exact Hend. reflexivity.
    - rewrite Hlws. apply andb_false_r. }
  assert (Hiff : complete <-> plain_rejected (http2_proxy (config env)) nva
                              = false).
  { subst complete given. unfold plain_rejected. cbv zeta. fold nva.
    destruct (non_empty_value (get_unique_header nva ":method")),
      (non_empty_value (get_unique_header nva ":scheme")),
      (non_empty_value (get_unique_header nva ":path")),
      (non_empty_value (get_unique_header nva ":authority")),
      (non_empty_value (get_unique_header nva "host")),
      (http2_proxy (config env)); cbn;
      split; try tauto; try discriminate;
      intros (? & ? & ? & ?); try discriminate;
      match goal with
      | Hor : _ \/ _ |- _ => destruct Hor; discriminate
      end. }
  split.
  - intros Hcomplete. apply Hiff in Hcomplete.
    assert (Hacc : request_accepted (http2_proxy (config env))
                     (hd_flags frame) nva = true).
    { unfold request_accepted. rewrite Hconf, Hplain, Hcomplete, Hlen.
      reflexivity. }
    rewrite (on_request_headers_accepted env w frame p d Hfound Hobj Hcodec
               Hacc).
    assert (Hneq : NGHTTP2_PROTOCOL_ERROR <> NGHTTP2_INTERNAL_ERROR)
      by discriminate.
    destruct (decide (attach_downstream_rv env <> 0));
      [| destruct (decide (push_request_headers_rv env <> 0))];
      eexists _, _; (split; [reflexivity |]);
      (split; [| repeat split; reflexivity]);
      repeat (rewrite not_elem_of_cons; split; [congruence |]);
      apply not_elem_of_nil.
  - intros Hmissing.
    apply (on_request_headers_rejected env w frame p d Hfound Hobj Hcodec).
    fold nva. unfold request_accepted. rewrite Hconf, Hplain.
    destruct (plain_rejected (http2_proxy (config env)) nva) eqn:Hrej;
      [reflexivity |].
    destruct Hmissing. apply Hiff. reflexivity.
Qed.

Lemma plain_request_validation_witness :
  let w := one_stream (pending 1 [(":method", "GET"); (":scheme", "https");
                                  (":authority", "a.example")]) in
  on_request_headers (headers_frame 1 NGHTTP2_FLAG_END_STREAM) default_env w
  = Ret 0 (updated 1%positive
             (normalized (pending 1 [(":method", "GET"); (":scheme", "https");
                                     (":authority", "a.example")]))
             [SubmitRstStream 1 NGHTTP2_PROTOCOL_ERROR] w).
Proof.
  intros w.
  refine (proj2 (plain_request_validation default_env w
                   (headers_frame 1 NGHTTP2_FLAG_END_STREAM) 1%positive
                   (pending 1 [(":method", "GET"); (":scheme", "https");
                               (":authority", "a.example")])
                   _ _ _ _ _ _) _).
  - reflexivity.
  - reflexivity.
  - vm_compute. discriminate.
  - reflexivity.
  - reflexivity.
  - left. vm_compute. discriminate.
  - intros (_ & _ & Hpath & _). vm_compute in Hpath. discriminate.
Defined.

(** ** The response data source, byte by byte *)

Section DataSource.

Variables (env : Env) (w : World) (sid length eof : Z) (p : ptr).
Variables (d : Downstream) (body : list ascii).
Hypothesis Hobj : objs w !! p = Some d.
Hypothesis Hbody : response_body_buf d = Some body.
Hypothesis Hremove : evbuffer_remove_fails env = false.
Hypothesis Heof : eof <> 1.

Let data := take (Z.to_nat length) body.
Let rest := drop (Z.to_nat length) body.
Let w1 := put_obj p (with_response_body_buf (Some rest) d) w.

(** A call that reads bytes. *)
Lemma data_read_bytes :
  data <> [] ->
  downstream_data_read_callback sid length eof p env w
  = if decide (size_t_add (outbuf_length env) (evbuffer_get_length rest)
               < OUTBUF_MAX_THRES) then
      Ret (if decide (resume_read_rv env <> 0)
           then NGHTTP2_ERR_CALLBACK_FAILURE
           else Z.of_nat (List.length data), eof, data)
        (log_call (DownstreamResumeRead p) w1)
    else Ret (Z.of_nat (List.length data), eof, data) w1.
Proof.
  intros Hdata.
  unfold downstream_data_read_callback. unfold_all. lookups.
  rewrite Hremove. lookups. fold data rest.
  assert (Hpos : Z.of_nat (List.length data) <> 0)
    by (destruct data; [contradiction | cbn [List.length]; lia]).
  set (nread := Z.of_nat (List.length data)) in *.
  rewrite ?(decide_False (P := nread = -1)) by lia.
  rewrite ?(decide_False (P := nread = 0 /\ response_state d = MSG_COMPLETE))
    by tauto.
  lookups.
  rewrite ?(decide_False (P := nread = 0 /\ eof <> 1)) by tauto.
  cbn [from_option].
  destruct (decide (size_t_add (outbuf_length env) (evbuffer_get_length rest)
                    < OUTBUF_MAX_THRES)) as [Hroom | Hfull].
  - rewrite (decide_True (P := eof <> 1 /\ _)) by tauto. lookups.
    destruct (decide (resume_read_rv env <> 0)); reflexivity.
  - rewrite (decide_False (P := eof <> 1 /\ _)) by tauto. reflexivity.
Qed.

(** A call that finds the buffer of a complete, non-upgraded response
    empty. *)
Lemma data_read_end :
  data = [] ->
  response_state d = MSG_COMPLETE ->
  upgraded d = false ->
  downstream_data_read_callback sid length eof p env w = Ret (0, 1, []) w1.
Proof.
  intros Hdata Hcomplete Hplain.
  unfold downstream_data_read_callback. unfold_all. lookups.
  rewrite Hremove. lookups. fold data rest. rewrite Hdata.
  cbn [List.length Z.of_nat].
  rewrite ?(decide_False (P := 0 = -1)) by lia.
  rewrite ?(decide_True (P := 0 = 0 /\ response_state d = MSG_COMPLETE))
    by tauto.
  lookups.
  rewrite ?(decide_False (P := 1 <> 1 /\ _)) by tauto.
  rewrite ?(decide_False (P := 0 = 0 /\ 1 <> 1)) by tauto.
  reflexivity.
Qed.

End DataSource.

(** X10.  The data source hands the response buffer out in order,
    without loss and without duplication: a call with room for [length]
    bytes writes the first min(length, size of the buffer) bytes of the
    buffer to the codec and leaves the others in the buffer, the Stream
    being otherwise as it was; a result that is not negative is the
    number of bytes written.  (End-of-stream not set on entry; the
    buffer read does not fail; the codec reports no fatal error.) *)
Theorem data_source_in_order
    (env : Env) (w : World) (sid length eof : Z) (p : ptr)
    (d : Downstream) (body : list ascii) :
  objs w !! p = Some d ->
  response_body_buf d = Some body ->
  evbuffer_remove_fails env = false ->
  NGHTTP2_ERR_FATAL <= submit_rst_stream_rv env ->
  eof <> 1 ->
  0 <= length ->
  exists rv eof' data rest w',
    downstream_data_read_callback sid length eof p env w
    = Ret (rv, eof', data) w'
    /\ (data ++ rest)%list = body
    /\ Z.of_nat (List.length data) = Z.min length (Z.of_nat (List.length body))
    /\ objs w' !! p = Some (with_response_body_buf (Some rest) d)
    /\ (0 <= rv -> rv = Z.of_nat (List.length data)).
Proof.
  intros Hobj Hbody Hremove Hcodec Heof Hlength.
  set (data := take (Z.to_nat length) body).
  set (rest := drop (Z.to_nat length) body).
  assert (Hsplit : (data ++ rest)%list = body) by apply take_drop.
  assert (Hsize : Z.of_nat (List.length data)
                  = Z.min length (Z.of_nat (List.length body))).
  { subst data. rewrite length_take. lia. }
  destruct (decide (data = [])) as [Hnone | Hsome].
  2:{ rewrite (data_read_bytes env w sid length eof p d body Hobj Hbody
                 Hremove Heof Hsome).
      fold data rest.
      destruct (decide (size_t_add _ _ < _));
        [destruct (decide (resume_read_rv env <> 0)) |];
        eexists _, _, data, rest, _; (split; [reflexivity |]);
        (split; [exact Hsplit |]); (split; [exact Hsize |]);
        (split; [apply lookup_insert_eq |]);
        (intros Hrv; try reflexivity).
      unfold NGHTTP2_ERR_CALLBACK_FAILURE in Hrv. lia. }
  (* nothing is read: run the callback *)
  unfold downstream_data_read_callback. unfold_all. lookups.
  rewrite Hremove. lookups. fold data rest. rewrite Hnone.
  cbn [List.length Z.of_nat].
  rewrite ?(decide_False (P := 0 = -1)) by lia.
  assert (Hzero : forall rv, 0 <= rv -> rv = NGHTTP2_ERR_DEFERRED
                             \/ rv = NGHTTP2_ERR_CALLBACK_FAILURE \/ rv = 0 ->
                  rv = Z.of_nat (@List.length ascii [])).
  { unfold NGHTTP2_ERR_DEFERRED, NGHTTP2_ERR_CALLBACK_FAILURE.
    intros rv Hrv [-> | [-> | ->]]; [lia | lia | reflexivity]. }
  rewrite Hnone in Hsplit, Hsize.
  destruct (decide (0 = 0 /\ response_state d = MSG_COMPLETE)); lookups.
  - destruct (upgraded d) eqn:Hup; lookups.
    + rewrite ?(decide_True (P := 0 = 0 /\ eof <> 1)) by tauto.
      destruct (decide (eof <> 1 /\ _)); lookups;
        [destruct (decide (resume_read_rv env <> 0)); lookups |];
        eexists _, _, [], rest, _; (split; [reflexivity |]);
        (split; [exact Hsplit |]); (split; [exact Hsize |]);
        (split; [cbn [objs log_call put_obj]; apply lookup_insert_eq |]);
        intros Hrv; apply (Hzero _ Hrv); tauto.
    + rewrite ?(decide_False (P := 1 <> 1 /\ _)) by tauto.
      rewrite ?(decide_False (P := 0 = 0 /\ 1 <> 1)) by tauto.
      eexists _, _, [], rest, _. split; [reflexivity |].
      split; [exact Hsplit |]. split; [exact Hsize |].
      split; [apply lookup_insert_eq | reflexivity].
  - rewrite ?(decide_True (P := 0 = 0 /\ eof <> 1)) by tauto.
    destruct (decide (eof <> 1 /\ _)); lookups;
      [destruct (decide (resume_read_rv env <> 0)); lookups |];
      eexists _, _, [], rest, _; (split; [reflexivity |]);
      (split; [exact Hsplit |]); (split; [exact Hsize |]);
      (split; [cbn [objs log_call put_obj]; apply lookup_insert_eq |]);
      intros Hrv; apply (Hzero _ Hrv); tauto.
Qed.

Lemma data_source_in_order_witness :
  exists rv eof' data rest w',
    downstream_data_read_callback 1 2 0 1%positive default_env
      (one_stream last_bytes)
    = Ret (rv, eof', data) w'
    /\ (data ++ rest)%list = list_ascii_of_string "end"
    /\ Z.of_nat (List.length data)
       = Z.min 2 (Z.of_nat (List.length (list_ascii_of_string "end")))
    /\ objs w' !! 1%positive
       = Some (with_response_body_buf (Some rest) last_bytes)
    /\ (0 <= rv -> rv = Z.of_nat (List.length data)).
Proof.
  apply (data_source_in_order default_env (one_stream last_bytes) 1 2 0
           1%positive last_bytes (list_ascii_of_string "end"));
    [reflexivity | reflexivity | reflexivity | vm_compute; discriminate
    | discriminate | lia].
Defined.

(** X11.  An error reply reaches the client whole: after a successful
    [error_reply] on a Stream that is not upgraded and holds no buffered
    response bytes (its buffer is absent or empty, as before any
    response body arrived), the first call of the data source with room
    for the page writes exactly the bytes of the generated HTML and
    returns their number, which is the number announced as
    content-length, without end-of-stream; the next call writes nothing,
    sets end-of-stream and returns 0.  (The page is not empty; buffer
    operations do not fail, the origin connection resumes reading, the
    codec reports no fatal error.) *)
Theorem error_page_delivered `{Helpers}
    (env env1 env2 : Env) (w : World) (p : ptr) (d : Downstream)
    (status_code sid length : Z) :
  objs w !! p = Some d ->
  response_body_buf d = None \/ response_body_buf d = Some [] ->
  upgraded d = false ->
  evbuffer_add_fails env = false ->
  NGHTTP2_ERR_FATAL <= submit_response_rv env ->
  let html := create_error_html status_code in
  html <> "" ->
  Z.of_nat (String.length html) <= length ->
  evbuffer_remove_fails env1 = false ->
  resume_read_rv env1 = 0 ->
  evbuffer_remove_fails env2 = false ->
  exists w1 w2 w3 cs,
    error_reply p status_code env w = Ret 0 w1
    /\ trace w1
       = (trace w
          ++ SubmitResponse (stream_id d)
               [ (":status", utos status_code);
                 ("content-type", "text/html; charset=UTF-8");
                 ("server", server_name (config env));
                 ("content-length", utos (Z.of_nat (String.length html))) ]
             :: cs)%list
    /\ downstream_data_read_callback sid length 0 p env1 w1
       = Ret (Z.of_nat (String.length html), 0, list_ascii_of_string html) w2
    /\ downstream_data_read_callback sid length 0 p env2 w2
       = Ret (0, 1, []) w3.
Proof.
  intros Hobj Hfresh Hplain Hadd Hcodec html Hpage Hroom Hremove1 Hresume
    Hremove2.
  pose proof (error_reply_run env w p d status_code Hobj) as Hreply.
  cbv zeta in Hreply. fold html in Hreply.
  rewrite Hadd, decide_False in Hreply by lia.
  set (body := list_ascii_of_string html).
  assert (Hlen : List.length body = String.length html)
    by apply length_list_ascii_of_string.
  assert (Htake : take (Z.to_nat length) body = body)
    by (apply take_ge; lia).
  assert (Hdrop : drop (Z.to_nat length) body = [])
    by (apply drop_ge; lia).
  assert (Hsome : take (Z.to_nat length) body <> []).
  { rewrite Htake. subst body. destruct html; [contradiction | discriminate]. }
  set (d1 := with_error_page html d).
  fold d1 in Hreply.
  match type of Hreply with
  | _ = Ret 0 ?world => set (w1 := world) in Hreply
  end.
  assert (Hobj1 : objs w1 !! p = Some d1) by apply lookup_insert_eq.
  assert (Hunset : 0 <> 1) by lia.
  pose proof (data_read_bytes env1 w1 sid length 0 p d1 body Hobj1 eq_refl
                Hremove1 Hunset Hsome) as Hfirst.
  rewrite Htake, Hdrop, Hlen, Hresume in Hfirst.
  rewrite (decide_False (P := 0 <> 0)) in Hfirst by tauto.
  set (d2 := with_response_body_buf (Some []) d1) in Hfirst.
  assert (Hfirst' : exists w2,
             downstream_data_read_callback sid length 0 p env1 w1
             = Ret (Z.of_nat (String.length html), 0, body) w2
             /\ objs w2 !! p = Some d2).
  { rewrite Hfirst. destruct (decide (size_t_add _ _ < _));
      eexists; (split; [reflexivity |]); apply lookup_insert_eq. }
  destruct Hfirst' as (w2 & Hrun2 & Hobj2).
  pose proof (data_read_end env2 w2 sid length 0 p d2 [] Hobj2 eq_refl
                Hremove2 (take_nil _) eq_refl Hplain) as Hsecond.
  eexists w1, w2, _, _. split; [exact Hreply |].
  split; [reflexivity |]. split; [exact Hrun2 | exact Hsecond].
Qed.

Lemma error_page_delivered_witness :
  exists w1 w2 w3,
    error_reply 1%positive 502 default_env (one_stream relayed) = Ret 0 w1
    /\ downstream_data_read_callback 1 4096 0 1%positive default_env w1
       = Ret (Z.of_nat (String.length (create_error_html 502)), 0,
              list_ascii_of_string (create_error_html 502)) w2
    /\ downstream_data_read_callback 1 4096 0 1%positive default_env w2
       = Ret (0, 1, []) w3.
Proof.
  destruct (error_page_delivered default_env default_env default_env
              (one_stream relayed) 1%positive relayed 502 1 4096)
    as (w1 & w2 & w3 & cs & Hreply & _ & Hfirst & Hsecond);
    [reflexivity | right; reflexivity | reflexivity | reflexivity
    | vm_compute; discriminate
    | vm_compute; discriminate | vm_compute; discriminate
    | reflexivity | reflexivity | reflexivity |].
  exists w1, w2, w3. repeat split; assumption.
Defined.

(** ** The origin read callback, branch by branch *)

(** Closing a stream whose Stream holds no origin connection. *)
Lemma close_without_origin
    (env : Env) (w : World) (sid code : Z) (p : ptr) (d : Downstream) :
  downstream_queue_ w !! sid = Some p ->
  objs w !! p = Some d ->
  stream_id d = sid ->
  request_state d <> CONNECT_FAIL ->
  downstream_connection d = None ->
  on_stream_close_callback sid code env w
  = Ret 0 (mkWorld (delete sid (downstream_queue_ w)) (settings_timerev_ w)
             (delete p (objs w))
             (trace w ++ [DeleteDownstream p
                            (with_request_state STREAM_CLOSED d)])%list).
Proof.
  intros Hq Ho Hsid Hcf Hdc.
  unfold on_stream_close_callback. unfold_all. lookups.
  destruct (decide (response_state d = MSG_COMPLETE)); lookups.
  2:{ rewrite delete_put_obj. reflexivity. }
  destruct (upgraded d) eqn:Hup, (response_connection_close d) eqn:Hcc;
    lookups; rewrite delete_put_obj; reflexivity.
Qed.

Lemma send_and_finish (env : Env) (w : World) :
  (rv ← send; if decide (rv <> 0) then called DeleteClientHandler else mret tt)
    env w
  = Ret tt (mkWorld (downstream_queue_ w) (settings_timerev_ w) (objs w)
              (trace w ++ send_and_teardown env)%list).
Proof.
  unfold send_and_teardown. unfold_all.
  destruct (decide (send_rv env <> 0)); unfold log_call;
    cbn [trace downstream_queue_ settings_timerev_ objs];
    rewrite <- ?app_assoc; reflexivity.
Qed.

(** X12.  A cancellation by the origin reaches the client with the code
    the origin gave only for REFUSED_STREAM: when the read callback
    finds response_state == MSG_RESET on a stream that is not closed, it
    submits RST_STREAM with REFUSED_STREAM if the origin's code is
    REFUSED_STREAM and with INTERNAL_ERROR for every other code, lets go
    of the origin connection and deletes it, and runs [send()].  The
    stream-close callback that follows finds no origin connection: it
    detaches nothing, so the connection is never pooled.  (Provided the
    codec reports no fatal error.) *)
Theorem origin_reset_propagated `{Helpers}
    (env env' : Env) (w : World) (dconn : dconn_t) (p : ptr)
    (d : Downstream) (code' : Z) :
  objs w !! p = Some d ->
  downstream_queue_ w !! stream_id d = Some p ->
  request_state d <> STREAM_CLOSED ->
  request_state d <> CONNECT_FAIL ->
  response_state d = MSG_RESET ->
  NGHTTP2_ERR_FATAL <= submit_rst_stream_rv env ->
  let code :=
    if decide (response_rst_stream_error_code d = NGHTTP2_REFUSED_STREAM)
    then NGHTTP2_REFUSED_STREAM else NGHTTP2_INTERNAL_ERROR in
  let w1 :=
    updated p (with_downstream_connection None d)
      (SubmitRstStream (stream_id d) code :: DeleteDconn dconn
       :: send_and_teardown env) w in
  downstream_readcb dconn p env w = Ret tt w1
  /\ on_stream_close_callback (stream_id d) code' env' w1
     = Ret 0 (mkWorld (delete (stream_id d) (downstream_queue_ w))
                (settings_timerev_ w) (delete p (objs w))
                (trace w1
                 ++ [DeleteDownstream p
                       (with_request_state STREAM_CLOSED
                          (with_downstream_connection None d))])%list).
Proof.
  intros Hobj Hq Hopen Hcf Hreset Hcodec code w1.
  split.
  - unfold downstream_readcb.
    unfold_all. lookups.
    subst w1 code.
    unfold infer_upstream_rst_stream_error_code, send_and_teardown.
    destruct (decide (response_rst_stream_error_code d
                      = NGHTTP2_REFUSED_STREAM)) as [Hr | Hr];
      destruct (decide (send_rv env <> 0)); lookups; normalize_world;
      rewrite ?Hr; reflexivity.
  - rewrite (close_without_origin env' w1 (stream_id d) code' p
               (with_downstream_connection None d));
      try reflexivity; try assumption.
    + subst w1. unfold updated. cbn [downstream_queue_ objs settings_timerev_].
      rewrite delete_put_obj. reflexivity.
    + apply lookup_insert_eq.
Qed.

Lemma origin_reset_propagated_witness :
  downstream_readcb 1%positive 1%positive default_env
    (one_stream (cancelled NGHTTP2_REFUSED_STREAM))
  = Ret tt (updated 1%positive
              (with_downstream_connection None
                 (cancelled NGHTTP2_REFUSED_STREAM))
              [SubmitRstStream 1 NGHTTP2_REFUSED_STREAM;
               DeleteDconn 1%positive; Send]
              (one_stream (cancelled NGHTTP2_REFUSED_STREAM))).
Proof.
  refine (proj1 (origin_reset_propagated default_env default_env
                   (one_stream (cancelled NGHTTP2_REFUSED_STREAM))
                   1%positive 1%positive (cancelled NGHTTP2_REFUSED_STREAM)
                   0 _ _ _ _ _ _));
    [reflexivity | reflexivity | discriminate | discriminate | reflexivity
    | vm_compute; discriminate].
Defined.



(** ** Stopping the SETTINGS timer *)

(** X14.  Stopping the SETTINGS timer frees the event exactly once: with
    a timer set, [stop_settings_timer] frees it and clears the handle;
    with none set, and so when called again, it does nothing.  After a
    stop the next start arms a timer of 10 seconds anew (when the event
    loop can make and arm one). *)
Theorem stop_settings_timer_spec (env env' : Env) (w : World) :
  exists w',
    stop_settings_timer env w = Ret tt w'
    /\ w' = mkWorld (downstream_queue_ w) None (objs w)
              (trace w ++ match settings_timerev_ w with
                          | Some ev => [EventFree ev]
                          | None => []
                          end)%list
    /\ stop_settings_timer env' w' = Ret tt w'
    /\ (evtimer_new_fails env' = false -> evtimer_add_fails env' = false ->
        start_settings_timer env' w'
        = Ret 0 (with_timer (Some armed_timer) w')).
Proof.
  unfold stop_settings_timer. unfold_all.
  destruct (settings_timerev_ w) as [ev |] eqn:Hset;
    (eexists; split; [reflexivity |]); cbn [settings_timerev_ log_call trace];
    (split; [destruct w; cbn in *; rewrite ?app_nil_r; congruence |]);
    (split; [cbn [settings_timerev_]; rewrite ?Hset; reflexivity |]);
    intros Hnew Hadd;
    rewrite start_settings_timer_first
      by (cbn [settings_timerev_]; rewrite ?Hset; reflexivity);
    rewrite Hnew, Hadd; reflexivity.
Qed.

Lemma stop_settings_timer_spec_witness :
  exists w',
    stop_settings_timer default_env
      (with_timer (Some armed_timer) empty_world) = Ret tt w'
    /\ trace w' = [EventFree armed_timer]
    /\ start_settings_timer default_env w'
       = Ret 0 (with_timer (Some armed_timer) w').
Proof.
  destruct (stop_settings_timer_spec default_env default_env
              (with_timer (Some armed_timer) empty_world))
    as (w' & Hrun & Hw' & _ & Hstart).
  exists w'. split; [exact Hrun |].
  split; [rewrite Hw'; reflexivity |].
  apply Hstart; reflexivity.
Defined.

(** * Further properties: the session driver *)

Ltac unfold_session :=
  cbv [mbind mret S_bind S_ret answer inspect update acted abort log_action
       get_outbuf_length evbuffer_add_output evbuffer_drain_input
       nghttp2_session_mem_recv nghttp2_session_terminate_session
       nghttp2_submit_window_update nghttp2_session_resume_data
       determine_window_update_transmission push_upload_data_chunk
       downstream_pause_read with_output with_input
       Driver.get_flow_control Driver.get_upstream].

Lemma pumped_step (s : Session) (data out : list ascii) (n : nat) :
  pumped (mkSession (world s) (input s) (output s ++ data)%list
            (flow_control_ s) (actions s ++ [SessionMemSend])%list) out n
  = pumped s (data ++ out)%list (Datatypes.S n).
Proof.
  unfold pumped. cbn [world input output flow_control_ actions].
  rewrite <- !app_assoc. reflexivity.
Qed.

Lemma pumped_nothing (s : Session) : pumped s [] 0 = s.
Proof.
  unfold pumped. cbn [repeat]. rewrite !app_nil_r. destruct s; reflexivity.
Qed.

(** ** send() *)

(** The loop of [send()] touches nothing but the output buffer, which it
    extends, and stays within any bound by which the buffer may exceed
    the threshold. *)
Lemma send_loop_run (answers : list mem_send_answer) :
  forall (ans : Answers) (s : Session),
  exists left_by out n,
    send_loop answers ans s = Done left_by (pumped s out n)
    /\ (forall B,
          (forall data, MemSendData data ∈ answers ->
                        Z.of_nat (List.length data) <= B) ->
          Z.of_nat (List.length (output s)) <= OUTBUF_MAX_THRES + B ->
          Z.of_nat (List.length (output s ++ out)) <= OUTBUF_MAX_THRES + B)
    /\ (OUTBUF_MAX_THRES < Z.of_nat (List.length (output s)) ->
        left_by = None /\ out = [] /\ n = 0%nat).
Proof.
  induction answers as [| a answers IH]; intros ans s.
  - cbn [send_loop]. unfold_session.
    destruct (decide (Z.of_nat (List.length (output s)) > OUTBUF_MAX_THRES)).
    + exists None, [], 0%nat. rewrite pumped_nothing, app_nil_r.
      repeat split; auto.
    + exists None, [], 1%nat. unfold pumped. cbn [world input output flow_control_ actions repeat].
      rewrite app_nil_r. repeat split; auto; lia.
  - cbn [send_loop]. unfold_session.
    destruct (decide (Z.of_nat (List.length (output s)) > OUTBUF_MAX_THRES)).
    + exists None, [], 0%nat. rewrite pumped_nothing, app_nil_r.
      repeat split; auto.
    + destruct a as [| data].
      * exists (Some (-1)), [], 1%nat. unfold pumped.
        cbn [world input output flow_control_ actions repeat].
        rewrite app_nil_r. repeat split; auto; lia.
      * destruct (decide (data = [])) as [-> | Hdata].
        { exists None, [], 1%nat. unfold pumped.
          cbn [world input output flow_control_ actions repeat].
          rewrite app_nil_r. repeat split; auto; lia. }
        destruct (output_add_fails ans).
        { exists (Some (-1)), [], 1%nat. unfold pumped.
          cbn [world input output flow_control_ actions repeat].
          rewrite app_nil_r. repeat split; auto; lia. }
        cbn [world input output flow_control_ actions].
        rewrite (decide_False (P := 0 = -1)) by lia.
        destruct (IH ans (mkSession (world s) (input s) (output s ++ data)%list
                            (flow_control_ s)
                            (actions s ++ [SessionMemSend])%list))
          as (left_by & out & m & Hrun & Hbound & _).
        exists left_by, (data ++ out)%list, (Datatypes.S m).
        rewrite Hrun, pumped_step. split; [reflexivity |].
        split; [| lia].
        intros B Hchunks Hout. rewrite app_assoc.
        cbn [output] in Hbound. apply Hbound.
        -- intros data' Hin. apply Hchunks. right. exact Hin.
        -- rewrite length_app, Nat2Z.inj_add.
           specialize (Hchunks data (list_elem_of_here _ _)). lia.
Qed.

(** X15.  [send()] stops asking the codec once the client's output
    buffer holds more than 64K.  It only appends to the output buffer;
    if no chunk the codec hands over is longer than [B] and the buffer
    starts within 64K + [B], it stays within 64K + [B]; and when the
    buffer already holds more than 64K, [send()] does not ask the codec
    at all, leaves the session as it is and returns 0. *)
Theorem send_backpressure (ans : Answers) (s : Session) (B : Z) :
  (forall data, MemSendData data ∈ mem_send ans ->
                Z.of_nat (List.length data) <= B) ->
  Z.of_nat (List.length (output s)) <= OUTBUF_MAX_THRES + B ->
  exists rv s' out,
    Driver.send ans s = Done rv s'
    /\ output s' = (output s ++ out)%list
    /\ Z.of_nat (List.length (output s')) <= OUTBUF_MAX_THRES + B
    /\ (OUTBUF_MAX_THRES < Z.of_nat (List.length (output s)) ->
        rv = 0 /\ s' = s).
Proof.
  intros Hchunks Hout.
  destruct (send_loop_run (mem_send ans) ans s)
    as (left_by & out & n & Hrun & Hbound & Hfull).
  assert (Hsame : OUTBUF_MAX_THRES < Z.of_nat (List.length (output s)) ->
                  pumped s out n = s).
  { intros Hover. destruct (Hfull Hover) as (_ & -> & ->).
    apply pumped_nothing. }
  unfold Driver.send. unfold_session. rewrite Hrun.
  destruct left_by as [rv |].
  - exists rv, (pumped s out n), out. split; [reflexivity |].
    split; [reflexivity |].
    split; [apply Hbound; assumption |].
    intros Hover. destruct (Hfull Hover) as (Hnone & _). discriminate.
  - cbn [output pumped].
    destruct (decide (want_read ans = 0 /\ want_write ans = 0
                      /\ Z.of_nat (List.length (output s ++ out)) = 0))
      as [(_ & _ & Hempty) | _].
    + exists (-1), (pumped s out n), out. split; [reflexivity |].
      split; [reflexivity |].
      split; [apply Hbound; assumption |].
      intros Hover. destruct (Hfull Hover) as (_ & -> & _).
      rewrite app_nil_r in Hempty. unfold OUTBUF_MAX_THRES in Hover. lia.
    + exists 0, (pumped s out n), out. split; [reflexivity |].
      split; [reflexivity |].
      split; [apply Hbound; assumption |].
      intros Hover. split; [reflexivity | apply Hsame; exact Hover].
Qed.

Lemma send_backpressure_witness :
  exists rv s' out,
    Driver.send
      (with_mem_send [MemSendData ["a"; "b"]%char; MemSendData ["c"]%char]
         quiet)
      (session_of empty_world)
    = Done rv s'
    /\ output s' = (output (session_of empty_world) ++ out)%list
    /\ Z.of_nat (List.length (output s')) <= OUTBUF_MAX_THRES + 2.
Proof.
  destruct (send_backpressure
              (with_mem_send
                 [MemSendData ["a"; "b"]%char; MemSendData ["c"]%char] quiet)
              (session_of empty_world) 2)
    as (rv & s' & out & Hrun & Hout & Hbound & _).
  - intros data Hin. cbn [mem_send with_mem_send] in Hin.
    repeat (apply elem_of_cons in Hin as [Hin | Hin];
            [inversion Hin; subst; cbn; lia |]).
    apply elem_of_nil in Hin. contradiction.
  - vm_compute. discriminate.
  - exists rv, s', out. repeat split; assumption.
Defined.

(** While the buffer stays within the threshold, the loop moves the
    codec's chunks to the output one by one. *)
Lemma send_loop_chunks (chunks : list (list ascii))
    (rest : list mem_send_answer) (ans : Answers) :
  output_add_fails ans = false ->
  Forall (fun data => data <> []) chunks ->
  forall s : Session,
    Z.of_nat (List.length (output s ++ concat chunks)) <= OUTBUF_MAX_THRES ->
    send_loop ((MemSendData <$> chunks) ++ rest) ans s
    = send_loop rest ans (pumped s (concat chunks) (List.length chunks)).
Proof.
  intros Hadd Hchunks. induction Hchunks as [| data chunks Hdata _ IH];
    intros s Hfits.
  - cbn [fmap list_fmap concat app List.length]. rewrite pumped_nothing.
    reflexivity.
  - cbn [fmap list_fmap concat app List.length] in *.
    rewrite !length_app in Hfits.
    cbn [send_loop]. unfold_session.
    rewrite decide_False by lia.
    rewrite decide_False by assumption. rewrite Hadd.
    cbn [world input output flow_control_ actions].
    rewrite (decide_False (P := 0 = -1)) by lia.
    fold (@fmap list _ _ _ MemSendData chunks).
    rewrite IH by (cbn [output]; rewrite !length_app; lia).
    rewrite pumped_step. reflexivity.
Qed.

(** With room in the buffer, the loop stops at the end of the codec's
    answers and at an error, after asking the codec once. *)
Lemma send_loop_stops (rest : list mem_send_answer) (ans : Answers)
    (s : Session) :
  Z.of_nat (List.length (output s)) <= OUTBUF_MAX_THRES ->
  send_loop [] ans s = Done None (pumped s [] 1)
  /\ send_loop (MemSendError :: rest) ans s = Done (Some (-1)) (pumped s [] 1).
Proof.
  intros Hroom. unfold pumped.
  cbn [world input output flow_control_ actions repeat].
  rewrite app_nil_r.
  split; cbn [send_loop]; unfold_session; rewrite decide_False by lia;
    reflexivity.
Qed.

(** X16.  The verdict of [send()].  When the codec's chunks all fit
    within 64K, [send()] appends them to the output buffer in the order
    the codec gave them, asking the codec once more than there are
    chunks.  If the codec then has nothing more, [send()] returns -1
    exactly when the session is idle (the codec wants neither to read
    nor to write, and the output buffer is empty) and 0 otherwise; if
    the codec then reports an error, [send()] returns -1 whatever the
    codec wants, and the chunks moved before stay in the buffer. *)
Theorem send_verdict (ans : Answers) (s : Session)
    (chunks : list (list ascii)) (rest : list mem_send_answer) :
  output_add_fails ans = false ->
  Forall (fun data => data <> []) chunks ->
  Z.of_nat (List.length (output s ++ concat chunks)) <= OUTBUF_MAX_THRES ->
  let s' := pumped s (concat chunks) (Datatypes.S (List.length chunks)) in
  (mem_send ans = MemSendData <$> chunks ->
   Driver.send ans s
   = Done (if decide (want_read ans = 0 /\ want_write ans = 0
                      /\ output s' = [])
           then -1 else 0) s')
  /\ (mem_send ans = ((MemSendData <$> chunks) ++ MemSendError :: rest)%list ->
      Driver.send ans s = Done (-1) s').
Proof.
  intros Hadd Hchunks Hfits s'.
  assert (Hlast : pumped (pumped s (concat chunks) (List.length chunks)) [] 1
                  = s').
  { unfold s', pumped. cbn [world input output flow_control_ actions].
    rewrite app_nil_r, <- app_assoc. cbn [repeat].
    rewrite repeat_cons. reflexivity. }
  assert (Hroom : Z.of_nat (List.length
                    (output (pumped s (concat chunks) (List.length chunks))))
                  <= OUTBUF_MAX_THRES) by exact Hfits.
  destruct (send_loop_stops rest ans _ Hroom) as (Hend & Herror).
  split; intros Hscript; unfold Driver.send; unfold_session; rewrite Hscript.
  - rewrite <- (app_nil_r (MemSendData <$> chunks)).
    rewrite send_loop_chunks by assumption.
    rewrite Hend, Hlast.
    destruct (decide (want_read ans = 0 /\ want_write ans = 0
                      /\ output s' = [])) as [Hidle | Hbusy].
    + rewrite decide_True; [reflexivity |].
      destruct Hidle as (? & ? & Hempty). rewrite Hempty. auto.
    + rewrite decide_False; [reflexivity |].
      intros (? & ? & Hzero). apply Hbusy. split; [| split]; auto.
      destruct (output s'); [reflexivity |].
      cbn [List.length] in Hzero. lia.
  - rewrite send_loop_chunks by assumption.
    rewrite Herror, Hlast. reflexivity.
Qed.

Lemma send_verdict_witness :
  Driver.send
    (with_mem_send [MemSendData ["a"; "b"]%char; MemSendData ["c"]%char] quiet)
    (session_of empty_world)
  = Done 0 (pumped (session_of empty_world) ["a"; "b"; "c"]%char 3).
Proof.
  destruct (send_verdict
              (with_mem_send
                 [MemSendData ["a"; "b"]%char; MemSendData ["c"]%char] quiet)
              (session_of empty_world) [["a"; "b"]; ["c"]]%char [])
    as (Hrun & _).
  - reflexivity.
  - repeat constructor; discriminate.
  - vm_compute. discriminate.
  - exact (Hrun eq_refl).
Defined.

(** [send()] returns, having touched only the output buffer. *)
Lemma send_returns (ans : Answers) (s : Session) :
  exists rv out n, Driver.send ans s = Done rv (pumped s out n).
Proof.
  destruct (send_loop_run (mem_send ans) ans s)
    as (left_by & out & n & Hloop & _).
  unfold Driver.send. unfold_session. rewrite Hloop.
  destruct left_by as [rv |]; [exists rv, out, n; reflexivity |].
  destruct (decide _); [exists (-1), out, n | exists 0, out, n];
    reflexivity.
Qed.

(** ** on_read() *)

(** X17.  [on_read()] hands the whole input buffer to the codec.  When
    the codec reports an error it returns -1 with the input left as it
    was and without running [send()]; otherwise it drops from the front
    of the input exactly the bytes the codec took and runs [send()],
    whose verdict it returns, so that afterwards the input is the
    untaken rest whatever [send()] did. *)
Theorem on_read_consumes (ans : Answers) (s : Session) :
  let received := log_action (SessionMemRecv (input s)) s in
  (mem_recv_rv ans < 0 -> Driver.on_read ans s = Done (-1) received)
  /\ (0 <= mem_recv_rv ans ->
      let rest := drop (Z.to_nat (mem_recv_rv ans)) (input s) in
      Driver.on_read ans s = Driver.send ans (with_input rest received)
      /\ exists rv out n,
           Driver.on_read ans s
           = Done rv (pumped (with_input rest received) out n)).
Proof.
  intros received. split; intros Hrv.
  - unfold Driver.on_read. unfold_session.
    rewrite decide_True by assumption. reflexivity.
  - intros rest.
    assert (Hrun : Driver.on_read ans s
                   = Driver.send ans (with_input rest received)).
    { unfold Driver.on_read. unfold_session.
      rewrite decide_False by lia. reflexivity. }
    split; [exact Hrun |]. rewrite Hrun.
    destruct (send_loop_run (mem_send ans) ans (with_input rest received))
      as (left_by & out & n & Hloop & _).
    unfold Driver.send. unfold_session.
    fold (with_input rest received). rewrite Hloop.
    destruct left_by as [rv |]; [exists rv, out, n; reflexivity |].
    destruct (decide _); [exists (-1), out, n | exists 0, out, n];
      reflexivity.
Qed.

Lemma on_read_consumes_witness :
  exists rv out n,
    Driver.on_read quiet
      (mkSession empty_world ["a"; "b"]%char [] false [])
    = Done rv
        (pumped (mkSession empty_world ["a"; "b"]%char [] false
                   [SessionMemRecv ["a"; "b"]%char]) out n).
Proof.
  destruct (on_read_consumes quiet
              (mkSession empty_world ["a"; "b"]%char [] false []))
    as (_ & Hrun).
  destruct Hrun as (_ & Hrun); [cbn; lia |]. exact Hrun.
Defined.

(** ** Callbacks of the first part, run on the session *)

Lemma lift_run {A} (m : M A) (ans : Answers) (s : Session) (a : A)
    (w' : World) (cs : list call) :
  m (base_env ans) (world s) = Ret a w' ->
  trace w' = (trace (world s) ++ cs)%list ->
  lift m ans s = Done a (on_world w' (Bridge <$> cs) s).
Proof.
  intros Hrun Htrace. unfold lift, sync, on_world.
  rewrite Hrun, Htrace, drop_app_length. reflexivity.
Qed.

Lemma lift_died {A} (m : M A) (ans : Answers) (s : Session)
    (w' : World) (cs : list call) :
  m (base_env ans) (world s) = Died w' ->
  trace w' = (trace (world s) ++ cs)%list ->
  lift m ans s = Aborted (on_world w' (Bridge <$> cs) s).
Proof.
  intros Hrun Htrace. unfold lift, sync, on_world.
  rewrite Hrun, Htrace, drop_app_length. reflexivity.
Qed.

Lemma on_world_same (s : Session) : on_world (world s) [] s = s.
Proof. unfold on_world. rewrite app_nil_r. destruct s; reflexivity. Qed.

Lemma on_world_twice (w1 w2 : World) (c1 c2 : list action) (s : Session) :
  on_world w2 c2 (on_world w1 c1 s) = on_world w2 (c1 ++ c2)%list s.
Proof.
  unfold on_world. cbn [input output flow_control_ actions].
  rewrite app_assoc. reflexivity.
Qed.

Lemma log_action_on_world (a : action) (w : World) (cs : list action)
    (s : Session) :
  log_action a (on_world w cs s) = on_world w (cs ++ [a])%list s.
Proof.
  unfold log_action, on_world. cbn [world input output flow_control_ actions].
  rewrite app_assoc. reflexivity.
Qed.

(** Reading a field of a live Stream leaves the session as it is. *)
Lemma lift_load {A} (f : Downstream -> A) (p : ptr) (d : Downstream)
    (ans : Answers) (s : Session) :
  objs (world s) !! p = Some d ->
  lift (load f p) ans s = Done (f d) s.
Proof.
  intros Hobj.
  rewrite (lift_run _ ans s (f d) (world s) []).
  - rewrite on_world_same. reflexivity.
  - unfold load. rewrite Hobj. reflexivity.
  - rewrite app_nil_r. reflexivity.
Qed.

(** ** resume_read() and the origin's write callback *)






(** ** The response body, from the origin to the client *)

(** A chunk of the response body that the buffer takes. *)
Lemma on_downstream_body_run (p : ptr) (d : Downstream) (body : list ascii)
    (data : string) (ans : Answers) (s : Session) :
  objs (world s) !! p = Some d ->
  response_body_buf d = Some body ->
  evbuffer_add_fails (base_env ans) = false ->
  let body' := (body ++ list_ascii_of_string data)%list in
  Driver.on_downstream_body p data ans s
  = Done 0
      (on_world (put_obj p (with_response_body_buf (Some body') d) (world s))
         (SessionResumeData (stream_id d)
          :: if decide (size_t_add (Z.of_nat (List.length (output s)))
                          (evbuffer_get_length body') > OUTBUF_MAX_THRES)
             then [DownstreamPauseRead p SHRPX_NO_BUFFER] else [])
         s).
Proof.
  intros Hobj Hbody Hadd body'.
  set (d' := with_response_body_buf (Some body') d).
  assert (Hrun : lift (evbuffer_add p data) ans s
                 = Done 0 (on_world (put_obj p d' (world s)) [] s)).
  { apply (lift_run _ ans s 0 _ []).
    - unfold evbuffer_add. unfold_monad. rewrite Hadd, Hobj, Hbody.
      reflexivity.
    - cbn [put_obj trace]. rewrite app_nil_r. reflexivity. }
  assert (Hlive : objs (world (on_world (put_obj p d' (world s)) [] s)) !! p
                  = Some d') by apply lookup_insert_eq.
  unfold Driver.on_downstream_body.
  cbv [mbind mret S_bind S_ret]. rewrite Hrun.
  rewrite decide_False by lia.
  unfold get_stream_id. rewrite (lift_load stream_id p d') by exact Hlive.
  unfold_session. unfold get_response_body_buf.
  rewrite (lift_load response_body_buf p d')
    by (cbn [world log_action on_world]; apply lookup_insert_eq).
  cbn [world input output flow_control_ actions on_world d'
       response_body_buf with_response_body_buf stream_id default
       from_option].
  unfold id. rewrite app_nil_r.
  destruct (decide (size_t_add (Z.of_nat (List.length (output s)))
                      (evbuffer_get_length body') > OUTBUF_MAX_THRES));
    cbn [world input output flow_control_ actions];
    rewrite <- ?app_assoc; reflexivity.
Qed.

(** X20.  A chunk of the response body from the origin is appended to
    the Stream's response buffer and the codec is told to ask the
    stream's data source again; reading from the origin is paused
    exactly when the client's output buffer and the response buffer
    together then hold more than 64K.  When the buffer does not take the
    chunk the method returns -1 and nothing has happened: the codec is
    not told and reading is not paused. *)
Theorem on_downstream_body_spec (p : ptr) (d : Downstream)
    (body : list ascii) (data : string) (ans : Answers) (s : Session) :
  objs (world s) !! p = Some d ->
  response_body_buf d = Some body ->
  let body' := (body ++ list_ascii_of_string data)%list in
  let held :=
    size_t_add (Z.of_nat (List.length (output s)))
      (Z.of_nat (List.length body')) in
  (evbuffer_add_fails (base_env ans) = true ->
   Driver.on_downstream_body p data ans s = Done (-1) s)
  /\ (evbuffer_add_fails (base_env ans) = false ->
      exists s',
        Driver.on_downstream_body p data ans s = Done 0 s'
        /\ objs (world s') = <[p := with_response_body_buf (Some body') d]>
                               (objs (world s))
        /\ downstream_queue_ (world s') = downstream_queue_ (world s)
        /\ output s' = output s
        /\ (OUTBUF_MAX_THRES < held ->
            actions s' = (actions s
                          ++ [SessionResumeData (stream_id d);
                              DownstreamPauseRead p SHRPX_NO_BUFFER])%list)
        /\ (held <= OUTBUF_MAX_THRES ->
            actions s' = (actions s
                          ++ [SessionResumeData (stream_id d)])%list)).
Proof.
  intros Hobj Hbody body' held. split; intros Hadd.
  - unfold Driver.on_downstream_body. cbv [mbind mret S_bind S_ret].
    rewrite (lift_run _ ans s (-1) (world s) []).
    + rewrite on_world_same. rewrite decide_True by lia. reflexivity.
    + unfold evbuffer_add. unfold_monad. rewrite Hadd. reflexivity.
    + rewrite app_nil_r. reflexivity.
  - eexists. split; [apply (on_downstream_body_run p d body); assumption |].
    cbn [on_world world output actions put_obj objs downstream_queue_].
    fold body'. unfold evbuffer_get_length. fold held.
    repeat split.
    + intros Hover. rewrite decide_True by lia. reflexivity.
    + intros Hroom. rewrite decide_False by lia. reflexivity.
Qed.

Lemma on_downstream_body_spec_witness :
  exists s',
    Driver.on_downstream_body 1%positive "hello" quiet
      (session_of (one_stream relayed)) = Done 0 s'
    /\ actions s' = [SessionResumeData 1].
Proof.
  destruct (on_downstream_body_spec 1%positive relayed
              (default [] (response_body_buf relayed)) "hello" quiet
              (session_of (one_stream relayed)) eq_refl eq_refl)
    as (_ & Hrun).
  destruct (Hrun eq_refl) as (s' & Hs' & _ & _ & _ & _ & Hroom).
  exists s'. split; [exact Hs' |].
  apply Hroom. vm_compute. discriminate.
Defined.

(** X21.  What the origin sends reaches the client unchanged and in
    order: after two chunks of the response body were taken by
    [on_downstream_body], a call of the stream's data source with room
    for all that the response buffer holds writes to the codec the bytes
    the buffer held before, then the first chunk, then the second, and
    leaves the buffer empty.  (The buffer takes the chunks; the read of
    the buffer does not fail; end-of-stream not set on entry.) *)
Theorem origin_body_reaches_client
    (p : ptr) (d : Downstream) (body : list ascii) (data1 data2 : string)
    (ans : Answers) (s : Session) (env : Env) (sid length eof : Z) :
  objs (world s) !! p = Some d ->
  response_body_buf d = Some body ->
  evbuffer_add_fails (base_env ans) = false ->
  evbuffer_remove_fails env = false ->
  eof <> 1 ->
  let all := (body ++ list_ascii_of_string data1
                   ++ list_ascii_of_string data2)%list in
  all <> [] ->
  Z.of_nat (List.length all) <= length ->
  exists s1 s2 rv w',
    Driver.on_downstream_body p data1 ans s = Done 0 s1
    /\ Driver.on_downstream_body p data2 ans s1 = Done 0 s2
    /\ downstream_data_read_callback sid length eof p env (world s2)
       = Ret (rv, eof, all) w'
    /\ objs w' !! p = Some (with_response_body_buf (Some []) d)
    /\ (0 <= rv -> rv = Z.of_nat (List.length all)).
Proof.
  intros Hobj Hbody Hadd Hremove Heof all Hsome Hroom.
  pose proof (on_downstream_body_run p d body data1 ans s Hobj Hbody Hadd)
    as Hfirst. cbv zeta in Hfirst.
  match type of Hfirst with _ = Done 0 ?after => set (s1 := after) in * end.
  pose proof (on_downstream_body_run p _ _ data2 ans s1
                (lookup_insert_eq _ _ _) eq_refl Hadd) as Hsecond.
  cbv zeta in Hsecond. rewrite <- app_assoc in Hsecond. fold all in Hsecond.
  match type of Hsecond with _ = Done 0 ?after => set (s2 := after) in * end.
  pose proof (data_read_bytes env (world s2) sid length eof p _ all
                (lookup_insert_eq _ _ _) eq_refl Hremove Heof) as Hread.
  cbv zeta in Hread.
  rewrite take_ge, drop_ge in Hread by lia.
  specialize (Hread Hsome).
  exists s1, s2.
  destruct (decide (size_t_add (outbuf_length env) (evbuffer_get_length [])
                    < OUTBUF_MAX_THRES));
    [destruct (decide (resume_read_rv env <> 0)) |];
    eexists _, _; (split; [exact Hfirst |]); (split; [exact Hsecond |]);
    (split; [exact Hread |]);
    (split; [apply lookup_insert_eq |]);
    intros Hrv; try reflexivity.
  unfold NGHTTP2_ERR_CALLBACK_FAILURE in Hrv. lia.
Qed.

Lemma origin_body_reaches_client_witness :
  exists s1 s2 rv w',
    Driver.on_downstream_body 1%positive "hel" quiet
      (session_of (one_stream relayed)) = Done 0 s1
    /\ Driver.on_downstream_body 1%positive "lo" quiet s1 = Done 0 s2
    /\ downstream_data_read_callback 1 4096 0 1%positive default_env
         (world s2)
       = Ret (rv, 0, list_ascii_of_string "hello") w'.
Proof.
  destruct (origin_body_reaches_client 1%positive relayed [] "hel" "lo"
              quiet (session_of (one_stream relayed)) default_env 1 4096 0)
    as (s1 & s2 & rv & w' & Hfirst & Hsecond & Hread & _);
    [reflexivity | reflexivity | reflexivity | reflexivity | lia
    | discriminate | cbn; lia |].
  exists s1, s2, rv, w'. repeat split; assumption.
Defined.

(** ** Upload data and the SETTINGS timeout *)

Ltac unfold_lift := cbv [lift sync].

(** Resolve the session's fields and the calls brought over from the
    world. *)
Ltac session_lookups :=
  repeat first
    [ progress cbn [world input output flow_control_ actions on_world]
    | progress lookups
    | rewrite drop_all
    | rewrite drop_app_length
    | progress cbn [fmap list_fmap] ].

Ltac same_session :=
  unfold on_world, log_action;
  cbn [world input output flow_control_ actions];
  rewrite ?app_nil_r, <- ?app_assoc; cbn [app];
  first [ reflexivity
        | match goal with s : Session |- _ => destruct s; reflexivity end ].

(** X22.  A chunk of upload data is forwarded to the origin of its
    stream, and the callback never fails the session over it: for a
    stream-id that is not in the table it does nothing; when the origin
    does not take the chunk the stream alone is reset, with
    INTERNAL_ERROR; in each case the codec is answered 0.  (The codec
    reports no fatal error.) *)
Theorem on_data_chunk_recv_callback_spec
    (flags sid : Z) (data : string) (ans : Answers) (s : Session) :
  (downstream_queue_ (world s) !! sid = None ->
   Driver.on_data_chunk_recv_callback flags sid data ans s = Done 0 s)
  /\ (forall p d,
        downstream_queue_ (world s) !! sid = Some p ->
        objs (world s) !! p = Some d ->
        NGHTTP2_ERR_FATAL <= submit_rst_stream_rv (base_env ans) ->
        Driver.on_data_chunk_recv_callback flags sid data ans s
        = Done 0
            (if decide (push_upload_data_chunk_rv ans <> 0) then
               let reset :=
                 SubmitRstStream (stream_id d) NGHTTP2_INTERNAL_ERROR in
               on_world (log_call reset (world s))
                 [PushUploadDataChunk p data; Bridge reset] s
             else log_action (PushUploadDataChunk p data) s)).
Proof.
  split.
  - intros Hnone. unfold Driver.on_data_chunk_recv_callback.
    unfold_session. unfold_lift. unfold_all. rewrite Hnone.
    session_lookups. same_session.
  - intros p d Hfound Hobj Hcodec.
    unfold Driver.on_data_chunk_recv_callback.
    unfold_session. unfold_lift. unfold_all. session_lookups.
    destruct (decide (push_upload_data_chunk_rv ans <> 0));
      session_lookups; same_session.
Qed.

Lemma on_data_chunk_recv_callback_spec_witness :
  Driver.on_data_chunk_recv_callback 0 1 "body" refusing_upload
    (session_of (one_stream relayed))
  = Done 0
      (on_world
         (log_call (SubmitRstStream 1 NGHTTP2_INTERNAL_ERROR)
            (one_stream relayed))
         [PushUploadDataChunk 1%positive "body";
          Bridge (SubmitRstStream 1 NGHTTP2_INTERNAL_ERROR)]
         (session_of (one_stream relayed))).
Proof.
  destruct (on_data_chunk_recv_callback_spec 0 1 "body" refusing_upload
              (session_of (one_stream relayed))) as (_ & Hrun).
  apply (Hrun 1%positive relayed); [reflexivity | reflexivity |].
  vm_compute. discriminate.
Defined.

(** The end of the callbacks: the handler is deleted exactly when
    [send()] fails. *)
Lemma send_or_teardown_run (ans : Answers) (s : Session) :
  exists rv out n,
    Driver.send ans s = Done rv (pumped s out n)
    /\ send_or_teardown ans s
       = Done tt (if decide (rv <> 0) then torn_down (pumped s out n)
                  else pumped s out n).
Proof.
  destruct (send_returns ans s) as (rv & out & n & Hsend).
  exists rv, out, n. split; [exact Hsend |].
  unfold send_or_teardown. cbv [mbind mret S_bind S_ret]. rewrite Hsend.
  destruct (decide (rv <> 0)); [| reflexivity].
  unfold_lift. unfold_all. unfold torn_down. session_lookups.
  reflexivity.
Qed.

(** X23.  When the peer does not acknowledge SETTINGS in time the
    session is terminated with SETTINGS_TIMEOUT, which is queued before
    anything else is done.  If queueing fails the client handler is
    deleted at once, and [send()] is not run; otherwise [send()] is run,
    and the client handler is deleted exactly when it fails. *)
Theorem settings_timeout_cb_spec (ans : Answers) (s : Session) :
  let goaway := log_action (TerminateSession NGHTTP2_SETTINGS_TIMEOUT) s in
  (terminate_session_rv ans <> 0 ->
   Driver.settings_timeout_cb ans s = Done tt (torn_down goaway))
  /\ (terminate_session_rv ans = 0 ->
      exists rv out n,
        Driver.send ans goaway = Done rv (pumped goaway out n)
        /\ Driver.settings_timeout_cb ans s
           = Done tt (if decide (rv <> 0) then torn_down (pumped goaway out n)
                      else pumped goaway out n)).
Proof.
  intros goaway. split; intros Hrv.
  - unfold Driver.settings_timeout_cb, Driver.terminate_session.
    unfold_session. rewrite (decide_True (P := terminate_session_rv ans <> 0))
      by assumption.
    rewrite (decide_True (P := -1 <> 0)) by lia.
    unfold_lift. unfold_all. unfold torn_down, goaway. session_lookups.
    same_session.
  - destruct (send_or_teardown_run ans goaway)
      as (rv & out & n & Hsend & Hend).
    exists rv, out, n. split; [exact Hsend |]. rewrite <- Hend.
    unfold Driver.settings_timeout_cb, Driver.terminate_session,
      send_or_teardown.
    unfold_session.
    rewrite (decide_False (P := terminate_session_rv ans <> 0)) by lia.
    rewrite (decide_False (P := 0 <> 0)) by lia.
    reflexivity.
Qed.

Lemma settings_timeout_cb_spec_witness :
  exists rv out n,
    Driver.send quiet
      (log_action (TerminateSession NGHTTP2_SETTINGS_TIMEOUT)
         (session_of empty_world))
    = Done rv
        (pumped (log_action (TerminateSession NGHTTP2_SETTINGS_TIMEOUT)
                   (session_of empty_world)) out n)
    /\ Driver.settings_timeout_cb quiet (session_of empty_world)
       = Done tt
           (if decide (rv <> 0) then
              torn_down
                (pumped (log_action (TerminateSession NGHTTP2_SETTINGS_TIMEOUT)
                           (session_of empty_world)) out n)
            else pumped (log_action (TerminateSession NGHTTP2_SETTINGS_TIMEOUT)
                           (session_of empty_world)) out n).
Proof.
  destruct (settings_timeout_cb_spec quiet (session_of empty_world))
    as (_ & Hrun).
  apply Hrun. reflexivity.
Defined.

(** ** The origin's events *)

Ltac eof_branch :=
  unfold Driver.downstream_eventcb, Driver.on_downstream_body_complete;
  unfold_session;
  match goal with
  | Hevent : eof_event ?events |- _ =>
      destruct Hevent as (? & ?);
      rewrite (decide_False (P := Z.land events BEV_EVENT_CONNECTED <> 0))
        by lia;
      rewrite (decide_True (P := Z.land events BEV_EVENT_EOF <> 0))
        by assumption
  end.

Ltac failure_branch :=
  unfold Driver.downstream_eventcb; unfold_session;
  match goal with
  | Hevent : failure_event ?events |- _ =>
      destruct Hevent as (? & ? & ?);
      rewrite (decide_False (P := Z.land events BEV_EVENT_CONNECTED <> 0))
        by lia;
      rewrite (decide_False (P := Z.land events BEV_EVENT_EOF <> 0)) by lia;
      rewrite (decide_True
                 (P := Z.land events
                         (Z.lor BEV_EVENT_ERROR BEV_EVENT_TIMEOUT) <> 0))
        by assumption
  end.

(** Bring both sides to the session [send()] is run on. *)
Ltac reaches_send :=
  unfold send_or_teardown, origin_lost; unfold_session;
  unfold on_world, log_action;
  cbn [world input output flow_control_ actions fmap list_fmap];
  normalize_world; cbn [app]; reflexivity.

(** X24.  Which events of the origin connection the callback acts on.
    The Stream is read before the events are looked at, so the callback
    needs a live Stream whatever is reported.  With one, a connection
    made (CONNECTED) only has TCP_NODELAY set on the socket, whatever
    other events are reported with it, and the Stream is left as it is.
    With none of CONNECTED, EOF, ERROR and TIMEOUT reported nothing is
    done.  When the origin's stream ends or fails after the client's
    stream was closed, the Stream is taken out of the table and
    destroyed, nothing is sent to the client and [send()] is not run. *)
Theorem origin_event_dispatch `{Helpers}
    (dconn : dconn_t) (events : Z) (p : ptr) (ans : Answers) (s : Session) :
  (objs (world s) !! p = None ->
   Driver.downstream_eventcb dconn events p ans s = Faulted)
  /\ (forall d,
        objs (world s) !! p = Some d ->
        (Z.land events BEV_EVENT_CONNECTED <> 0 ->
         Driver.downstream_eventcb dconn events p ans s
         = Done tt (log_action (SetTcpNoDelay dconn) s))
        /\ (Z.land events BEV_EVENT_CONNECTED = 0 ->
            Z.land events BEV_EVENT_EOF = 0 ->
            Z.land events (Z.lor BEV_EVENT_ERROR BEV_EVENT_TIMEOUT) = 0 ->
            Driver.downstream_eventcb dconn events p ans s = Done tt s)
        /\ (eof_event events \/ failure_event events ->
            request_state d = STREAM_CLOSED ->
            Driver.downstream_eventcb dconn events p ans s
            = Done tt (stream_dropped p d s))).
Proof.
  split.
  - intros Hnone. unfold Driver.downstream_eventcb. unfold_session.
    unfold_lift. unfold_all. rewrite Hnone. reflexivity.
  - intros d Hobj. split; [| split].
    + intros Hconn. unfold Driver.downstream_eventcb. unfold_session.
      unfold_lift. unfold_all. session_lookups. same_session.
    + intros Hconn Heof Hfail. unfold Driver.downstream_eventcb.
      unfold_session. unfold_lift. unfold_all. session_lookups.
      same_session.
    + intros Hevent Hclosed.
      destruct Hevent as [Hevent | Hevent];
        [eof_branch | failure_branch];
        unfold_lift; unfold_all; unfold stream_dropped; session_lookups;
        same_session.
Qed.

Lemma origin_event_dispatch_witness :
  Driver.downstream_eventcb 1%positive BEV_EVENT_EOF 1%positive quiet
    (session_of (one_stream closed_by_client))
  = Done tt (stream_dropped 1%positive closed_by_client
               (session_of (one_stream closed_by_client))).
Proof.
  destruct (origin_event_dispatch 1%positive BEV_EVENT_EOF 1%positive quiet
              (session_of (one_stream closed_by_client))) as (_ & Hlive).
  destruct (Hlive closed_by_client eq_refl) as (_ & _ & Hrun).
  apply Hrun; [| reflexivity].
  left. split; [reflexivity | discriminate].
Defined.

(** X25.  The end of the origin's stream (EOF) on a Stream whose client
    stream is still open.  The origin connection is let go of and
    deleted.  After the response headers the end of the stream is the
    end of the body: the response is marked complete and the codec is
    told to ask the data source again.  When the response was complete
    already nothing more is done, also for a tunnel (no RST_STREAM).
    Before the response headers the client gets the 502 page; when the
    page cannot be buffered the client handler is deleted and [send()]
    is not run.  In the other cases the callback ends with [send()].
    (The codec reports no fatal error.) *)
Theorem origin_eof `{Helpers}
    (dconn : dconn_t) (events : Z) (p : ptr) (d : Downstream)
    (ans : Answers) (s : Session) :
  eof_event events ->
  objs (world s) !! p = Some d ->
  request_state d <> STREAM_CLOSED ->
  let d0 := with_downstream_connection None d in
  let html := create_error_html 502 in
  let reply :=
    SubmitResponse (stream_id d)
      (error_reply_headers (base_env ans) 502 html)
    :: (if accesslog (config (base_env ans))
        then [UpstreamResponse 502 p] else []) in
  (response_state d = HEADER_COMPLETE ->
   Driver.downstream_eventcb dconn events p ans s
   = send_or_teardown ans
       (log_action (SessionResumeData (stream_id d))
          (origin_lost dconn p (with_response_state MSG_COMPLETE d0) [] s)))
  /\ (response_state d = MSG_COMPLETE ->
      Driver.downstream_eventcb dconn events p ans s
      = send_or_teardown ans (origin_lost dconn p d0 [] s))
  /\ (response_state d <> HEADER_COMPLETE ->
      response_state d <> MSG_COMPLETE ->
      (evbuffer_add_fails (base_env ans) = true ->
       Driver.downstream_eventcb dconn events p ans s
       = Done tt (origin_lost dconn p (with_response_body_buf (Some []) d0)
                    [DeleteClientHandler] s))
      /\ (evbuffer_add_fails (base_env ans) = false ->
          NGHTTP2_ERR_FATAL <= submit_response_rv (base_env ans) ->
          Driver.downstream_eventcb dconn events p ans s
          = send_or_teardown ans
              (origin_lost dconn p (with_error_page html d0) reply s))).
Proof.
  intros Hevent Hobj Hopen d0 html reply.
  split; [| split].
  - intros Hstate. eof_branch. unfold_lift. unfold_all. session_lookups.
    reaches_send.
  - intros Hstate.
    assert (Hnot_headers : response_state d <> HEADER_COMPLETE) by congruence.
    eof_branch. unfold_lift. unfold_all. session_lookups. reaches_send.
  - intros Hnot_headers Hnot_complete. split.
    + intros Hadd. eof_branch. unfold_lift. unfold_all. session_lookups.
      erewrite (error_reply_run (base_env ans) _ p d0 502)
        by apply lookup_insert_eq.
      rewrite Hadd. session_lookups. unfold origin_lost.
      unfold on_world; cbn [world input output flow_control_ actions
                              fmap list_fmap];
        normalize_world; cbn [app]; reflexivity.
    + intros Hadd Hcodec. eof_branch. unfold_lift. unfold_all.
      session_lookups.
      erewrite (error_reply_run (base_env ans) _ p d0 502)
        by apply lookup_insert_eq.
      rewrite Hadd. unfold updated. session_lookups.
      destruct (accesslog (config (base_env ans))); session_lookups;
        reaches_send.
Qed.

Lemma origin_eof_witness :
  Driver.downstream_eventcb 1%positive BEV_EVENT_EOF 1%positive quiet
    (session_of (one_stream awaiting_body))
  = send_or_teardown quiet
      (log_action (SessionResumeData 1)
         (origin_lost 1%positive 1%positive
            (with_response_state MSG_COMPLETE
               (with_downstream_connection None awaiting_body))
            [] (session_of (one_stream awaiting_body)))).
Proof.
  destruct (origin_eof 1%positive BEV_EVENT_EOF 1%positive awaiting_body
              quiet (session_of (one_stream awaiting_body)))
    as (Hrun & _);
    [split; [reflexivity | discriminate] | reflexivity | discriminate |].
  apply Hrun. reflexivity.
Defined.



(** After the end or a failure of the origin's stream on an open client
    stream, [send()] is run on a session in which the Stream has let go
    of the origin connection and the response is complete. *)
Lemma origin_event_lets_go `{Helpers}
    (dconn : dconn_t) (events : Z) (p : ptr) (d : Downstream)
    (ans : Answers) (s : Session) :
  eof_event events \/ failure_event events ->
  objs (world s) !! p = Some d ->
  request_state d <> STREAM_CLOSED ->
  NGHTTP2_ERR_FATAL <= submit_rst_stream_rv (base_env ans) ->
  NGHTTP2_ERR_FATAL <= submit_response_rv (base_env ans) ->
  evbuffer_add_fails (base_env ans) = false ->
  exists d' cs acts,
    Driver.downstream_eventcb dconn events p ans s
    = send_or_teardown ans (on_world (updated p d' cs (world s)) acts s)
    /\ downstream_connection d' = None
    /\ stream_id d' = stream_id d
    /\ request_state d' = request_state d
    /\ response_state d' = MSG_COMPLETE.
Proof.
  intros Hevent Hobj Hopen Hreset Hreply Hadd.
  destruct (decide (response_state d = HEADER_COMPLETE)) as [Hhc | Hhc];
    [ assert (Hmc : response_state d <> MSG_COMPLETE) by congruence
    | destruct (decide (response_state d = MSG_COMPLETE)) as [Hmc | Hmc] ];
    (destruct Hevent as [Hevent | Hevent];
     [eof_branch | failure_branch]);
    unfold_lift; unfold_all; session_lookups;
    try (destruct (upgraded d) eqn:Hup; session_lookups);
    try (destruct (decide (Z.land events BEV_EVENT_TIMEOUT <> 0)));
    try (erewrite (error_reply_run (base_env ans) _ p _ _)
           by apply lookup_insert_eq;
         rewrite Hadd; unfold updated; session_lookups;
         destruct (accesslog (config (base_env ans))); session_lookups);
    (eexists _, _, _; split; [reaches_send |]);
    cbn [downstream_connection stream_id request_state response_state
         with_error_page with_response_state with_response_body_buf
         with_downstream_connection];
    auto.
Qed.

(** X27.  An origin connection that ended or failed is never pooled.
    After the end or a failure of the origin's stream on an open client
    stream, the callback has let go of the origin connection and marked
    the response complete by the time it runs [send()], the Stream being
    still in the table then.  A stream-close callback on that state, as
    the codec may make within [send()], destroys the Stream and detaches
    no origin connection for reuse.  (The page can be buffered; the
    codec reports no fatal error; the request did not fail to
    connect.) *)
Theorem failed_origin_never_pooled `{Helpers}
    (dconn : dconn_t) (events : Z) (p : ptr) (d : Downstream)
    (ans : Answers) (s : Session) (env : Env) (code : Z) :
  eof_event events \/ failure_event events ->
  downstream_queue_ (world s) !! stream_id d = Some p ->
  objs (world s) !! p = Some d ->
  request_state d <> STREAM_CLOSED ->
  request_state d <> CONNECT_FAIL ->
  NGHTTP2_ERR_FATAL <= submit_rst_stream_rv (base_env ans) ->
  NGHTTP2_ERR_FATAL <= submit_response_rv (base_env ans) ->
  evbuffer_add_fails (base_env ans) = false ->
  exists s1 d',
    Driver.downstream_eventcb dconn events p ans s = send_or_teardown ans s1
    /\ downstream_queue_ (world s1) = downstream_queue_ (world s)
    /\ objs (world s1) = <[p := d']> (objs (world s))
    /\ response_state d' = MSG_COMPLETE
    /\ downstream_connection d' = None
    /\ on_stream_close_callback (stream_id d) code env (world s1)
       = Ret 0
           (mkWorld (delete (stream_id d) (downstream_queue_ (world s)))
              (settings_timerev_ (world s1)) (delete p (objs (world s)))
              (trace (world s1)
               ++ [DeleteDownstream p
                     (with_request_state STREAM_CLOSED d')])%list).
Proof.
  intros Hevent Hfound Hobj Hopen Hconnected Hreset Hreply Hadd.
  destruct (origin_event_lets_go dconn events p d ans s Hevent Hobj Hopen
              Hreset Hreply Hadd)
    as (d' & cs & acts & Hrun & Hconn & Hsid & Hreq & Hresp).
  eexists _, d'. split; [exact Hrun |].
  split; [reflexivity |]. split; [reflexivity |].
  split; [exact Hresp |]. split; [exact Hconn |].
  rewrite (close_without_origin env _ (stream_id d) code p d');
    [ cbn [world on_world updated downstream_queue_ objs];
      rewrite delete_insert_eq; reflexivity
    | exact Hfound
    | apply lookup_insert_eq
    | exact Hsid
    | rewrite Hreq; exact Hconnected
    | exact Hconn ].
Qed.

Lemma failed_origin_never_pooled_witness :
  exists s1 d',
    Driver.downstream_eventcb 1%positive BEV_EVENT_ERROR 1%positive quiet
      (session_of (one_stream awaiting_body))
    = send_or_teardown quiet s1
    /\ objs (world s1) = <[1%positive := d']> (objs (one_stream awaiting_body))
    /\ downstream_connection d' = None
    /\ on_stream_close_callback 1 NGHTTP2_NO_ERROR default_env (world s1)
       = Ret 0
           (mkWorld (delete 1 (downstream_queue_ (one_stream awaiting_body)))
              (settings_timerev_ (world s1))
              (delete 1%positive (objs (one_stream awaiting_body)))
              (trace (world s1)
               ++ [DeleteDownstream 1%positive
                     (with_request_state STREAM_CLOSED d')])%list).
Proof.
  destruct (failed_origin_never_pooled 1%positive BEV_EVENT_ERROR 1%positive
              awaiting_body quiet (session_of (one_stream awaiting_body))
              default_env NGHTTP2_NO_ERROR)
    as (s1 & d' & Hrun & _ & Hobjs & _ & Hconn & Hclose);
    [ right; split; [reflexivity | split; [reflexivity | discriminate]]
    | reflexivity | reflexivity | discriminate | discriminate
    | vm_compute; discriminate | vm_compute; discriminate | reflexivity |].
  exists s1, d'. repeat split; assumption.
Defined.

(** ** The end of the session *)

(** X28.  The SETTINGS timer is freed exactly once.  The destructor
    deletes the codec's session and frees the timer when one is set;
    after [stop_settings_timer], which frees the timer and clears the
    handle, the destructor frees nothing more. *)
Theorem timer_freed_once (ans : Answers) (s : Session) :
  let freed := match settings_timerev_ (world s) with
               | Some ev => [EventFree ev]
               | None => []
               end in
  Driver.destroy ans s
  = Done tt (on_world (mkWorld (downstream_queue_ (world s))
                         (settings_timerev_ (world s)) (objs (world s))
                         (trace (world s) ++ freed)%list)
               (SessionDel :: (Bridge <$> freed)) s)
  /\ (lift stop_settings_timer;; Driver.destroy) ans s
     = Done tt (on_world (mkWorld (downstream_queue_ (world s)) None
                            (objs (world s)) (trace (world s) ++ freed)%list)
                  ((Bridge <$> freed) ++ [SessionDel]) s).
Proof.
  intros freed. subst freed.
  split; unfold Driver.destroy, stop_settings_timer; unfold_session;
    unfold_lift; unfold_all; session_lookups;
    destruct (settings_timerev_ (world s)) eqn:Htimer; unfold_all;
    session_lookups; unfold on_world, log_call;
    cbn [world input output flow_control_ actions fmap list_fmap
         downstream_queue_ settings_timerev_ objs trace];
    rewrite ?Htimer, ?app_nil_r, <- ?app_assoc; cbn [app];
    rewrite ?app_nil_r; try reflexivity;
    destruct s as [[] ? ? ? ?]; cbn in *; subst; reflexivity.
Qed.

Lemma timer_freed_once_witness :
  (lift stop_settings_timer;; Driver.destroy) quiet
    (session_of (with_timer (Some armed_timer) empty_world))
  = Done tt (on_world (mkWorld ∅ None ∅ [EventFree armed_timer])
               [Bridge (EventFree armed_timer); SessionDel]
               (session_of (with_timer (Some armed_timer) empty_world))).
Proof.
  destruct (timer_freed_once quiet
              (session_of (with_timer (Some armed_timer) empty_world)))
    as (_ & Hrun).
  exact Hrun.
Defined.
